(** * zos_reverse: a shallow embedding of the static analysis core

    The development follows the Python package [zos_reverse]:
    [ir.py] (records), [disassembler.py] (decoder and linear sweep),
    [cfg_builder.py] (CFG construction), [classifier.py] (region
    classification), [ingestion.py] (artifact loading) and [pipeline.py]
    (the driver).  Python integers are [Z], byte strings are [list Z] with
    every element in 0..255, [str] is [string], [Optional] is [option],
    a [dict] is an association list in insertion order, and a raised
    exception is the [Raise] case of [Result]. *)

From Stdlib Require Import ZArith List String Ascii Bool Lia QArith Lqa.
From Stdlib Require Import Sorted Permutation.
From Stdlib Require Import DecimalString.
Import ListNotations.
Open Scope string_scope.
Open Scope list_scope.
Open Scope Z_scope.

(** ** Python built-ins used by the package *)

Module Py.

(** Exceptions the modelled code can raise. *)
Inductive Exc : Type :=
| AttributeError (object_type attribute : string)
| UnboundLocalError (variable : string)
| ImportError (name module_name : string)
| OSError.

Inductive Result (A : Type) : Type :=
| Ok (a : A)
| Raise (e : Exc).
Arguments Ok {A} a.
Arguments Raise {A} e.

Definition bind {A B : Type} (m : Result A) (k : A -> Result B) : Result B :=
  match m with
  | Ok a => k a
  | Raise e => Raise e
  end.

Definition raises {A : Type} (m : Result A) : Prop :=
  exists e, m = Raise e.

(** [len(x)] as a Python integer. *)
Definition len {A : Type} (l : list A) : Z := Z.of_nat (List.length l).

(** [data[lo:hi]] for [0 <= lo]. *)
Definition slice {A : Type} (l : list A) (lo hi : nat) : list A :=
  firstn (hi - lo) (skipn lo l).

(** [data[i]] where the index is known to be in range; 0 stands for the
    [IndexError] case, which the callers below exclude by a length test. *)
Definition byte_at (l : list Z) (i : nat) : Z := nth i l 0.

(** [str(n)] *)
Definition str (n : Z) : string := NilZero.string_of_int (Z.to_int n).

Fixpoint upper_hex_digits (u : Hexadecimal.uint) : string :=
  match u with
  | Hexadecimal.Nil => ""
  | Hexadecimal.D0 u => String "0" (upper_hex_digits u)
  | Hexadecimal.D1 u => String "1" (upper_hex_digits u)
  | Hexadecimal.D2 u => String "2" (upper_hex_digits u)
  | Hexadecimal.D3 u => String "3" (upper_hex_digits u)
  | Hexadecimal.D4 u => String "4" (upper_hex_digits u)
  | Hexadecimal.D5 u => String "5" (upper_hex_digits u)
  | Hexadecimal.D6 u => String "6" (upper_hex_digits u)
  | Hexadecimal.D7 u => String "7" (upper_hex_digits u)
  | Hexadecimal.D8 u => String "8" (upper_hex_digits u)
  | Hexadecimal.D9 u => String "9" (upper_hex_digits u)
  | Hexadecimal.Da u => String "A" (upper_hex_digits u)
  | Hexadecimal.Db u => String "B" (upper_hex_digits u)
  | Hexadecimal.Dc u => String "C" (upper_hex_digits u)
  | Hexadecimal.Dd u => String "D" (upper_hex_digits u)
  | Hexadecimal.De u => String "E" (upper_hex_digits u)
  | Hexadecimal.Df u => String "F" (upper_hex_digits u)
  end.

Fixpoint zeros (n : nat) : string :=
  match n with
  | O => ""
  | S n => String "0" (zeros n)
  end.

Definition zfill (width : nat) (s : string) : string :=
  (zeros (width - String.length s) ++ s)%string.

(** [f"{n:0wX}"]: upper-case hexadecimal, zero-padded to [width]
    characters (the sign counts), never truncated. *)
Definition format_X (width : nat) (n : Z) : string :=
  if n <? 0
  then ("-" ++ zfill (width - 1) (upper_hex_digits (N.to_hex_uint (Z.to_N (- n)))))%string
  else zfill width (upper_hex_digits (N.to_hex_uint (Z.to_N n))).

(** [bytes.hex().upper()] *)
Fixpoint hex_upper (bs : list Z) : string :=
  match bs with
  | [] => ""
  | b :: bs => (format_X 2 b ++ hex_upper bs)%string
  end.

(** Every element of a [bytes] value is in 0..255. *)
Definition is_bytes (bs : list Z) : bool :=
  forallb (fun b => (0 <=? b) && (b <=? 255)) bs.

(** [struct.unpack('>H', b)[0]], [struct.unpack('>I', b)[0]]: big-endian
    unsigned value of a byte string. *)
Definition unpack_be (bs : list Z) : Z :=
  fold_left (fun acc b => acc * 256 + b) bs 0.

(** [struct.unpack('>i', b)[0]] for a 4-byte string. *)
Definition unpack_be_i32 (bs : list Z) : Z :=
  let u := unpack_be bs in
  if u <? 2147483648 then u else u - 4294967296.

(** [x in xs] for a list of integers / of strings. *)
Definition in_ints (x : Z) (xs : list Z) : bool := existsb (Z.eqb x) xs.
Definition in_strs (x : string) (xs : list string) : bool :=
  existsb (String.eqb x) xs.

(** [d.get(k)] for a dict with integer keys. *)
Fixpoint dict_get {V : Type} (d : list (Z * V)) (k : Z) : option V :=
  match d with
  | [] => None
  | (k', v) :: d => if k' =? k then Some v else dict_get d k
  end.

(** [d.get(k, default)] *)
Definition dict_get_default {V : Type} (d : list (Z * V)) (k : Z) (default : V) : V :=
  match dict_get d k with
  | Some v => v
  | None => default
  end.

(** [d[k] = v]: an existing key keeps its position. *)
Fixpoint dict_set {V : Type} (d : list (Z * V)) (k : Z) (v : V) : list (Z * V) :=
  match d with
  | [] => [(k, v)]
  | (k', v') :: d' => if k' =? k then (k', v) :: d' else (k', v') :: dict_set d' k v
  end.

(** [k in d] *)
Definition dict_mem {V : Type} (d : list (Z * V)) (k : Z) : bool :=
  match dict_get d k with
  | Some _ => true
  | None => false
  end.

(** Truthiness of an [Optional[int]]: [None] and [0] are both false. *)
Definition truthy_opt_int (o : option Z) : bool :=
  match o with
  | Some n => negb (n =? 0)
  | None => false
  end.

(** Truthiness of a list. *)
Definition truthy_list {A : Type} (l : list A) : bool :=
  match l with
  | [] => false
  | _ :: _ => true
  end.

(** [range(lo, lo + n)] *)
Fixpoint range_from (lo : Z) (n : nat) : list Z :=
  match n with
  | O => []
  | S n => lo :: range_from (lo + 1) n
  end.

(** [range(lo, hi)] *)
Definition range (lo hi : Z) : list Z := range_from lo (Z.to_nat (hi - lo)).

(** [from module import n1, n2, ...], given the names that the module
    binds at its top level: the names are looked up one after the other
    and the first that the module does not bind raises
    [ImportError: cannot import name ... from ...]. *)
Fixpoint import_from (module_name : string) (bound names : list string) : Result unit :=
  match names with
  | [] => Ok tt
  | name :: rest =>
      if in_strs name bound then import_from module_name bound rest
      else Raise (ImportError name module_name)
  end.

End Py.

Notation "x <- m ;; k" := (Py.bind m (fun x => k))
  (at level 61, m at next level, right associativity).

(** ** ir.py *)

Module Confidence.
Inductive t : Type := HIGH | MEDIUM | LOW.
End Confidence.

Module InstructionFormat.
Inductive t : Type :=
| RR | RX | RS | SI | SS | RRE | RXE | RXY | RSY | RIL | RIE | SSE | UNKNOWN.

Definition eqb (a b : t) : bool :=
  match a, b with
  | RR, RR | RX, RX | RS, RS | SI, SI | SS, SS | RRE, RRE | RXE, RXE
  | RXY, RXY | RSY, RSY | RIL, RIL | RIE, RIE | SSE, SSE
  | UNKNOWN, UNKNOWN => true
  | _, _ => false
  end.
End InstructionFormat.

Module BlockType.
Inductive t : Type := ENTRY | NORMAL | CALL | RETURN | BRANCH | UNKNOWN.
End BlockType.

Module Instruction.
Record t : Type := mk {
  address : Z;
  raw_bytes : list Z;
  hex_bytes : string;
  mnemonic : string;
  operands : list string;
  format : InstructionFormat.t;
  synthetic_label : option string;
  is_branch : bool;
  is_call : bool;
  is_return : bool;
  branch_target : option Z;
  annotation : option string;
  confidence : Confidence.t
}.

(** [{inst.address: inst for inst in instructions}], the address map that
    both the CFG builder and the region classifier build. *)
Definition address_map (insts : list t) : list (Z * t) :=
  fold_left (fun d inst => Py.dict_set d (address inst) inst) insts [].
End Instruction.

Module BasicBlock.
Record t : Type := mk {
  id : string;
  start_address : Z;
  end_address : Z;
  instructions : list Instruction.t;
  block_type : BlockType.t;
  predecessors : list string;
  successors : list string;
  fall_through : option string;
  branch_targets : list string;
  confidence : Confidence.t
}.
End BasicBlock.

Module Procedure.
Record t : Type := mk {
  id : string;
  name : string;
  entry_address : Z;
  exit_addresses : list Z;
  basic_blocks : list string;
  calls_to : list string;
  called_by : list string;
  confidence : Q;
  detection_method : string
}.
End Procedure.

Module ControlFlowGraph.
Record t : Type := mk {
  module_name : option string;
  entry_points : list Z;
  basic_blocks : list (string * BasicBlock.t);
  procedures : list (string * Procedure.t);
  call_graph : list (string * list string);
  unresolved_branches : list Z;
  data_regions : list (Z * Z)
}.

(** [ControlFlowGraph(module_name=..., entry_points=...)] *)
Definition init (module_name : option string) (entry_points : list Z) : t :=
  mk module_name entry_points [] [] [] [] [].

(** [self.basic_blocks.get(k)] *)
Fixpoint blocks_get (d : list (string * BasicBlock.t)) (k : string) : option BasicBlock.t :=
  match d with
  | [] => None
  | (k', b) :: d' => if String.eqb k' k then Some b else blocks_get d' k
  end.

(** [self.basic_blocks[k] = b] *)
Fixpoint blocks_set (d : list (string * BasicBlock.t)) (k : string) (b : BasicBlock.t)
  : list (string * BasicBlock.t) :=
  match d with
  | [] => [(k, b)]
  | (k', b') :: d' =>
      if String.eqb k' k then (k', b) :: d' else (k', b') :: blocks_set d' k b
  end.

(** An in-place change [f] of the block object stored under [k]. *)
Fixpoint blocks_modify (d : list (string * BasicBlock.t)) (k : string)
    (f : BasicBlock.t -> BasicBlock.t) : list (string * BasicBlock.t) :=
  match d with
  | [] => []
  | (k', b) :: d' =>
      if String.eqb k' k then (k', f b) :: d' else (k', b) :: blocks_modify d' k f
  end.

(** [s.add(x)] on a set of strings. *)
Definition ids_add (x : string) (s : list string) : list string :=
  if Py.in_strs x s then s else s ++ [x].

Definition with_blocks (self : t) (bb : list (string * BasicBlock.t)) : t :=
  mk (module_name self) (entry_points self) bb (procedures self) (call_graph self)
     (unresolved_branches self) (data_regions self).

Definition add_block (self : t) (block : BasicBlock.t) : t :=
  with_blocks self (blocks_set (basic_blocks self) (BasicBlock.id block) block).

Definition add_successor (to_id : string) (b : BasicBlock.t) : BasicBlock.t :=
  BasicBlock.mk (BasicBlock.id b) (BasicBlock.start_address b) (BasicBlock.end_address b)
    (BasicBlock.instructions b) (BasicBlock.block_type b) (BasicBlock.predecessors b)
    (ids_add to_id (BasicBlock.successors b)) (BasicBlock.fall_through b)
    (BasicBlock.branch_targets b) (BasicBlock.confidence b).

Definition add_predecessor (from_id : string) (b : BasicBlock.t) : BasicBlock.t :=
  BasicBlock.mk (BasicBlock.id b) (BasicBlock.start_address b) (BasicBlock.end_address b)
    (BasicBlock.instructions b) (BasicBlock.block_type b)
    (ids_add from_id (BasicBlock.predecessors b))
    (BasicBlock.successors b) (BasicBlock.fall_through b)
    (BasicBlock.branch_targets b) (BasicBlock.confidence b).

(** [add_edge(self, from_id, to_id)]: the two [add] calls run one after the
    other on the stored block objects (the same object when
    [from_id == to_id]). *)
Definition add_edge (self : t) (from_id to_id : string) : t :=
  match blocks_get (basic_blocks self) from_id, blocks_get (basic_blocks self) to_id with
  | Some _, Some _ =>
      let bb := blocks_modify (basic_blocks self) from_id (add_successor to_id) in
      let bb := blocks_modify bb to_id (add_predecessor from_id) in
      with_blocks self bb
  | _, _ => self
  end.

(** Edge symmetry over the block map: every successor id of a stored block
    resolves to a stored block that lists the block's key among its
    predecessors ([add_block] stores a block under its [id]). *)
Definition edges_symmetric (bb : list (string * BasicBlock.t)) : Prop :=
  forall (k s : string) (b : BasicBlock.t),
    blocks_get bb k = Some b ->
    In s (BasicBlock.successors b) ->
    exists b', blocks_get bb s = Some b' /\ In k (BasicBlock.predecessors b').
End ControlFlowGraph.

Module CsectInfo.
Record t : Type := mk { offset : Z; size : Z; type : string }.
End CsectInfo.

Module ModuleMetadata.
Record t : Type := mk {
  name : option string;
  format_type : string;
  entry_point : option Z;
  external_symbols : list string;
  csect_info : list CsectInfo.t;
  amode : option Z;
  rmode : option string;
  attributes : list (string * string)
}.

(** [ModuleMetadata()] *)
Definition default : t := mk None "unknown" None [] [] None None [].
End ModuleMetadata.

Module Statistics.
(** The dict built by [Disassembler._generate_statistics]; the keys
    ['processing_time'] and ['file_path'] are added by the pipeline and
    are absent ([None]) before. *)
Record t : Type := mk {
  instruction_count : Z;
  decoded_bytes : Z;
  unknown_bytes : Z;
  decode_rate : Q;
  branch_count : Z;
  call_count : Z;
  return_count : Z;
  top_mnemonics : list (string * Z);
  processing_time : option Q;
  file_path : option string
}.
End Statistics.

Module DisassemblyResult.
Record t : Type := mk {
  metadata : ModuleMetadata.t;
  instructions : list Instruction.t;
  cfg : ControlFlowGraph.t;
  unknown_regions : list (Z * Z * list Z);
  warnings : list string;
  statistics : Statistics.t
}.
End DisassemblyResult.

(** ** disassembler.py: [NativeDecoder] *)

Module NativeDecoder.

(** Instruction length table, keyed by the first opcode byte. *)
Definition OPCODE_LENGTHS : list (Z * Z) :=
  [ (0x00, 2); (0x01, 2); (0x02, 2); (0x03, 2); (0x04, 2); (0x05, 2); (0x06, 2); (0x07, 2);
    (0x08, 2); (0x09, 2); (0x0A, 2); (0x0B, 2); (0x0C, 2); (0x0D, 2); (0x0E, 2); (0x0F, 2);
    (0x10, 2); (0x11, 2); (0x12, 2); (0x13, 2); (0x14, 2); (0x15, 2); (0x16, 2); (0x17, 2);
    (0x18, 2); (0x19, 2); (0x1A, 2); (0x1B, 2); (0x1C, 2); (0x1D, 2); (0x1E, 2); (0x1F, 2);

    (0x40, 4); (0x41, 4); (0x42, 4); (0x43, 4); (0x44, 4); (0x45, 4); (0x46, 4); (0x47, 4);
    (0x48, 4); (0x49, 4); (0x4A, 4); (0x4B, 4); (0x4C, 4); (0x4D, 4); (0x4E, 4); (0x4F, 4);
    (0x50, 4); (0x51, 4); (0x54, 4); (0x55, 4); (0x56, 4); (0x57, 4); (0x58, 4); (0x59, 4);
    (0x5A, 4); (0x5B, 4); (0x5C, 4); (0x5D, 4); (0x5E, 4); (0x5F, 4);

    (0x86, 4); (0x87, 4); (0x88, 4); (0x89, 4); (0x8A, 4); (0x8B, 4); (0x8C, 4); (0x8D, 4);
    (0x8E, 4); (0x8F, 4); (0x90, 4); (0x91, 4); (0x92, 4); (0x94, 4); (0x95, 4); (0x96, 4);
    (0x97, 4); (0x98, 4); (0x99, 4); (0x9A, 4); (0x9B, 4);

    (0xD0, 6); (0xD1, 6); (0xD2, 6); (0xD3, 6); (0xD4, 6); (0xD5, 6); (0xD6, 6); (0xD7, 6);
    (0xD9, 6); (0xDA, 6); (0xDB, 6); (0xDC, 6); (0xDD, 6); (0xDE, 6); (0xDF, 6);
    (0xF0, 6); (0xF1, 6); (0xF2, 6); (0xF3, 6); (0xF8, 6); (0xF9, 6); (0xFA, 6); (0xFB, 6);
    (0xFC, 6); (0xFD, 6);

    (0xA5, 4); (0xA7, 4); (0xB2, 4); (0xB3, 4); (0xB9, 4);
    (0xC0, 6); (0xC2, 6); (0xC4, 6); (0xC6, 6); (0xC8, 6);
    (0xE3, 6); (0xE5, 4); (0xEB, 6); (0xEC, 6); (0xED, 6) ].

(** Mnemonic table, keyed by the first opcode byte. *)
Definition MNEMONICS : list (Z * string) :=
  [ (0x05, "BALR"); (0x0D, "BASR"); (0x07, "BCR"); (0x47, "BC");
    (0x18, "LR"); (0x58, "L"); (0x50, "ST"); (0x90, "STM"); (0x98, "LM");
    (0x41, "LA"); (0x1A, "AR"); (0x5A, "A"); (0x1B, "SR"); (0x5B, "S");
    (0x12, "LTR"); (0x55, "CL"); (0x95, "CLI"); (0x15, "CLR");
    (0x19, "CR"); (0x59, "C"); (0x89, "SLL"); (0x88, "SRL");
    (0x13, "LCR"); (0x11, "LNR"); (0x10, "LPR"); (0x14, "NR");
    (0x16, "OR"); (0x17, "XR"); (0x54, "N"); (0x56, "O"); (0x57, "X");
    (0x96, "OI"); (0x94, "NI"); (0x97, "XI"); (0x92, "MVI");
    (0x43, "IC"); (0x42, "STC"); (0x44, "EX"); (0x45, "BAL");
    (0x46, "BCT"); (0x8E, "SRDA"); (0x8C, "SRDL"); (0x8D, "SLDA");
    (0x86, "BXH"); (0x87, "BXLE"); (0xD2, "MVC"); (0xD5, "CLC");
    (0xDC, "TR"); (0xDD, "TRT"); (0xD1, "MVN"); (0xD3, "MVZ");
    (0xF1, "MVO"); (0xF2, "PACK"); (0xF3, "UNPK"); (0xD7, "XC");
    (0xD6, "OC"); (0xD4, "NC"); (0xD9, "MVCK"); (0xDA, "MVCP");
    (0xDB, "MVCS"); (0xDE, "ED"); (0xDF, "EDMK"); (0xFA, "AP");
    (0xFB, "SP"); (0xF8, "ZAP"); (0xF9, "CP"); (0xFC, "MP"); (0xFD, "DP") ].

Definition get_instruction_length (opcode : Z) : Z :=
  if Py.in_ints opcode [0xB2; 0xB3; 0xB9] then 4
  else if Py.in_ints opcode [0xE3; 0xEB; 0xEC; 0xED] then 6
  else if Py.in_ints opcode [0xC0; 0xC2; 0xC4; 0xC6; 0xC8] then 6
  else Py.dict_get_default OPCODE_LENGTHS opcode 2.

(** The register nibbles and the 12-bit displacement of a base-displacement
    field, as the decoder computes them. *)
Definition hi_nibble (b : Z) : Z := Z.land (Z.shiftr b 4) 0xF.
Definition lo_nibble (b : Z) : Z := Z.land b 0xF.
Definition disp12 (b_hi b_lo : Z) : Z := Z.lor (Z.shiftl (Z.land b_hi 0xF) 8) b_lo.

Definition _decode_instruction_details (inst_bytes : list Z)
  : string * list string * InstructionFormat.t :=
  let opcode := Py.byte_at inst_bytes 0 in
  let length := Py.len inst_bytes in
  let mnemonic := Py.dict_get_default MNEMONICS opcode "UNKNOWN" in
  if length =? 2 then
    if 2 <=? Py.len inst_bytes then
      let r1 := hi_nibble (Py.byte_at inst_bytes 1) in
      let r2 := lo_nibble (Py.byte_at inst_bytes 1) in
      (mnemonic, [Py.str r1; Py.str r2], InstructionFormat.RR)
    else (mnemonic, [], InstructionFormat.RR)
  else if length =? 4 then
    if (0x90 <=? opcode) && (opcode <=? 0x9B) then
      let i2 := Py.byte_at inst_bytes 1 in
      let b1 := hi_nibble (Py.byte_at inst_bytes 2) in
      let d1 := disp12 (Py.byte_at inst_bytes 2) (Py.byte_at inst_bytes 3) in
      (mnemonic,
       [("X'" ++ Py.format_X 2 i2 ++ "'")%string;
        (Py.str d1 ++ "(" ++ Py.str b1 ++ ")")%string],
       InstructionFormat.SI)
    else if Py.in_ints opcode [0x88; 0x89; 0x8A; 0x8B; 0x8C; 0x8D; 0x8E; 0x8F] then
      let r1 := hi_nibble (Py.byte_at inst_bytes 1) in
      let r3 := lo_nibble (Py.byte_at inst_bytes 1) in
      let b2 := hi_nibble (Py.byte_at inst_bytes 2) in
      let d2 := disp12 (Py.byte_at inst_bytes 2) (Py.byte_at inst_bytes 3) in
      (mnemonic,
       [Py.str r1; Py.str r3; (Py.str d2 ++ "(" ++ Py.str b2 ++ ")")%string],
       InstructionFormat.RS)
    else
      let r1 := hi_nibble (Py.byte_at inst_bytes 1) in
      let x2 := lo_nibble (Py.byte_at inst_bytes 1) in
      let b2 := hi_nibble (Py.byte_at inst_bytes 2) in
      let d2 := disp12 (Py.byte_at inst_bytes 2) (Py.byte_at inst_bytes 3) in
      if negb (x2 =? 0) then
        (mnemonic,
         [Py.str r1;
          (Py.str d2 ++ "(" ++ Py.str x2 ++ "," ++ Py.str b2 ++ ")")%string],
         InstructionFormat.RX)
      else
        (mnemonic,
         [Py.str r1; (Py.str d2 ++ "(" ++ Py.str b2 ++ ")")%string],
         InstructionFormat.RX)
  else if length =? 6 then
    if (0xD0 <=? opcode) && (opcode <=? 0xDF) then
      let ll := Py.byte_at inst_bytes 1 in
      let b1 := hi_nibble (Py.byte_at inst_bytes 2) in
      let d1 := disp12 (Py.byte_at inst_bytes 2) (Py.byte_at inst_bytes 3) in
      let b2 := hi_nibble (Py.byte_at inst_bytes 4) in
      let d2 := disp12 (Py.byte_at inst_bytes 4) (Py.byte_at inst_bytes 5) in
      (mnemonic,
       [(Py.str d1 ++ "(" ++ Py.str ll ++ "," ++ Py.str b1 ++ ")")%string;
        (Py.str d2 ++ "(" ++ Py.str b2 ++ ")")%string],
       InstructionFormat.SS)
    else if Py.in_ints opcode [0xC0; 0xC2; 0xC4; 0xC6; 0xC8] then
      let r1 := hi_nibble (Py.byte_at inst_bytes 1) in
      let i2 := Py.unpack_be (Py.slice inst_bytes 2 6) in
      (mnemonic,
       [Py.str r1; ("X'" ++ Py.format_X 8 i2 ++ "'")%string],
       InstructionFormat.RIL)
    else (mnemonic, [], InstructionFormat.UNKNOWN)
  else (mnemonic, [], InstructionFormat.UNKNOWN).

Definition _calculate_branch_target (inst_bytes : list Z) (address : Z)
    (fmt : InstructionFormat.t) : option Z :=
  if InstructionFormat.eqb fmt InstructionFormat.RX && (4 <=? Py.len inst_bytes) then
    let b2 := hi_nibble (Py.byte_at inst_bytes 2) in
    let d2 := disp12 (Py.byte_at inst_bytes 2) (Py.byte_at inst_bytes 3) in
    if b2 =? 0 then Some d2 else None
  else if InstructionFormat.eqb fmt InstructionFormat.RIL && (6 <=? Py.len inst_bytes) then
    let offset := Py.unpack_be_i32 (Py.slice inst_bytes 2 6) in
    Some (address + offset * 2)
  else None.

(** [operands and operands[0] == s] *)
Definition first_operand_is (operands : list string) (s : string) : bool :=
  match operands with
  | [] => false
  | o :: _ => String.eqb o s
  end.

Definition decode_instruction (data : list Z) (offset : nat) (address : Z)
  : option Instruction.t :=
  if Py.len data <=? Z.of_nat offset then None
  else
    let opcode := Py.byte_at data offset in
    let length := get_instruction_length opcode in
    if Z.of_nat offset + length >? Py.len data then None
    else
      let inst_bytes := Py.slice data offset (offset + Z.to_nat length) in
      let hex_str := Py.hex_upper inst_bytes in
      let '(mnemonic, operands, fmt) := _decode_instruction_details inst_bytes in
      let is_branch :=
        Py.in_strs mnemonic
          ["BC"; "BCR"; "BAL"; "BALR"; "BASR"; "BAS"; "BXH"; "BXLE"; "BCT"; "BCTR"] in
      let is_call := Py.in_strs mnemonic ["BALR"; "BASR"; "BAL"; "BAS"] in
      let is_return :=
        (String.eqb mnemonic "BCR" && first_operand_is operands "15")
        || (String.eqb mnemonic "BR" && first_operand_is operands "14") in
      let branch_target :=
        if is_branch && (4 <=? length)
        then _calculate_branch_target inst_bytes address fmt
        else None in
      Some (Instruction.mk address inst_bytes hex_str mnemonic operands fmt
              None is_branch is_call is_return branch_target None
              (if negb (String.eqb mnemonic "UNKNOWN")
               then Confidence.HIGH else Confidence.LOW)).

End NativeDecoder.

(** ** disassembler.py: [Disassembler] *)

Module Disassembler.

(** The object's attributes ([self.decoder] is the [NativeDecoder]). *)
Record t : Type := mk {
  instructions : list Instruction.t;
  unknown_regions : list (Z * Z * list Z)
}.

(** [Disassembler()] *)
Definition init : t := mk [] [].

(** The variables of the sweep loop in [disassemble]. *)
Record Sweep : Type := mkSweep {
  self : t;
  offset : nat;
  current_address : Z;
  unknown_start : option Z;
  unknown_bytes : list Z
}.

(** One iteration of the body of [while offset < len(data)]. *)
Definition sweep_body (data : list Z) (s : Sweep) : Sweep :=
  match NativeDecoder.decode_instruction data (offset s) (current_address s) with
  | Some inst =>
      let '(regions, ustart, ubytes) :=
        match unknown_start s with
        | Some us =>
            (unknown_regions (self s) ++ [(us, current_address s - 1, unknown_bytes s)],
             None, [])
        | None => (unknown_regions (self s), unknown_start s, unknown_bytes s)
        end in
      mkSweep (mk (instructions (self s) ++ [inst]) regions)
              (offset s + List.length (Instruction.raw_bytes inst))
              (current_address s + Py.len (Instruction.raw_bytes inst))
              ustart ubytes
  | None =>
      let ustart :=
        match unknown_start s with
        | None => Some (current_address s)
        | Some us => Some us
        end in
      mkSweep (self s) (offset s + 1) (current_address s + 1) ustart
              (unknown_bytes s ++ Py.slice data (offset s) (offset s + 1))
  end.

(** The loop, run for at most [fuel] iterations.  Every iteration moves
    [offset] forward, so [length data] iterations always reach the exit
    (lemma [sweep_exits] below). *)
Fixpoint sweep (fuel : nat) (data : list Z) (s : Sweep) : Sweep :=
  if (offset s <? List.length data)%nat then
    match fuel with
    | O => s
    | S fuel => sweep fuel data (sweep_body data s)
    end
  else s.

(** [mnemonic_counts[m] = mnemonic_counts.get(m, 0) + 1] *)
Fixpoint count_mnemonic (counts : list (string * Z)) (m : string) : list (string * Z) :=
  match counts with
  | [] => [(m, 0 + 1)]
  | (k, v) :: counts =>
      if String.eqb k m then (k, v + 1) :: counts
      else (k, v) :: count_mnemonic counts m
  end.

(** [sorted(items, key=lambda x: x[1], reverse=True)]: descending and
    stable, entries of equal count keep their order. *)
Fixpoint insert_desc (x : string * Z) (l : list (string * Z)) : list (string * Z) :=
  match l with
  | [] => [x]
  | y :: l' => if snd y <=? snd x then x :: l else y :: insert_desc x l'
  end.

Definition sorted_desc (l : list (string * Z)) : list (string * Z) :=
  fold_right insert_desc [] l.

(** [sum(1 for inst in insts if p(inst))] *)
Definition count_if (p : Instruction.t -> bool) (insts : list Instruction.t) : Z :=
  Py.len (filter p insts).

Definition sum_Z (l : list Z) : Z := fold_right Z.add 0 l.

Definition _generate_statistics (self : t) : Statistics.t :=
  let total_bytes :=
    sum_Z (map (fun inst => Py.len (Instruction.raw_bytes inst)) (instructions self)) in
  let unknown_bytes :=
    sum_Z (map (fun r => let '(start, end_, _) := r in end_ - start + 1)
               (unknown_regions self)) in
  let mnemonic_counts :=
    fold_left (fun counts inst => count_mnemonic counts (Instruction.mnemonic inst))
              (instructions self) [] in
  Statistics.mk
    (Py.len (instructions self))
    total_bytes
    unknown_bytes
    (if total_bytes + unknown_bytes >? 0
     then (inject_Z total_bytes / inject_Z (total_bytes + unknown_bytes))%Q
     else 0%Q)
    (count_if Instruction.is_branch (instructions self))
    (count_if Instruction.is_call (instructions self))
    (count_if Instruction.is_return (instructions self))
    (firstn 10 (sorted_desc mnemonic_counts))
    None None.

(** [disassemble(self, data, base_address, metadata)]: returns the updated
    object and the result.  The attributes the object had before the call
    are overwritten by the two assignments that open the method. *)
Definition disassemble (self0 : t) (data : list Z) (base_address : Z)
    (metadata : option ModuleMetadata.t) : t * DisassemblyResult.t :=
  let self1 := mk [] [] in
  let s := sweep (List.length data) data (mkSweep self1 0 base_address None []) in
  let self2 :=
    match unknown_start s with
    | Some us =>
        mk (instructions (self s))
           (unknown_regions (self s) ++ [(us, current_address s - 1, unknown_bytes s)])
    | None => self s
    end in
  let cfg :=
    ControlFlowGraph.init
      (match metadata with
       | Some md => ModuleMetadata.name md
       | None => Some "unknown"
       end)
      (match metadata with
       | Some md =>
           if Py.truthy_opt_int (ModuleMetadata.entry_point md)
           then match ModuleMetadata.entry_point md with
                | Some ep => [ep]
                | None => [base_address]
                end
           else [base_address]
       | None => [base_address]
       end) in
  let stats := _generate_statistics self2 in
  (self2,
   DisassemblyResult.mk
     (match metadata with Some md => md | None => ModuleMetadata.default end)
     (instructions self2) cfg (unknown_regions self2) [] stats).

End Disassembler.

(** ** cfg_builder.py: [CFGBuilder] *)

Module CFGBuilder.

(** The object's attributes.  [blocks] is created as a [dict] by
    [__init__] ([self.blocks: Dict[str, BasicBlock] = {}]) and no method
    rebinds it. *)
Record t : Type := mk {
  instructions : list Instruction.t;
  instruction_map : list (Z * Instruction.t);
  leaders : list Z;
  blocks : list (string * BasicBlock.t)
}.

(** [CFGBuilder()] *)
Definition init : t := mk [] [] [] [].

(** [s.add(x)] on a set of integers. *)
Definition leaders_add (x : Z) (s : list Z) : list Z :=
  if Py.in_ints x s then s else s ++ [x].

Definition _is_unconditional_branch (inst : Instruction.t) : bool :=
  if String.eqb (Instruction.mnemonic inst) "BC"
     && NativeDecoder.first_operand_is (Instruction.operands inst) "15" then true
  else if String.eqb (Instruction.mnemonic inst) "BCR"
     && NativeDecoder.first_operand_is (Instruction.operands inst) "15" then true
  else if String.eqb (Instruction.mnemonic inst) "B" then true
  else if String.eqb (Instruction.mnemonic inst) "BR" then true
  else false.

(** The body of [for i, inst in enumerate(self.instructions)] in
    [_find_leaders], run over the instructions from position [i] on:
    [i + 1 < len(self.instructions)] holds exactly when an instruction
    follows, and [self.instructions[i + 1]] is that instruction. *)
Fixpoint scan_leaders (imap : list (Z * Instruction.t)) (insts : list Instruction.t)
    (leaders : list Z) : list Z :=
  match insts with
  | [] => leaders
  | inst :: rest =>
      let add_next (ls : list Z) : list Z :=
        match rest with
        | next :: _ => leaders_add (Instruction.address next) ls
        | [] => ls
        end in
      let leaders :=
        if Instruction.is_branch inst then
          let leaders :=
            match Instruction.branch_target inst with
            | Some target =>
                if negb (target =? 0) && Py.dict_mem imap target
                then leaders_add target leaders else leaders
            | None => leaders
            end in
          if negb (_is_unconditional_branch inst) then add_next leaders else leaders
        else if Instruction.is_call inst then add_next leaders
        else if Instruction.is_return inst then add_next leaders
        else leaders in
      scan_leaders imap rest leaders
  end.

Definition _find_leaders (self : t) (entry_points : list Z) : t :=
  let leaders :=
    fold_left (fun ls ep => if Py.dict_mem (instruction_map self) ep
                            then leaders_add ep ls else ls)
              entry_points (leaders self) in
  let leaders :=
    match leaders, instructions self with
    | [], first :: _ => leaders_add (Instruction.address first) leaders
    | _, _ => leaders
    end in
  mk (instructions self) (instruction_map self)
     (scan_leaders (instruction_map self) (instructions self) leaders)
     (blocks self).

(** [sorted(self.leaders)] *)
Fixpoint insert_asc (x : Z) (l : list Z) : list Z :=
  match l with
  | [] => [x]
  | y :: l' => if x <=? y then x :: l else y :: insert_asc x l'
  end.

Definition sorted (l : list Z) : list Z := fold_right insert_asc [] l.

Definition _determine_block_type (instructions : list Instruction.t) : BlockType.t :=
  match instructions with
  | [] => BlockType.UNKNOWN
  | first_inst :: _ =>
      let last_inst := last instructions first_inst in
      if match Instruction.synthetic_label first_inst with
         | Some l => String.eqb l "ENTRY"
         | None => false
         end then BlockType.ENTRY
      else if existsb Instruction.is_call instructions then BlockType.CALL
      else if Instruction.is_return last_inst then BlockType.RETURN
      else if Instruction.is_branch last_inst then BlockType.BRANCH
      else BlockType.NORMAL
  end.

(** [self.blocks.append(block)]: [self.blocks] is a [dict], which has no
    [append] attribute. *)
Definition blocks_append (blocks : list (string * BasicBlock.t)) (block : BasicBlock.t)
  : Py.Result (list (string * BasicBlock.t)) :=
  Py.Raise (Py.AttributeError "dict" "append").

(** The body of [for i, leader in enumerate(sorted_leaders)] in
    [_create_basic_blocks], run over the sorted leaders from position [i]
    on ([i + 1 < len(sorted_leaders)] holds exactly when a leader
    follows). *)
Fixpoint create_blocks_from (insts : list Instruction.t) (sorted_leaders : list Z)
    (blocks : list (string * BasicBlock.t)) : Py.Result (list (string * BasicBlock.t)) :=
  match sorted_leaders with
  | [] => Py.Ok blocks
  | leader :: rest =>
      let end_addr :=
        match rest with
        | next :: _ => next - 1
        | [] =>
            match insts with
            | first :: _ =>
                let last_inst := last insts first in
                Instruction.address last_inst
                + Py.len (Instruction.raw_bytes last_inst) - 1
            | [] => leader
            end
        end in
      let block_instructions :=
        filter (fun inst => (leader <=? Instruction.address inst)
                            && (Instruction.address inst <=? end_addr)) insts in
      match block_instructions with
      | [] => create_blocks_from insts rest blocks
      | first :: _ =>
          let block_type := _determine_block_type block_instructions in
          let block_id := ("block_" ++ Py.format_X 8 leader)%string in
          let block :=
            BasicBlock.mk block_id leader
              (Instruction.address (last block_instructions first))
              block_instructions block_type [] [] None [] Confidence.HIGH in
          blocks <- blocks_append blocks block ;;
          create_blocks_from insts rest blocks
      end
  end.

Definition _create_basic_blocks (self : t) : Py.Result t :=
  blocks <- create_blocks_from (instructions self) (sorted (leaders self)) (blocks self) ;;
  Py.Ok (mk (instructions self) (instruction_map self) (leaders self) blocks).

(** [_add_control_flow_edges]: [for block_id, block in enumerate(self.blocks)]
    iterates over the keys of the dict, so [block] is a [str], and the
    first statement of the body, [if not block.instructions], raises.
    With no key the loop body is not entered and the empty list of
    unresolved branches is returned. *)
Definition _add_control_flow_edges (self : t) : Py.Result (t * list Z) :=
  match blocks self with
  | [] => Py.Ok (self, [])
  | (_, _) :: _ => Py.Raise (Py.AttributeError "str" "instructions")
  end.

(** Evaluating a name that is local to the running function and has not
    been bound yet. *)
Definition unbound_local {A : Type} (name : string) : Py.Result A :=
  Py.Raise (Py.UnboundLocalError name).

(** [build_cfg].  The statement [cfg.unresolved_branches.extend(unresolved)]
    evaluates [cfg], a name that the later statement
    [cfg = disasm_result.cfg] makes local to the function and that is not
    bound before it: the statement raises in every state, and control
    never reaches the statements after it ([_assign_synthetic_labels], the
    assignment of [cfg.basic_blocks], [_find_unresolved_branches] and the
    [return]). *)
Definition build_cfg (self : t) (disasm_result : DisassemblyResult.t)
  : Py.Result (t * ControlFlowGraph.t) :=
  let self :=
    mk (DisassemblyResult.instructions disasm_result)
       (Instruction.address_map (DisassemblyResult.instructions disasm_result))
       (leaders self) (blocks self) in
  let self :=
    _find_leaders self (ControlFlowGraph.entry_points (DisassemblyResult.cfg disasm_result)) in
  self <- _create_basic_blocks self ;;
  su <- _add_control_flow_edges self ;;
  let '(self, unresolved) := su in
  unbound_local "cfg".

End CFGBuilder.

(** ** cfg_builder.py: [ProcedureDetector] *)

Module ProcedureDetector.

(** The test that [_detect_prologues] applies to the first instruction of
    a block before it creates a [FUNC_] procedure:
    [first_inst.mnemonic == "STM" and first_inst.operands], then
    [len(first_inst.operands) >= 2 and first_inst.operands[0] == "14"]. *)
Definition prologue_pattern (first_inst : Instruction.t) : bool :=
  String.eqb (Instruction.mnemonic first_inst) "STM"
  && Py.truthy_list (Instruction.operands first_inst)
  && ((2 <=? Py.len (Instruction.operands first_inst))
      && NativeDecoder.first_operand_is (Instruction.operands first_inst) "14").

End ProcedureDetector.

(** ** ingestion.py *)

Module ProgramObjectHeader.
Record t : Type := mk {
  version : Z;
  flags : Z;
  text_size : Z;
  entry_offset : Z;
  external_count : Z;
  section_count : Z
}.
End ProgramObjectHeader.

Module BinaryIngestor.

Definition PDS_HEADER_SIZE : Z := 20.

Record t : Type := mk {
  data : list Z;
  metadata : ModuleMetadata.t;
  code_start : Z;
  code_end : Z
}.

(** [BinaryIngestor()] *)
Definition init : t := mk [] ModuleMetadata.default 0 0.

Definition with_metadata (self : t) (md : ModuleMetadata.t) : t :=
  mk (data self) md (code_start self) (code_end self).

Definition with_code (self : t) (cs ce : Z) : t :=
  mk (data self) (metadata self) cs ce.

Definition bytes_eqb (a b : list Z) : bool :=
  (List.length a =? List.length b)%nat
  && forallb (fun p => fst p =? snd p) (combine a b).

(** [data.startswith(pattern)] *)
Definition startswith (data pattern : list Z) : bool :=
  bytes_eqb (firstn (List.length pattern) data) pattern.

Definition _looks_like_load_module (self : t) : bool :=
  if Py.len (data self) <? 2 then false
  else existsb (startswith (data self))
         [ [0x47; 0xF0]; [0x90; 0xEC]; [0x18; 0x0F]; [0x05; 0xC0] ].

Definition _has_pds_header (self : t) : bool :=
  if Py.len (data self) <? PDS_HEADER_SIZE then false
  else forallb (fun byte => negb (negb (byte =? 0x40)
                                  && negb ((0xC1 <=? byte) && (byte <=? 0xE9))))
               (Py.slice (data self) 0 8).

(** [chr(ord(c) + n)] *)
Definition chr_from (c : ascii) (n : Z) : ascii :=
  ascii_of_nat (nat_of_ascii c + Z.to_nat n).

Fixpoint _ebcdic_to_ascii (ebcdic_bytes : list Z) : string :=
  match ebcdic_bytes with
  | [] => ""
  | byte :: rest =>
      let c :=
        if byte =? 0x40 then " "%char
        else if (0xC1 <=? byte) && (byte <=? 0xC9) then chr_from "A" (byte - 0xC1)
        else if (0xD1 <=? byte) && (byte <=? 0xD9) then chr_from "J" (byte - 0xD1)
        else if (0xE2 <=? byte) && (byte <=? 0xE9) then chr_from "S" (byte - 0xE2)
        else if (0xF0 <=? byte) && (byte <=? 0xF9) then chr_from "0" (byte - 0xF0)
        else "."%char in
      String c (_ebcdic_to_ascii rest)
  end.

(** [s.strip()] on the output of [_ebcdic_to_ascii], whose only
    whitespace character is the space. *)
Fixpoint lstrip (s : string) : string :=
  match s with
  | String " " s' => lstrip s'
  | _ => s
  end.

Fixpoint rstrip (s : string) : string :=
  match s with
  | EmptyString => EmptyString
  | String c s' =>
      match rstrip s' with
      | EmptyString => if Ascii.eqb c " " then EmptyString else String c EmptyString
      | r => String c r
      end
  end.

Definition strip (s : string) : string := rstrip (lstrip s).

(** [attributes[k] = v] *)
Fixpoint attributes_set (d : list (string * string)) (k v : string)
  : list (string * string) :=
  match d with
  | [] => [(k, v)]
  | (k', v') :: d' =>
      if String.eqb k' k then (k', v) :: d' else (k', v') :: attributes_set d' k v
  end.

Definition _extract_pds_info (self : t) (header : list Z) : t :=
  let md := metadata self in
  with_metadata self
    (ModuleMetadata.mk (ModuleMetadata.name md) (ModuleMetadata.format_type md)
       (ModuleMetadata.entry_point md) (ModuleMetadata.external_symbols md)
       (ModuleMetadata.csect_info md) (ModuleMetadata.amode md) (ModuleMetadata.rmode md)
       (attributes_set (ModuleMetadata.attributes md) "pds_member"
          (_ebcdic_to_ascii (Py.slice header 0 8)))).

Definition _extract_attributes (self : t) : t :=
  let md := metadata self in
  with_metadata self
    (ModuleMetadata.mk (ModuleMetadata.name md) (ModuleMetadata.format_type md)
       (ModuleMetadata.entry_point md) (ModuleMetadata.external_symbols md)
       (ModuleMetadata.csect_info md) (Some 31) (Some "ANY")
       (ModuleMetadata.attributes md)).

Definition set_entry_point (self : t) (ep : Z) : t :=
  let md := metadata self in
  with_metadata self
    (ModuleMetadata.mk (ModuleMetadata.name md) (ModuleMetadata.format_type md)
       (Some ep) (ModuleMetadata.external_symbols md)
       (ModuleMetadata.csect_info md) (ModuleMetadata.amode md) (ModuleMetadata.rmode md)
       (ModuleMetadata.attributes md)).

Definition set_format_type (self : t) (ft : string) : t :=
  let md := metadata self in
  with_metadata self
    (ModuleMetadata.mk (ModuleMetadata.name md) ft
       (ModuleMetadata.entry_point md) (ModuleMetadata.external_symbols md)
       (ModuleMetadata.csect_info md) (ModuleMetadata.amode md) (ModuleMetadata.rmode md)
       (ModuleMetadata.attributes md)).

Definition set_name (self : t) (name : string) : t :=
  let md := metadata self in
  with_metadata self
    (ModuleMetadata.mk (Some name) (ModuleMetadata.format_type md)
       (ModuleMetadata.entry_point md) (ModuleMetadata.external_symbols md)
       (ModuleMetadata.csect_info md) (ModuleMetadata.amode md) (ModuleMetadata.rmode md)
       (ModuleMetadata.attributes md)).

Definition _parse_load_module (self : t) : t :=
  let '(offset, self) :=
    if _has_pds_header self
    then (PDS_HEADER_SIZE,
          _extract_pds_info self (Py.slice (data self) 0 (Z.to_nat PDS_HEADER_SIZE)))
    else (0, self) in
  let self := with_code self offset (Py.len (data self)) in
  let self :=
    if code_start self <? Py.len (data self)
    then set_entry_point self (code_start self) else self in
  _extract_attributes self.

(** The first loop of [_extract_sections]: at most [count] external
    symbols, 16 bytes apart, stopping at the first that does not fit. *)
Fixpoint extract_externals (data : list Z) (count : nat) (offset : Z)
    (acc : list string) : Z * list string :=
  match count with
  | O => (offset, acc)
  | S count =>
      if offset + 16 >? Py.len data then (offset, acc)
      else
        let symbol_name := Py.slice data (Z.to_nat offset) (Z.to_nat (offset + 8)) in
        extract_externals data count (offset + 16)
          (acc ++ [strip (_ebcdic_to_ascii symbol_name)])
  end.

(** The second loop: at most [count] section descriptors, 20 bytes apart. *)
Fixpoint extract_csects (data : list Z) (count : nat) (offset : Z)
    (acc : list CsectInfo.t) : Z * list CsectInfo.t :=
  match count with
  | O => (offset, acc)
  | S count =>
      if offset + 20 >? Py.len data then (offset, acc)
      else
        let section_info :=
          CsectInfo.mk
            (Py.unpack_be (Py.slice data (Z.to_nat offset) (Z.to_nat (offset + 4))))
            (Py.unpack_be (Py.slice data (Z.to_nat (offset + 4)) (Z.to_nat (offset + 8))))
            "text" in
        extract_csects data count (offset + 20) (acc ++ [section_info])
  end.

Definition _extract_sections (self : t) (header : ProgramObjectHeader.t) : t :=
  let md := metadata self in
  let '(offset, externals) :=
    extract_externals (data self) (Z.to_nat (ProgramObjectHeader.external_count header))
      32 (ModuleMetadata.external_symbols md) in
  let '(_, csects) :=
    extract_csects (data self) (Z.to_nat (ProgramObjectHeader.section_count header))
      offset (ModuleMetadata.csect_info md) in
  with_metadata self
    (ModuleMetadata.mk (ModuleMetadata.name md) (ModuleMetadata.format_type md)
       (ModuleMetadata.entry_point md) externals csects
       (ModuleMetadata.amode md) (ModuleMetadata.rmode md)
       (ModuleMetadata.attributes md)).

Definition _parse_program_object (self : t) : t :=
  if Py.len (data self) <? 32 then self
  else
    let d := data self in
    let header :=
      ProgramObjectHeader.mk
        (Py.unpack_be (Py.slice d 2 4))
        (Py.unpack_be (Py.slice d 4 6))
        (Py.unpack_be (Py.slice d 8 12))
        (Py.unpack_be (Py.slice d 12 16))
        (Py.unpack_be (Py.slice d 16 18))
        (Py.unpack_be (Py.slice d 18 20)) in
    let self := with_code self 32 (code_end self) in
    let self :=
      with_code self (code_start self)
        (Z.min (code_start self + ProgramObjectHeader.text_size header) (Py.len d)) in
    let self := set_entry_point self (ProgramObjectHeader.entry_offset header) in
    _extract_sections self header.

(** [range(0, hi, 2)] *)
Definition range_even (hi : Z) : list Z :=
  map (fun k => 2 * k) (Py.range 0 ((hi + 1) / 2)).

Definition _apply_heuristics (self : t) : t :=
  let self := with_code self 0 (Py.len (data self)) in
  let entry_candidates :=
    filter (fun i =>
              let opcode := Py.slice (data self) (Z.to_nat i) (Z.to_nat (i + 2)) in
              if bytes_eqb opcode [0x90; 0xEC] then true
              else Py.in_ints (Py.byte_at opcode 0) [0x05; 0x0D])
           (range_even (Z.min 256 (Py.len (data self) - 2))) in
  match entry_candidates with
  | first :: _ => set_entry_point self first
  | [] => set_entry_point self 0
  end.

Definition _detect_format (self : t) : t :=
  if (4 <=? Py.len (data self)) && bytes_eqb (Py.slice (data self) 0 2) [0x00; 0x03]
  then _parse_program_object (set_format_type self "program_object")
  else if _looks_like_load_module self
  then _parse_load_module (set_format_type self "load_module")
  else _apply_heuristics (set_format_type self "unknown").

(** [load_file(self, file_path)].  [stem] is [file_path.stem]; [contents]
    is the outcome of [open(file_path, 'rb')] followed by [f.read()], the
    bytes of the file or the exception raised.  Every exception is caught
    by the method's [except Exception] clause and turned into the return
    value [False]; for a readable file no statement of the body raises. *)
Definition load_file (self : t) (stem : string) (contents : Py.Result (list Z)) : t * bool :=
  match contents with
  | Py.Raise _ => (self, false)
  | Py.Ok bytes =>
      let self := mk bytes (metadata self) (code_start self) (code_end self) in
      if Py.len (data self) <? 8 then (self, false)
      else
        let self := set_name self stem in
        let self := _detect_format self in
        (self, true)
  end.

(** The [try] block of [load_file] on its own: the exception of
    [open]/[read], if any, leaves the block before [self.data] is
    assigned. *)
Definition load_file_try (self : t) (stem : string) (contents : Py.Result (list Z))
  : Py.Result (t * bool) :=
  bytes <- contents ;;
  let self := mk bytes (metadata self) (code_start self) (code_end self) in
  if Py.len (data self) <? 8 then Py.Ok (self, false)
  else
    let self := set_name self stem in
    let self := _detect_format self in
    Py.Ok (self, true).

(** The call [load_file(file_path)] as its caller sees it: the clause
    [except Exception] answers every exception of the block with the
    return value [False], so the call itself returns normally. *)
Definition load_file_call (self : t) (stem : string) (contents : Py.Result (list Z))
  : Py.Result (t * bool) :=
  match load_file_try self stem contents with
  | Py.Ok r => Py.Ok r
  | Py.Raise _ => Py.Ok (self, false)
  end.

Definition get_code_bytes (self : t) : list Z :=
  Py.slice (data self) (Z.to_nat (code_start self)) (Z.to_nat (code_end self)).

Definition get_metadata (self : t) : ModuleMetadata.t := metadata self.

(** The dict returned by [get_statistics]. *)
Record IngestionStatistics : Type := mkIngestionStatistics {
  total_size : Z;
  code_size : Z;
  format : string;
  has_externals : bool;
  section_count : Z
}.

Definition get_statistics (self : t) : IngestionStatistics :=
  mkIngestionStatistics
    (Py.len (data self))
    (code_end self - code_start self)
    (ModuleMetadata.format_type (metadata self))
    (Py.len (ModuleMetadata.external_symbols (metadata self)) >? 0)
    (Py.len (ModuleMetadata.csect_info (metadata self))).

End BinaryIngestor.

(** ** classifier.py *)

Module RegionType.
Inductive t : Type := CODE | DATA | UNKNOWN.

Definition eqb (a b : t) : bool :=
  match a, b with
  | CODE, CODE | DATA, DATA | UNKNOWN, UNKNOWN => true
  | _, _ => false
  end.
End RegionType.

Module Region.
Record t : Type := mk {
  start_addr : Z;
  end_addr : Z;
  region_type : RegionType.t;
  confidence : Confidence.t;
  evidence : string;
  decode_rate : Q
}.
End Region.

Module RegionClassifier.

(** The thresholds are the float literals 0.70 and 0.30; the decode rate
    is the float quotient of two integers.  Both are kept as exact
    rationals here. *)
Definition CODE_THRESHOLD : Q := 70 # 100.
Definition DATA_THRESHOLD : Q := 30 # 100.

Section WithFormatting.

(** [f"{x:.2f}"] and [f"{x}"] for a float: rendering of floats is left
    abstract. *)
Variable format_2f : Q -> string.
Variable format_float : Q -> string.

(** The body of [for addr in range(start_addr, end_addr + 1)] in
    [_classify_section], restricted to the [decoded_bytes] counter (the
    other two counters are not read afterwards). *)
Definition count_step (inst_map : list (Z * Instruction.t))
    (decoded_bytes addr : Z) : Z :=
  match Py.dict_get inst_map addr with
  | Some inst =>
      if negb (String.eqb (Instruction.mnemonic inst) "UNKNOWN")
      then decoded_bytes + Py.len (Instruction.raw_bytes inst)
      else decoded_bytes
  | None => decoded_bytes
  end.

Definition count_decoded (inst_map : list (Z * Instruction.t)) (addrs : list Z) : Z :=
  fold_left (count_step inst_map) addrs 0.

Definition _classify_section (start_addr end_addr : Z) (data : list Z)
    (inst_map : list (Z * Instruction.t)) : Region.t :=
  let section_size := end_addr - start_addr + 1 in
  let decoded_bytes := count_decoded inst_map (Py.range start_addr (end_addr + 1)) in
  let decode_rate :=
    if section_size >? 0
    then (inject_Z decoded_bytes / inject_Z section_size)%Q
    else 0%Q in
  if Qlt_le_dec CODE_THRESHOLD decode_rate then
    Region.mk start_addr end_addr RegionType.CODE Confidence.HIGH
      ("decode_rate=" ++ format_2f decode_rate ++ " > " ++ format_float CODE_THRESHOLD)%string
      decode_rate
  else if Qlt_le_dec decode_rate DATA_THRESHOLD then
    Region.mk start_addr end_addr RegionType.DATA Confidence.MEDIUM
      ("decode_rate=" ++ format_2f decode_rate ++ " < " ++ format_float DATA_THRESHOLD)%string
      decode_rate
  else
    Region.mk start_addr end_addr RegionType.UNKNOWN Confidence.LOW
      ("decode_rate=" ++ format_2f decode_rate ++ " in uncertain range")%string
      decode_rate.

(** [_detect_constant_pools]: the regions are visited in order and
    updated in place; [done] holds the regions already visited. *)
Fixpoint detect_constant_pools_from (done todo : list Region.t) : list Region.t :=
  match todo with
  | [] => done
  | region :: rest =>
      let regions := done ++ region :: rest in
      let region_size := Region.end_addr region - Region.start_addr region + 1 in
      let has_code_before :=
        existsb (fun r => RegionType.eqb (Region.region_type r) RegionType.CODE
                          && (Region.end_addr r <? Region.start_addr region)) regions in
      let has_code_after :=
        existsb (fun r => RegionType.eqb (Region.region_type r) RegionType.CODE
                          && (Region.start_addr r >? Region.end_addr region)) regions in
      let region :=
        if RegionType.eqb (Region.region_type region) RegionType.UNKNOWN
           && (region_size <? 256) && has_code_before && has_code_after
        then Region.mk (Region.start_addr region) (Region.end_addr region)
               RegionType.DATA Confidence.MEDIUM
               "constant_pool_pattern (between code regions)"
               (Region.decode_rate region)
        else region in
      detect_constant_pools_from (done ++ [region]) rest
  end.

Definition _detect_constant_pools (regions : list Region.t) : list Region.t :=
  detect_constant_pools_from [] regions.

Definition classify (sections : list (Z * Z * list Z))
    (instructions : list Instruction.t) : list Region.t :=
  let inst_map := Instruction.address_map instructions in
  let regions :=
    map (fun sec => let '(start_addr, end_addr, data) := sec in
                    _classify_section start_addr end_addr data inst_map)
        sections in
  _detect_constant_pools regions.

End WithFormatting.

(** The three selectors and [get_statistics] read [self.regions], the
    list that the last call of [classify] left in the object. *)
Definition get_code_regions (regions : list Region.t) : list Region.t :=
  filter (fun r => RegionType.eqb (Region.region_type r) RegionType.CODE) regions.

Definition get_data_regions (regions : list Region.t) : list Region.t :=
  filter (fun r => RegionType.eqb (Region.region_type r) RegionType.DATA) regions.

Definition get_unknown_regions (regions : list Region.t) : list Region.t :=
  filter (fun r => RegionType.eqb (Region.region_type r) RegionType.UNKNOWN) regions.

(** [sum(r.end_addr - r.start_addr + 1 for r in regions)] *)
Definition region_bytes (regions : list Region.t) : Z :=
  fold_right Z.add 0 (map (fun r => Region.end_addr r - Region.start_addr r + 1) regions).

(** The dict returned by [get_statistics]; the percentages are float
    quotients, kept as exact rationals. *)
Record ClassificationStatistics : Type := mkClassificationStatistics {
  total_regions : Z;
  code_regions : Z;
  data_regions : Z;
  unknown_regions : Z;
  total_bytes : Z;
  code_bytes : Z;
  data_bytes : Z;
  unknown_bytes : Z;
  code_percentage : Q;
  data_percentage : Q;
  unknown_percentage : Q
}.

Definition get_statistics (regions : list Region.t) : ClassificationStatistics :=
  let total_bytes := region_bytes regions in
  let code_bytes := region_bytes (get_code_regions regions) in
  let data_bytes := region_bytes (get_data_regions regions) in
  let unknown_bytes := region_bytes (get_unknown_regions regions) in
  let percentage (part : Z) : Q :=
    if total_bytes >? 0
    then (inject_Z part / inject_Z total_bytes * 100)%Q
    else 0%Q in
  mkClassificationStatistics
    (Py.len regions)
    (Py.len (get_code_regions regions))
    (Py.len (get_data_regions regions))
    (Py.len (get_unknown_regions regions))
    total_bytes code_bytes data_bytes unknown_bytes
    (percentage code_bytes) (percentage data_bytes) (percentage unknown_bytes).

End RegionClassifier.

(** ** pipeline.py *)

(** The names that the modules imported by [pipeline.py] bind at their
    top level, in source order: the names they import themselves,
    [logger], and their classes.  [disassembler.py] binds no
    [ExternalDecoder] (line 224 is a comment saying that the class was
    removed). *)
Module Toplevel.

Definition ingestion : list string :=
  [ "struct"; "Path"; "Optional"; "Tuple"; "List"; "Dict"; "Any"; "dataclass";
    "logging"; "ModuleMetadata"; "logger"; "ArtifactFormat"; "LoadModuleHeader";
    "ProgramObjectHeader"; "BinaryIngestor" ].

Definition disassembler : list string :=
  [ "ABC"; "abstractmethod"; "List"; "Optional"; "Tuple"; "Dict"; "Any"; "dataclass";
    "struct"; "logging"; "Instruction"; "InstructionFormat"; "DisassemblyResult";
    "ModuleMetadata"; "ControlFlowGraph"; "Confidence"; "logger"; "DecoderInterface";
    "NativeDecoder"; "Disassembler" ].

Definition cfg_builder : list string :=
  [ "List"; "Dict"; "Set"; "Optional"; "Tuple"; "logging"; "Instruction"; "BasicBlock";
    "ControlFlowGraph"; "BlockType"; "DisassemblyResult"; "Procedure"; "logger";
    "CFGBuilder"; "ProcedureDetector" ].

Definition ir : list string :=
  [ "dataclass"; "field"; "List"; "Optional"; "Dict"; "Any"; "Set"; "Enum"; "json";
    "Confidence"; "InstructionFormat"; "BlockType"; "Instruction"; "BasicBlock";
    "Procedure"; "ControlFlowGraph"; "ModuleMetadata"; "DisassemblyResult" ].

End Toplevel.

Module ReverseEngineeringPipeline.

(** The statements of [pipeline.py] that import from the package (lines
    8-11).  They run when the module is imported, before the [class]
    statement of line 16 creates [ReverseEngineeringPipeline]; the
    standard-library imports of lines 3-6 succeed. *)
Definition module_imports : Py.Result unit :=
  imported <- Py.import_from "zos_reverse.ingestion" Toplevel.ingestion
                ["BinaryIngestor"] ;;
  imported <- Py.import_from "zos_reverse.disassembler" Toplevel.disassembler
                ["Disassembler"; "NativeDecoder"; "ExternalDecoder"] ;;
  imported <- Py.import_from "zos_reverse.cfg_builder" Toplevel.cfg_builder
                ["CFGBuilder"; "ProcedureDetector"] ;;
  Py.import_from "zos_reverse.ir" Toplevel.ir ["DisassemblyResult"].

Section WithEnvironment.

(** What the run reads from its environment: the two readings of
    [time.time()], the procedure detector applied to the CFG that
    [build_cfg] returns (it updates that CFG in place and may raise),
    and the rendering [f"{x:.1%}"] of a float. *)
Variable time_start time_end : Q.
Variable detect_procedures : ControlFlowGraph.t -> Py.Result ControlFlowGraph.t.
Variable format_percent : Q -> string.

(** [ReverseEngineeringPipeline().process_file(file_path)] as a program
    reaches it: the module is imported first, which runs
    [module_imports]; then the method runs its [try] block, and
    [except Exception] turns every exception of the block into the
    return value [None].  An exception of the import is not inside the
    [try] block and reaches the caller. *)
Definition process_file (path stem : string) (contents : Py.Result (list Z))
  : Py.Result (option DisassemblyResult.t) :=
  imported <- module_imports ;;
  let try_block : Py.Result (option DisassemblyResult.t) :=
      let start_time := time_start in
      let '(ingestor, loaded) := BinaryIngestor.load_file BinaryIngestor.init stem contents in
      if negb loaded then Py.Ok None
      else
        let metadata := BinaryIngestor.get_metadata ingestor in
        let code_bytes := BinaryIngestor.get_code_bytes ingestor in
        let '(_, disasm_result) :=
          Disassembler.disassemble Disassembler.init code_bytes
            (BinaryIngestor.code_start ingestor) (Some metadata) in
        bc <- CFGBuilder.build_cfg CFGBuilder.init disasm_result ;;
        let cfg := snd bc in
        cfg <- detect_procedures cfg ;;
        let elapsed_time := (time_end - start_time)%Q in
        let st := DisassemblyResult.statistics disasm_result in
        let st :=
          Statistics.mk
            (Statistics.instruction_count st) (Statistics.decoded_bytes st)
            (Statistics.unknown_bytes st) (Statistics.decode_rate st)
            (Statistics.branch_count st) (Statistics.call_count st)
            (Statistics.return_count st) (Statistics.top_mnemonics st)
            (Some elapsed_time) (Some path) in
        let warnings := DisassemblyResult.warnings disasm_result in
        let warnings :=
          if Qlt_le_dec (Statistics.decode_rate st) (1 # 2)
          then warnings ++
                 [("Low decode rate (" ++ format_percent (Statistics.decode_rate st) ++ ") - "
                   ++ "file may not be a valid z/OS binary or may use unsupported instructions")%string]
          else warnings in
        let warnings :=
          if Py.len (ControlFlowGraph.unresolved_branches cfg) >? 10
          then warnings ++
                 [("High number of unresolved branches ("
                   ++ Py.str (Py.len (ControlFlowGraph.unresolved_branches cfg)) ++ ") - "
                   ++ "control flow analysis may be incomplete")%string]
          else warnings in
        Py.Ok (Some (DisassemblyResult.mk
                       (DisassemblyResult.metadata disasm_result)
                       (DisassemblyResult.instructions disasm_result)
                       cfg
                       (DisassemblyResult.unknown_regions disasm_result)
                       warnings st)) in
  match try_block with
  | Py.Ok r => Py.Ok r
  | Py.Raise _ => Py.Ok None
  end.

End WithEnvironment.

End ReverseEngineeringPipeline.

(** ** Reference tables and test inputs *)

Module LengthTable.

Definition in_range (lo hi b : Z) : bool := (lo <=? b) && (b <=? hi).

(** The length table as the specification prints it (section 4.2.1):
    whole ranges of first bytes, and 2 for every byte outside them. *)
Definition spec_table_length (b : Z) : Z :=
  if in_range 0x00 0x1F b then 2
  else if in_range 0x40 0x5F b then 4
  else if in_range 0x86 0x9B b then 4
  else if Py.in_ints b [0xA5; 0xA7; 0xB2; 0xB3; 0xB9] then 4
  else if Py.in_ints b [0xC0; 0xC2; 0xC4; 0xC6; 0xC8] then 6
  else if in_range 0xD0 0xDF b then 6
  else if Py.in_ints b [0xE3; 0xEB; 0xEC; 0xED] then 6
  else if in_range 0xF0 0xFD b then 6
  else 2.

(** The same table with the entries the decoder's dictionary does not
    have (0x52, 0x53, 0x93, 0xD8, 0xF4-0xF7) taken out of the ranges, and
    with the entry it has in addition (0xE5). *)
Definition listed_table_length (b : Z) : Z :=
  if in_range 0x00 0x1F b then 2
  else if in_range 0x40 0x5F b && negb (Py.in_ints b [0x52; 0x53]) then 4
  else if in_range 0x86 0x9B b && negb (b =? 0x93) then 4
  else if Py.in_ints b [0xA5; 0xA7; 0xB2; 0xB3; 0xB9; 0xE5] then 4
  else if Py.in_ints b [0xC0; 0xC2; 0xC4; 0xC6; 0xC8] then 6
  else if in_range 0xD0 0xDF b && negb (b =? 0xD8) then 6
  else if Py.in_ints b [0xE3; 0xEB; 0xEC; 0xED] then 6
  else if in_range 0xF0 0xFD b && negb (in_range 0xF4 0xF7 b) then 6
  else 2.

End LengthTable.

(** The program of [test_synthetic_binary] (scenario 1 of the
    specification): BALR, STM, LA, L, A, ST, LM, BCR. *)
Definition scenario1 : list Z :=
  [0x05; 0xEF; 0x90; 0xEC; 0xD0; 0x0C; 0x41; 0x10; 0x01; 0x00; 0x58; 0x20; 0x10; 0x00;
   0x5A; 0x20; 0x02; 0x00; 0x50; 0x20; 0x10; 0x00; 0x98; 0xEC; 0xD0; 0x0C; 0x07; 0xFE].

(** The program of [test_cfg_builder]: a conditional branch, two paths and
    a common return. *)
Definition branch_program : list Z :=
  [0x05; 0xEF; 0x55; 0x20; 0x30; 0x00; 0x47; 0x80; 0x00; 0x14;
   0x41; 0x10; 0x01; 0x00; 0x47; 0xF0; 0x00; 0x1C;
   0x41; 0x10; 0x02; 0x00; 0x07; 0xFE].

(** ** Quantities the statements below are about *)

Module Layout.

Definition inst_len (inst : Instruction.t) : Z := Py.len (Instruction.raw_bytes inst).

(** Sum of the raw-byte lengths of a list of instructions. *)
Definition decoded_total (insts : list Instruction.t) : Z :=
  Disassembler.sum_Z (map (fun inst => Py.len (Instruction.raw_bytes inst)) insts).

(** Sum of the sizes [end - start + 1] of a list of unknown regions. *)
Definition unknown_total (regions : list (Z * Z * list Z)) : Z :=
  Disassembler.sum_Z (map (fun r => let '(start, end_, _) := r in end_ - start + 1) regions).

(** Bytes skipped since the last decoded instruction and not yet
    flushed to the unknown-region list. *)
Definition pending (s : Disassembler.Sweep) : Z :=
  match Disassembler.unknown_start s with
  | Some us => Disassembler.current_address s - us
  | None => 0
  end.

(** Every instruction is at least one byte long and ends at or before the
    address of every instruction after it in the list. *)
Fixpoint non_overlapping (insts : list Instruction.t) : bool :=
  match insts with
  | [] => true
  | i :: rest =>
      (1 <=? inst_len i)
      && forallb (fun j => Instruction.address i + inst_len i <=? Instruction.address j) rest
      && non_overlapping rest
  end.

(** Every instruction ends at or before [limit]. *)
Definition ends_by (limit : Z) (insts : list Instruction.t) : bool :=
  forallb (fun i => Instruction.address i + inst_len i <=? limit) insts.

(** No counted instruction (mnemonic other than "UNKNOWN") that starts in
    [start_addr, end_addr] extends past [end_addr]. *)
Definition contained (insts : list Instruction.t) (start_addr end_addr : Z) : bool :=
  forallb (fun i =>
             if (start_addr <=? Instruction.address i)
                && (Instruction.address i <=? end_addr)
                && negb (String.eqb (Instruction.mnemonic i) "UNKNOWN")
             then Instruction.address i + inst_len i - 1 <=? end_addr
             else true)
          insts.

End Layout.

(** ** What the sweep maintains *)

Module SweepInvariant.

(** An emitted instruction is what the decoder returns at its own offset,
    and it lies between the base address and [limit]. *)
Definition inst_ok (data : list Z) (base limit : Z) (inst : Instruction.t) : Prop :=
  NativeDecoder.decode_instruction data
    (Z.to_nat (Instruction.address inst - base)) (Instruction.address inst) = Some inst
  /\ base <= Instruction.address inst
  /\ Instruction.address inst + Py.len (Instruction.raw_bytes inst) <= limit.

(** A flushed unknown region [(start, end, bytes)] holds exactly the bytes
    of its inclusive address range, which ends before [limit] and starts
    within the last five bytes of the buffer. *)
Definition region_ok (data : list Z) (base limit : Z) (r : Z * Z * list Z) : Prop :=
  let '(start, end_, bytes) := r in
  base + Py.len data - 5 <= start
  /\ base <= start <= end_
  /\ end_ < limit
  /\ bytes = Py.slice data (Z.to_nat (start - base)) (Z.to_nat (end_ - base + 1)).

(** The unknown bytes collected since the last decoded instruction. *)
Definition pending_ok (data : list Z) (base : Z) (s : Disassembler.Sweep) : Prop :=
  match Disassembler.unknown_start s with
  | Some us =>
      base + Py.len data - 5 <= us
      /\ base <= us < Disassembler.current_address s
      /\ Disassembler.unknown_bytes s
         = Py.slice data (Z.to_nat (us - base)) (Disassembler.offset s)
  | None => Disassembler.unknown_bytes s = []
  end.

Definition holds (data : list Z) (base : Z) (s : Disassembler.Sweep) : Prop :=
  Disassembler.current_address s = base + Z.of_nat (Disassembler.offset s)
  /\ (Disassembler.offset s <= List.length data)%nat
  /\ Forall (inst_ok data base (Disassembler.current_address s))
            (Disassembler.instructions (Disassembler.self s))
  /\ Forall (region_ok data base (Disassembler.current_address s))
            (Disassembler.unknown_regions (Disassembler.self s))
  /\ pending_ok data base s
  /\ Layout.unknown_total (Disassembler.unknown_regions (Disassembler.self s))
     + Layout.pending s
     <= Z.max 0 (Z.of_nat (Disassembler.offset s) - (Py.len data - 5)).

End SweepInvariant.

(** ** Counting mnemonics *)

Module MnemonicCount.

(** Number of instructions of the stream that carry mnemonic [m]. *)
Definition occurrences (m : string) (insts : list Instruction.t) : Z :=
  Disassembler.count_if (fun i => String.eqb (Instruction.mnemonic i) m) insts.

(** [counts.get(m, 0)] *)
Fixpoint lookup (counts : list (string * Z)) (m : string) : Z :=
  match counts with
  | [] => 0
  | (k, v) :: rest => if String.eqb k m then v else lookup rest m
  end.

(** The order of a descending list: the later entry has the smaller or
    equal count. *)
Definition not_before (a b : string * Z) : Prop := snd b <= snd a.

End MnemonicCount.

(** ** One step of the leader scan *)

Module LeaderScan.

(** The leader that the instruction at position [i + 1], if any, becomes. *)
Definition add_next (rest : list Instruction.t) (ls : list Z) : list Z :=
  match rest with
  | next :: _ => CFGBuilder.leaders_add (Instruction.address next) ls
  | [] => ls
  end.

(** The leader that a branch target found in the address map becomes. *)
Definition add_target (imap : list (Z * Instruction.t)) (inst : Instruction.t)
    (ls : list Z) : list Z :=
  match Instruction.branch_target inst with
  | Some target =>
      if negb (target =? 0) && Py.dict_mem imap target
      then CFGBuilder.leaders_add target ls else ls
  | None => ls
  end.

(** The leaders after the loop body has run for [inst], followed by [rest]. *)
Definition step (imap : list (Z * Instruction.t)) (inst : Instruction.t)
    (rest : list Instruction.t) (ls : list Z) : list Z :=
  if Instruction.is_branch inst then
    let ls := add_target imap inst ls in
    if negb (CFGBuilder._is_unconditional_branch inst) then add_next rest ls else ls
  else if Instruction.is_call inst then add_next rest ls
  else if Instruction.is_return inst then add_next rest ls
  else ls.

End LeaderScan.

(** ** Entry-point candidates of the format heuristics *)

Module EntryHeuristic.

(** The two-byte window at offset [i] holds [90 EC] (STM 14,12,...) or
    starts with [05] (BALR) or [0D] (BASR). *)
Definition is_candidate (data : list Z) (i : Z) : Prop :=
  (Py.byte_at data (Z.to_nat i) = 0x90 /\ Py.byte_at data (Z.to_nat i + 1) = 0xEC)
  \/ Py.byte_at data (Z.to_nat i) = 0x05
  \/ Py.byte_at data (Z.to_nat i) = 0x0D.

(** The four two-byte prefixes that [_looks_like_load_module] accepts. *)
Definition entry_patterns : list (list Z) :=
  [ [0x47; 0xF0]; [0x90; 0xEC]; [0x18; 0x0F]; [0x05; 0xC0] ].

End EntryHeuristic.

(** ** The alphabet of the simplified EBCDIC conversion *)

Module EbcdicAlphabet.

(** A space, a full stop, an upper-case letter or a decimal digit. *)
Definition printable (c : ascii) : bool :=
  let n := nat_of_ascii c in
  (n =? 32)%nat || (n =? 46)%nat
  || ((65 <=? n)%nat && (n <=? 90)%nat)
  || ((48 <=? n)%nat && (n <=? 57)%nat).

End EbcdicAlphabet.

(** ** The constant-pool test of the classifier *)

Module ConstantPool.

(** Some CODE region of [regions] ends before [region] starts. *)
Definition has_code_before (regions : list Region.t) (region : Region.t) : bool :=
  existsb (fun r => RegionType.eqb (Region.region_type r) RegionType.CODE
                    && (Region.end_addr r <? Region.start_addr region)) regions.

(** Some CODE region of [regions] starts after [region] ends. *)
Definition has_code_after (regions : list Region.t) (region : Region.t) : bool :=
  existsb (fun r => RegionType.eqb (Region.region_type r) RegionType.CODE
                    && (Region.start_addr r >? Region.end_addr region)) regions.

(** The test that turns a region into a constant pool: it is UNKNOWN,
    shorter than 256 bytes and lies between two CODE regions. *)
Definition is_pool (regions : list Region.t) (region : Region.t) : bool :=
  RegionType.eqb (Region.region_type region) RegionType.UNKNOWN
  && (Region.end_addr region - Region.start_addr region + 1 <? 256)
  && has_code_before regions region && has_code_after regions region.

(** The update of one region, decided against the list [regions]. *)
Definition reclassify (regions : list Region.t) (region : Region.t) : Region.t :=
  if is_pool regions region
  then Region.mk (Region.start_addr region) (Region.end_addr region)
         RegionType.DATA Confidence.MEDIUM
         "constant_pool_pattern (between code regions)"
         (Region.decode_rate region)
  else region.

(** What the test reads of a region: whether it is CODE, and its bounds. *)
Definition view (r : Region.t) : bool * Z * Z :=
  (RegionType.eqb (Region.region_type r) RegionType.CODE,
   Region.start_addr r, Region.end_addr r).

End ConstantPool.

(** ** What a classified region records *)

Module Classified.

(** The confidence that goes with each region type. *)
Definition confidence_of (ty : RegionType.t) : Confidence.t :=
  match ty with
  | RegionType.CODE => Confidence.HIGH
  | RegionType.DATA => Confidence.MEDIUM
  | RegionType.UNKNOWN => Confidence.LOW
  end.

(** The type of a region agrees with its decode rate: CODE exactly above
    the code threshold, UNKNOWN only between the thresholds, DATA below
    the data threshold or as a small constant pool between them. *)
Definition consistent (r : Region.t) : Prop :=
  (Region.region_type r = RegionType.CODE
   <-> (RegionClassifier.CODE_THRESHOLD < Region.decode_rate r)%Q)
  /\ (Region.region_type r = RegionType.UNKNOWN ->
      (RegionClassifier.DATA_THRESHOLD <= Region.decode_rate r)%Q
      /\ (Region.decode_rate r <= RegionClassifier.CODE_THRESHOLD)%Q)
  /\ (Region.region_type r = RegionType.DATA ->
      (Region.decode_rate r < RegionClassifier.DATA_THRESHOLD)%Q
      \/ ((RegionClassifier.DATA_THRESHOLD <= Region.decode_rate r)%Q
          /\ (Region.decode_rate r <= RegionClassifier.CODE_THRESHOLD)%Q
          /\ Region.end_addr r - Region.start_addr r + 1 < 256
          /\ Region.evidence r = "constant_pool_pattern (between code regions)"))
  /\ Region.confidence r = confidence_of (Region.region_type r).

End Classified.

(** * Theorems *)

(** ** The decoder *)

Ltac split_byte p :=
  do 8 (try (destruct p as [p|p|]; try reflexivity)).

Lemma get_instruction_length_246 (b : Z) :
  NativeDecoder.get_instruction_length b = 2
  \/ NativeDecoder.get_instruction_length b = 4
  \/ NativeDecoder.get_instruction_length b = 6.
Proof.
  destruct b as [|p|p]; [left; reflexivity| |left; reflexivity].
  do 8 (try (destruct p as [p|p|];
             try (left; reflexivity);
             try (right; left; reflexivity);
             try (right; right; reflexivity))).
Qed.

Lemma mnemonic_STM_opcode (b : Z) :
  Py.dict_get_default NativeDecoder.MNEMONICS b "UNKNOWN" = "STM" -> b = 0x90.
Proof.
  destruct b as [|p|p]; try (cbv; discriminate).
  do 8 (try (destruct p as [p|p|];
             try (cbv; discriminate);
             try (intros _; reflexivity))).
Qed.

Lemma slice_length {A : Type} (l : list A) (lo n : nat) :
  (lo + n <= List.length l)%nat ->
  List.length (Py.slice l lo (lo + n)) = n.
Proof.
  intros H. unfold Py.slice.
  replace (lo + n - lo)%nat with n by lia.
  rewrite length_firstn, length_skipn. lia.
Qed.

Lemma slice_nth (l : list Z) (lo n k : nat) :
  (k < n)%nat ->
  Py.byte_at (Py.slice l lo (lo + n)) k = Py.byte_at l (lo + k).
Proof.
  intros H. unfold Py.byte_at, Py.slice.
  replace (lo + n - lo)%nat with n by lia.
  rewrite nth_firstn.
  destruct (Nat.ltb_spec k n) as [_|Hge]; [|lia].
  apply nth_skipn.
Qed.

Lemma len_nonneg {A : Type} (l : list A) : 0 <= Py.len l.
Proof. unfold Py.len. lia. Qed.

(** What a successful call of [decode_instruction] returns, field by field. *)
Lemma decode_instruction_inv (data : list Z) (offset : nat) (address : Z)
    (inst : Instruction.t) :
  NativeDecoder.decode_instruction data offset address = Some inst ->
  let L := NativeDecoder.get_instruction_length (Py.byte_at data offset) in
  let bs := Py.slice data offset (offset + Z.to_nat L) in
  let d := NativeDecoder._decode_instruction_details bs in
  (offset + Z.to_nat L <= List.length data)%nat
  /\ Py.len bs = L
  /\ Instruction.address inst = address
  /\ Instruction.raw_bytes inst = bs
  /\ Instruction.mnemonic inst = fst (fst d)
  /\ Instruction.operands inst = snd (fst d)
  /\ Instruction.format inst = snd d
  /\ Instruction.is_branch inst =
       Py.in_strs (fst (fst d))
         ["BC"; "BCR"; "BAL"; "BALR"; "BASR"; "BAS"; "BXH"; "BXLE"; "BCT"; "BCTR"]
  /\ Instruction.is_return inst =
       ((String.eqb (fst (fst d)) "BCR"
         && NativeDecoder.first_operand_is (snd (fst d)) "15")
        || (String.eqb (fst (fst d)) "BR"
            && NativeDecoder.first_operand_is (snd (fst d)) "14"))
  /\ Instruction.branch_target inst =
       (if Instruction.is_branch inst && (4 <=? L)
        then NativeDecoder._calculate_branch_target bs address (snd d)
        else None).
Proof.
  unfold NativeDecoder.decode_instruction.
  set (L := NativeDecoder.get_instruction_length (Py.byte_at data offset)).
  destruct (Py.len data <=? Z.of_nat offset) eqn:E1; [discriminate|].
  destruct (Z.of_nat offset + L >? Py.len data) eqn:E2; [discriminate|].
  assert (HL : L = 2 \/ L = 4 \/ L = 6) by apply get_instruction_length_246.
  assert (Hfit : (offset + Z.to_nat L <= List.length data)%nat).
  { unfold Py.len in E2. rewrite Z.gtb_ltb in E2. apply Z.ltb_ge in E2. lia. }
  assert (Hlen : Py.len (Py.slice data offset (offset + Z.to_nat L)) = L).
  { unfold Py.len. rewrite slice_length by exact Hfit. lia. }
  destruct (NativeDecoder._decode_instruction_details
              (Py.slice data offset (offset + Z.to_nat L))) as [[m o] f] eqn:Ed.
  intros H. injection H as <-. cbn [fst snd Instruction.address Instruction.raw_bytes
    Instruction.mnemonic Instruction.operands Instruction.format Instruction.is_branch
    Instruction.is_return Instruction.branch_target].
  repeat split; auto.
Qed.

(** C2 (as stated): the decoder's length function does not follow the
    printed table on every first byte; 0x52 lies in the range 0x40-0x5F,
    for which the table gives 4, and the decoder returns 2. *)
Lemma get_instruction_length_not_spec_table :
  ~ (forall b : Z, 0 <= b <= 255 ->
       NativeDecoder.get_instruction_length b = LengthTable.spec_table_length b).
Proof.
  intros H. specialize (H 0x52 ltac:(lia)). vm_compute in H. discriminate.
Qed.

(** C2 (amended): for every first opcode byte (indeed every integer) the
    decoder's length is the printed table restricted to the bytes its
    dictionary lists: 2 on 0x00-0x1F; 4 on 0x40-0x5F except 0x52 and 0x53;
    4 on 0x86-0x9B except 0x93; 4 on 0xA5, 0xA7, 0xB2, 0xB3, 0xB9 and 0xE5;
    6 on 0xC0, 0xC2, 0xC4, 0xC6, 0xC8; 6 on 0xD0-0xDF except 0xD8; 6 on
    0xE3, 0xEB, 0xEC, 0xED; 6 on 0xF0-0xF3 and 0xF8-0xFD; 2 elsewhere. *)
Theorem get_instruction_length_listed_table (b : Z) :
  NativeDecoder.get_instruction_length b = LengthTable.listed_table_length b.
Proof.
  destruct b as [|p|p]; [reflexivity| |reflexivity].
  split_byte p.
Qed.

(** C4: the decoder classifies [BCR 15,1] (bytes 07 F1) as a return, although
    its register operand is not 14: the test on the [BCR] side looks at the
    mask only, while the [BR] side of the same expression tests for 14. *)
Theorem bcr_15_1_is_return :
  exists inst,
    NativeDecoder.decode_instruction [0x07; 0xF1] 0 0 = Some inst
    /\ Instruction.mnemonic inst = "BCR"
    /\ Instruction.operands inst = ["15"; "1"]
    /\ Instruction.is_return inst = true.
Proof.
  eexists. split; [reflexivity|]. repeat split.
Qed.

(** C6 (as stated): decoding 47 F0 10 00 at address 0 does not give the
    operands ["15"; "4096(0)"] with target 0x1000. *)
Lemma bc_47F01000_not_absolute :
  ~ (exists inst,
       NativeDecoder.decode_instruction [0x47; 0xF0; 0x10; 0x00] 0 0 = Some inst
       /\ Instruction.mnemonic inst = "BC"
       /\ Instruction.operands inst = ["15"; "4096(0)"]
       /\ Instruction.is_branch inst = true
       /\ Instruction.branch_target inst = Some 0x1000).
Proof.
  intros [inst [H [_ [_ [_ Ht]]]]].
  vm_compute in H. injection H as <-. discriminate Ht.
Qed.

Lemma details_RX_length (bs : list Z) :
  snd (NativeDecoder._decode_instruction_details bs) = InstructionFormat.RX ->
  Py.len bs = 4.
Proof.
  unfold NativeDecoder._decode_instruction_details.
  destruct (Py.len bs =? 2) eqn:E2.
  - destruct (2 <=? Py.len bs); discriminate.
  - destruct (Py.len bs =? 4) eqn:E4.
    + intros _. apply Z.eqb_eq. exact E4.
    + destruct (Py.len bs =? 6).
      * repeat match goal with
               | |- context [if ?c then _ else _] => destruct c
               end; discriminate.
      * discriminate.
Qed.

(** C6 (amended): for every decoded branch instruction in RX format the
    target is the displacement d2 when the base register B2 is 0 and is
    absent when B2 is not 0; and bytes 47 F0 10 00 at address 0 decode to
    [BC] with operands ["15"; "0(1)"], is_branch true and no target (the
    base register is 1 and the displacement 0). *)
Theorem rx_branch_target (data : list Z) (offset : nat) (address : Z)
    (inst : Instruction.t) :
  NativeDecoder.decode_instruction data offset address = Some inst ->
  Instruction.is_branch inst = true ->
  Instruction.format inst = InstructionFormat.RX ->
  let b2 := NativeDecoder.hi_nibble (Py.byte_at (Instruction.raw_bytes inst) 2) in
  let d2 := NativeDecoder.disp12 (Py.byte_at (Instruction.raw_bytes inst) 2)
                                 (Py.byte_at (Instruction.raw_bytes inst) 3) in
  (b2 = 0 -> Instruction.branch_target inst = Some d2)
  /\ (b2 <> 0 -> Instruction.branch_target inst = None)
  /\ (exists i,
        NativeDecoder.decode_instruction [0x47; 0xF0; 0x10; 0x00] 0 0 = Some i
        /\ Instruction.mnemonic i = "BC"
        /\ Instruction.operands i = ["15"; "0(1)"]
        /\ Instruction.is_branch i = true
        /\ Instruction.branch_target i = None).
Proof.
  intros Hd Hb Hf.
  destruct (decode_instruction_inv _ _ _ _ Hd)
    as (Hfit & Hlen & _ & Hraw & _ & _ & Hfmt & _ & _ & Ht).
  rewrite Hfmt in Hf. pose proof (details_RX_length _ Hf) as H4.
  rewrite Hlen in H4.
  rewrite Hb in Ht. rewrite H4 in Hf, Hraw, Ht.
  cbn [andb Z.leb Z.compare Pos.compare Pos.compare_cont] in Ht.
  rewrite Hf, <- Hraw in Ht. unfold NativeDecoder._calculate_branch_target in Ht.
  assert (Hl4 : Py.len (Instruction.raw_bytes inst) = 4).
  { rewrite Hraw. unfold Py.len. rewrite slice_length; [reflexivity|].
    rewrite H4 in Hfit. exact Hfit. }
  rewrite Hl4 in Ht. cbn [InstructionFormat.eqb andb Z.leb Z.compare Pos.compare
                           Pos.compare_cont] in Ht.
  cbv zeta. split; [|split].
  - intros H0. rewrite H0 in Ht. exact Ht.
  - intros Hn. apply Z.eqb_neq in Hn. rewrite Hn in Ht. exact Ht.
  - eexists. split; [reflexivity|]. repeat split.
Qed.

Lemma rx_branch_target_witness :
  let inst :=
    Instruction.mk 0 [0x47; 0x80; 0x00; 0x14] "47800014" "BC" ["8"; "20(0)"]
      InstructionFormat.RX None true false false (Some 20) None Confidence.HIGH in
  NativeDecoder.decode_instruction [0x47; 0x80; 0x00; 0x14] 0 0 = Some inst
  /\ Instruction.is_branch inst = true
  /\ Instruction.format inst = InstructionFormat.RX
  /\ Instruction.branch_target inst = Some 20.
Proof.
  cbv zeta. split; [reflexivity|]. split; [reflexivity|]. split; [reflexivity|].
  refine (proj1 (rx_branch_target [0x47; 0x80; 0x00; 0x14] 0 0 _ _ _ _) _);
    reflexivity.
Defined.

(** ** The linear sweep *)

Lemma sweep_invariant (P : Disassembler.Sweep -> Prop) (data : list Z) :
  (forall s, P s -> (Disassembler.offset s < List.length data)%nat ->
             P (Disassembler.sweep_body data s)) ->
  forall fuel s, P s -> P (Disassembler.sweep fuel data s).
Proof.
  intros Hstep. induction fuel as [|fuel IH]; intros s Hs; simpl;
    destruct (Nat.ltb_spec (Disassembler.offset s) (List.length data)); auto.
Qed.

(** One iteration moves the offset forward and keeps it inside the buffer. *)
Lemma sweep_body_offset (data : list Z) (s : Disassembler.Sweep) :
  (Disassembler.offset s < List.length data)%nat ->
  (Disassembler.offset s < Disassembler.offset (Disassembler.sweep_body data s)
   <= List.length data)%nat.
Proof.
  intros Hlt. unfold Disassembler.sweep_body.
  destruct (NativeDecoder.decode_instruction data (Disassembler.offset s)
              (Disassembler.current_address s)) as [inst|] eqn:Hd.
  - destruct (decode_instruction_inv _ _ _ _ Hd) as (Hfit & Hlen & _ & Hraw & _).
    pose proof (get_instruction_length_246 (Py.byte_at data (Disassembler.offset s))) as HL.
    assert (Hn : List.length (Instruction.raw_bytes inst)
                 = Z.to_nat (NativeDecoder.get_instruction_length
                               (Py.byte_at data (Disassembler.offset s)))).
    { rewrite Hraw. apply slice_length. exact Hfit. }
    destruct (Disassembler.unknown_start s); cbn [Disassembler.offset]; lia.
  - cbn [Disassembler.offset]. lia.
Qed.

(** The fuel given by [disassemble] is enough: the sweep stops because the
    loop condition [offset < len(data)] fails, and more fuel changes
    nothing. *)
Lemma sweep_exits (data : list Z) :
  forall fuel s,
    (List.length data - Disassembler.offset s <= fuel)%nat ->
    (List.length data <= Disassembler.offset (Disassembler.sweep fuel data s))%nat.
Proof.
  induction fuel as [|fuel IH]; intros s Hf; simpl;
    destruct (Nat.ltb_spec (Disassembler.offset s) (List.length data)) as [Hlt|Hge];
    try lia.
  apply IH. pose proof (sweep_body_offset data s Hlt). lia.
Qed.

Lemma sweep_fuel_irrelevant (data : list Z) :
  forall fuel fuel' s,
    (List.length data - Disassembler.offset s <= fuel)%nat ->
    (List.length data - Disassembler.offset s <= fuel')%nat ->
    Disassembler.sweep fuel data s = Disassembler.sweep fuel' data s.
Proof.
  induction fuel as [|fuel IH]; intros fuel' s Hf Hf'.
  - destruct fuel'; simpl;
      destruct (Nat.ltb_spec (Disassembler.offset s) (List.length data)); auto; lia.
  - destruct fuel' as [|fuel']; simpl;
      destruct (Nat.ltb_spec (Disassembler.offset s) (List.length data)) as [Hlt|Hge];
      auto; try lia.
    pose proof (sweep_body_offset data s Hlt). apply IH; lia.
Qed.

Lemma sum_Z_snoc (l : list Z) (x : Z) :
  Disassembler.sum_Z (l ++ [x]) = Disassembler.sum_Z l + x.
Proof.
  unfold Disassembler.sum_Z. induction l as [|y l IH]; simpl; lia.
Qed.

Lemma decoded_total_snoc (insts : list Instruction.t) (inst : Instruction.t) :
  Layout.decoded_total (insts ++ [inst])
  = Layout.decoded_total insts + Py.len (Instruction.raw_bytes inst).
Proof. unfold Layout.decoded_total. rewrite map_app. apply sum_Z_snoc. Qed.

Lemma unknown_total_snoc (regions : list (Z * Z * list Z)) (s e : Z) (bs : list Z) :
  Layout.unknown_total (regions ++ [(s, e, bs)])
  = Layout.unknown_total regions + (e - s + 1).
Proof. unfold Layout.unknown_total. rewrite map_app. apply sum_Z_snoc. Qed.

(** The accounting invariant of the sweep: decoded bytes, flushed unknown
    bytes and pending unknown bytes add up to the offset. *)
Lemma sweep_accounting (data : list Z) (s : Disassembler.Sweep) :
  Layout.decoded_total (Disassembler.instructions (Disassembler.self s))
  + Layout.unknown_total (Disassembler.unknown_regions (Disassembler.self s))
  + Layout.pending s = Z.of_nat (Disassembler.offset s) ->
  (Disassembler.offset s < List.length data)%nat ->
  let s' := Disassembler.sweep_body data s in
  Layout.decoded_total (Disassembler.instructions (Disassembler.self s'))
  + Layout.unknown_total (Disassembler.unknown_regions (Disassembler.self s'))
  + Layout.pending s' = Z.of_nat (Disassembler.offset s').
Proof.
  intros Hinv Hlt. unfold Disassembler.sweep_body.
  destruct (NativeDecoder.decode_instruction data (Disassembler.offset s)
              (Disassembler.current_address s)) as [inst|] eqn:Hd.
  - unfold Layout.pending in *.
    destruct (Disassembler.unknown_start s) as [us|];
      cbn [Disassembler.self Disassembler.instructions Disassembler.unknown_regions
           Disassembler.offset Disassembler.unknown_start Disassembler.current_address];
      rewrite decoded_total_snoc; try rewrite unknown_total_snoc;
      unfold Py.len in *; lia.
  - unfold Layout.pending in *.
    destruct (Disassembler.unknown_start s) as [us|];
      cbn [Disassembler.self Disassembler.instructions Disassembler.unknown_regions
           Disassembler.offset Disassembler.unknown_start Disassembler.current_address];
      lia.
Qed.

(** C10: the linear sweep partitions the buffer: the raw-byte lengths of the
    emitted instructions and the sizes [end - start + 1] of the unknown
    regions add up to [len(data)], and so do the statistics
    [decoded_bytes] and [unknown_bytes]. *)
Theorem disassemble_partitions_buffer (self0 : Disassembler.t) (data : list Z)
    (base_address : Z) (metadata : option ModuleMetadata.t) :
  let r := snd (Disassembler.disassemble self0 data base_address metadata) in
  Layout.decoded_total (DisassemblyResult.instructions r)
  + Layout.unknown_total (DisassemblyResult.unknown_regions r) = Py.len data
  /\ Statistics.decoded_bytes (DisassemblyResult.statistics r)
     + Statistics.unknown_bytes (DisassemblyResult.statistics r) = Py.len data.
Proof.
  cbv zeta. unfold Disassembler.disassemble.
  set (s0 := Disassembler.mkSweep (Disassembler.mk [] []) 0 base_address None []).
  set (s := Disassembler.sweep (List.length data) data s0).
  assert (Hacc :
    Layout.decoded_total (Disassembler.instructions (Disassembler.self s))
    + Layout.unknown_total (Disassembler.unknown_regions (Disassembler.self s))
    + Layout.pending s = Z.of_nat (Disassembler.offset s)
    /\ (Disassembler.offset s <= List.length data)%nat).
  { unfold s. apply sweep_invariant.
    - intros t [Ht Hle] Hlt. split.
      + apply sweep_accounting; assumption.
      + apply sweep_body_offset. exact Hlt.
    - split; [reflexivity|]. cbn. lia. }
  assert (Hexit : (List.length data <= Disassembler.offset s)%nat).
  { unfold s. apply sweep_exits. lia. }
  destruct Hacc as [Hacc Hle].
  assert (Hoff : Z.of_nat (Disassembler.offset s) = Py.len data)
    by (unfold Py.len; lia).
  unfold Layout.pending in Hacc.
  cbn [snd DisassemblyResult.instructions DisassemblyResult.unknown_regions
       DisassemblyResult.statistics].
  unfold Disassembler._generate_statistics.
  cbn [Statistics.decoded_bytes Statistics.unknown_bytes].
  fold (Layout.decoded_total
          (Disassembler.instructions
             match Disassembler.unknown_start s with
             | Some us =>
                 Disassembler.mk (Disassembler.instructions (Disassembler.self s))
                   (Disassembler.unknown_regions (Disassembler.self s)
                    ++ [(us, Disassembler.current_address s - 1, Disassembler.unknown_bytes s)])
             | None => Disassembler.self s
             end)).
  fold (Layout.unknown_total
          (Disassembler.unknown_regions
             match Disassembler.unknown_start s with
             | Some us =>
                 Disassembler.mk (Disassembler.instructions (Disassembler.self s))
                   (Disassembler.unknown_regions (Disassembler.self s)
                    ++ [(us, Disassembler.current_address s - 1, Disassembler.unknown_bytes s)])
             | None => Disassembler.self s
             end)).
  destruct (Disassembler.unknown_start s) as [us|];
    cbn [Disassembler.instructions Disassembler.unknown_regions];
    try rewrite unknown_total_snoc; split; lia.
Qed.

(** ** The region classifier *)

Lemma dict_get_set {V : Type} (d : list (Z * V)) (k : Z) (v : V) (k' : Z) :
  Py.dict_get (Py.dict_set d k v) k'
  = if k =? k' then Some v else Py.dict_get d k'.
Proof.
  induction d as [|[k0 v0] d IH]; simpl.
  - destruct (k =? k'); reflexivity.
  - destruct (Z.eqb_spec k0 k) as [->|Hne]; simpl.
    + destruct (k =? k'); reflexivity.
    + destruct (Z.eqb_spec k0 k') as [->|Hne'].
      * destruct (Z.eqb_spec k k'); [congruence|reflexivity].
      * exact IH.
Qed.

(** Every entry of the address map is an instruction of the list, filed
    under its own address. *)
Lemma instruction_map_sound (insts : list Instruction.t) (a : Z) (i : Instruction.t) :
  Py.dict_get (Instruction.address_map insts) a = Some i ->
  In i insts /\ Instruction.address i = a.
Proof.
  unfold Instruction.address_map.
  assert (H : forall l d,
             Py.dict_get
               (fold_left (fun d inst => Py.dict_set d (Instruction.address inst) inst)
                          l d) a = Some i ->
             Py.dict_get d a = Some i \/ (In i l /\ Instruction.address i = a)).
  { induction l as [|x l IH]; intros d Hg; simpl in Hg.
    - left. exact Hg.
    - destruct (IH _ Hg) as [Hd|[Hin Ha]].
      + rewrite dict_get_set in Hd.
        destruct (Z.eqb_spec (Instruction.address x) a) as [Hx|Hx].
        * injection Hd as <-. right. split; [left; reflexivity|exact Hx].
        * left. exact Hd.
      + right. split; [right; exact Hin|exact Ha]. }
  intros Hg. destruct (H _ _ Hg) as [Hd|Hr]; [discriminate Hd|exact Hr].
Qed.

Lemma non_overlapping_len (insts : list Instruction.t) (i : Instruction.t) :
  Layout.non_overlapping insts = true -> In i insts -> 1 <= Layout.inst_len i.
Proof.
  induction insts as [|x l IH]; simpl; intros H Hin; [contradiction|].
  apply andb_prop in H. destruct H as [H Hl]. apply andb_prop in H. destruct H as [Hx _].
  destruct Hin as [->|Hin]; [apply Z.leb_le; exact Hx|auto].
Qed.

(** In a non-overlapping list an instruction at a lower address ends at or
    before any instruction at a higher address. *)
Lemma non_overlapping_In (insts : list Instruction.t) (i j : Instruction.t) :
  Layout.non_overlapping insts = true ->
  In i insts -> In j insts ->
  Instruction.address i < Instruction.address j ->
  Instruction.address i + Layout.inst_len i <= Instruction.address j.
Proof.
  induction insts as [|x l IH]; simpl; intros H Hi Hj Hlt; [contradiction|].
  apply andb_prop in H. destruct H as [H Hl]. apply andb_prop in H. destruct H as [Hx Hall].
  rewrite forallb_forall in Hall. apply Z.leb_le in Hx.
  destruct Hi as [->|Hi], Hj as [->|Hj].
  - lia.
  - apply Z.leb_le. apply Hall. exact Hj.
  - specialize (Hall _ Hi). apply Z.leb_le in Hall. lia.
  - apply IH; assumption.
Qed.

Lemma non_overlapping_snoc (insts : list Instruction.t) (x : Instruction.t) :
  Layout.non_overlapping insts = true ->
  Layout.ends_by (Instruction.address x) insts = true ->
  1 <= Layout.inst_len x ->
  Layout.non_overlapping (insts ++ [x]) = true.
Proof.
  unfold Layout.ends_by.
  induction insts as [|y l IH]; simpl; intros H He Hx.
  - rewrite !andb_true_r. apply Z.leb_le. exact Hx.
  - apply andb_prop in H. destruct H as [H Hl]. apply andb_prop in H. destruct H as [Hy Hall].
    apply andb_prop in He. destruct He as [Hey Hel].
    rewrite Hy, forallb_app, Hall. simpl. rewrite Hey. simpl. apply IH; assumption.
Qed.

Lemma ends_by_mono (insts : list Instruction.t) (a b : Z) :
  a <= b -> Layout.ends_by a insts = true -> Layout.ends_by b insts = true.
Proof.
  unfold Layout.ends_by. intros Hab H. rewrite forallb_forall in *.
  intros x Hx. specialize (H x Hx). apply Z.leb_le in H. apply Z.leb_le. lia.
Qed.

(** The instruction stream of the sweep is address-ordered and free of
    overlaps. *)
Lemma sweep_non_overlapping (data : list Z) (s : Disassembler.Sweep) :
  Layout.non_overlapping (Disassembler.instructions (Disassembler.self s)) = true
  /\ Layout.ends_by (Disassembler.current_address s)
       (Disassembler.instructions (Disassembler.self s)) = true ->
  (Disassembler.offset s < List.length data)%nat ->
  let s' := Disassembler.sweep_body data s in
  Layout.non_overlapping (Disassembler.instructions (Disassembler.self s')) = true
  /\ Layout.ends_by (Disassembler.current_address s')
       (Disassembler.instructions (Disassembler.self s')) = true.
Proof.
  intros [Hno He] Hlt. unfold Disassembler.sweep_body.
  destruct (NativeDecoder.decode_instruction data (Disassembler.offset s)
              (Disassembler.current_address s)) as [inst|] eqn:Hd.
  - destruct (decode_instruction_inv _ _ _ _ Hd) as (Hfit & Hlen & Haddr & Hraw & _).
    pose proof (get_instruction_length_246 (Py.byte_at data (Disassembler.offset s))) as HL.
    assert (Hil : 2 <= Layout.inst_len inst).
    { unfold Layout.inst_len. rewrite Hraw, Hlen. lia. }
    assert (Hgoal :
      Layout.non_overlapping (Disassembler.instructions (Disassembler.self s) ++ [inst]) = true
      /\ Layout.ends_by (Disassembler.current_address s + Py.len (Instruction.raw_bytes inst))
           (Disassembler.instructions (Disassembler.self s) ++ [inst]) = true).
    { split.
      - apply non_overlapping_snoc; [exact Hno|rewrite Haddr; exact He|lia].
      - unfold Layout.ends_by. rewrite forallb_app. apply andb_true_intro. split.
        + apply (ends_by_mono _ (Disassembler.current_address s)); [|exact He].
          unfold Layout.inst_len in Hil. lia.
        + simpl. rewrite andb_true_r. apply Z.leb_le. rewrite Haddr.
          unfold Layout.inst_len. lia. }
    destruct (Disassembler.unknown_start s); exact Hgoal.
  - cbn [Disassembler.self Disassembler.current_address]. split; [exact Hno|].
    apply (ends_by_mono _ (Disassembler.current_address s)); [lia|exact He].
Qed.

Lemma disassemble_non_overlapping (self0 : Disassembler.t) (data : list Z)
    (base_address : Z) (metadata : option ModuleMetadata.t) :
  Layout.non_overlapping
    (DisassemblyResult.instructions
       (snd (Disassembler.disassemble self0 data base_address metadata))) = true.
Proof.
  unfold Disassembler.disassemble.
  set (s0 := Disassembler.mkSweep (Disassembler.mk [] []) 0 base_address None []).
  set (s := Disassembler.sweep (List.length data) data s0).
  assert (H : Layout.non_overlapping (Disassembler.instructions (Disassembler.self s)) = true
              /\ Layout.ends_by (Disassembler.current_address s)
                   (Disassembler.instructions (Disassembler.self s)) = true).
  { unfold s. apply sweep_invariant.
    - intros t Ht Hlt. apply sweep_non_overlapping; assumption.
    - split; reflexivity. }
  cbn [snd DisassemblyResult.instructions].
  destruct (Disassembler.unknown_start s); apply H.
Qed.

Lemma count_fold_acc (imap : list (Z * Instruction.t)) (l : list Z) :
  forall acc,
    fold_left (RegionClassifier.count_step imap) l acc
    = acc + fold_left (RegionClassifier.count_step imap) l 0.
Proof.
  induction l as [|b l IH]; intros acc; simpl; [lia|].
  rewrite IH. symmetry. rewrite IH. unfold RegionClassifier.count_step.
  destruct (Py.dict_get imap b) as [i|]; [destruct (negb _)|]; lia.
Qed.

Lemma count_decoded_cons (imap : list (Z * Instruction.t)) (a : Z) (l : list Z) :
  RegionClassifier.count_decoded imap (a :: l)
  = RegionClassifier.count_step imap 0 a + RegionClassifier.count_decoded imap l.
Proof.
  unfold RegionClassifier.count_decoded. simpl. apply count_fold_acc.
Qed.

Lemma count_decoded_app (imap : list (Z * Instruction.t)) (l1 l2 : list Z) :
  RegionClassifier.count_decoded imap (l1 ++ l2)
  = RegionClassifier.count_decoded imap l1 + RegionClassifier.count_decoded imap l2.
Proof.
  induction l1 as [|a l1 IH]; simpl.
  - reflexivity.
  - rewrite !count_decoded_cons, IH. lia.
Qed.

Lemma count_decoded_nonneg (imap : list (Z * Instruction.t)) (l : list Z) :
  0 <= RegionClassifier.count_decoded imap l.
Proof.
  induction l as [|a l IH].
  - reflexivity.
  - rewrite count_decoded_cons. unfold RegionClassifier.count_step.
    destruct (Py.dict_get imap a) as [i|]; [destruct (negb _)|];
      try pose proof (len_nonneg (Instruction.raw_bytes i)); lia.
Qed.

Lemma range_from_app (a : Z) (p q : nat) :
  Py.range_from a (p + q) = Py.range_from a p ++ Py.range_from (a + Z.of_nat p) q.
Proof.
  revert a. induction p as [|p IH]; intros a; simpl.
  - f_equal. lia.
  - f_equal. rewrite IH. f_equal. f_equal. lia.
Qed.

Lemma count_decoded_none (imap : list (Z * Instruction.t)) :
  forall (p : nat) (a : Z),
    (forall k, a <= k < a + Z.of_nat p -> Py.dict_get imap k = None) ->
    RegionClassifier.count_decoded imap (Py.range_from a p) = 0.
Proof.
  induction p as [|p IH]; intros a H; [reflexivity|].
  simpl. rewrite count_decoded_cons, IH.
  - unfold RegionClassifier.count_step. rewrite H; [reflexivity|lia].
  - intros k Hk. apply H. lia.
Qed.

(** The counting argument: over a window of [n] addresses in which every
    counted instruction also ends, the decoded bytes are at most [n]. *)
Lemma count_decoded_bounded (imap : list (Z * Instruction.t)) (insts : list Instruction.t) :
  (forall a i, Py.dict_get imap a = Some i -> In i insts /\ Instruction.address i = a) ->
  Layout.non_overlapping insts = true ->
  forall (n : nat) (a : Z),
    (forall i, In i insts ->
               a <= Instruction.address i < a + Z.of_nat n ->
               String.eqb (Instruction.mnemonic i) "UNKNOWN" = false ->
               Instruction.address i + Layout.inst_len i <= a + Z.of_nat n) ->
    RegionClassifier.count_decoded imap (Py.range_from a n) <= Z.of_nat n.
Proof.
  intros Hmap Hno n. induction n as [n IH] using lt_wf_ind. intros a Hin.
  destruct n as [|m]; [simpl; reflexivity|].
  simpl. rewrite count_decoded_cons.
  assert (Hskip : RegionClassifier.count_decoded imap (Py.range_from (a + 1) m)
                  <= Z.of_nat m).
  { apply IH; [lia|]. intros i Hi Ha Hk.
    specialize (Hin i Hi ltac:(lia) Hk). lia. }
  unfold RegionClassifier.count_step.
  destruct (Py.dict_get imap a) as [i|] eqn:Hg; [|lia].
  destruct (String.eqb (Instruction.mnemonic i) "UNKNOWN") eqn:Hk; simpl; [lia|].
  destruct (Hmap _ _ Hg) as [Hi Ha].
  pose proof (non_overlapping_len _ _ Hno Hi) as Hl1.
  pose proof (Hin i Hi ltac:(lia) Hk) as Hend.
  fold (Layout.inst_len i).
  set (p := Z.to_nat (Layout.inst_len i - 1)).
  assert (Hm : m = (p + (m - p))%nat) by (unfold p; lia).
  rewrite Hm, range_from_app, count_decoded_app.
  rewrite count_decoded_none.
  - assert (Hrest : RegionClassifier.count_decoded imap
                      (Py.range_from (a + 1 + Z.of_nat p) (m - p))
                    <= Z.of_nat (m - p)).
    { apply IH; [lia|]. intros j Hj Haj Hkj.
      specialize (Hin j Hj ltac:(unfold p in Haj; lia) Hkj). unfold p. lia. }
    unfold p in *. lia.
  - intros k Hk'. destruct (Py.dict_get imap k) as [j|] eqn:Hgj; [|reflexivity].
    destruct (Hmap _ _ Hgj) as [Hj Haj].
    pose proof (non_overlapping_In _ _ _ Hno Hi Hj ltac:(lia)). unfold p in Hk'. lia.
Qed.

(** [_classify_section] stores the section bounds and the quotient of the
    two counters. *)
Lemma classify_section_fields (f g : Q -> string) (start_addr end_addr : Z)
    (data : list Z) (imap : list (Z * Instruction.t)) :
  let r := RegionClassifier._classify_section f g start_addr end_addr data imap in
  Region.start_addr r = start_addr
  /\ Region.end_addr r = end_addr
  /\ Region.decode_rate r =
       (if end_addr - start_addr + 1 >? 0
        then (inject_Z (RegionClassifier.count_decoded imap
                          (Py.range start_addr (end_addr + 1)))
              / inject_Z (end_addr - start_addr + 1))%Q
        else 0%Q).
Proof.
  cbv zeta. unfold RegionClassifier._classify_section.
  destruct (Qlt_le_dec _ _); [|destruct (Qlt_le_dec _ _)]; repeat split.
Qed.

(** The constant-pool pass changes neither the bounds nor the decode rate
    of a region. *)
Lemma detect_constant_pools_preserves (P : Z -> Z -> Q -> Prop) :
  forall todo done,
    Forall (fun r => P (Region.start_addr r) (Region.end_addr r) (Region.decode_rate r))
           (done ++ todo) ->
    Forall (fun r => P (Region.start_addr r) (Region.end_addr r) (Region.decode_rate r))
           (RegionClassifier.detect_constant_pools_from done todo).
Proof.
  induction todo as [|r rest IH]; intros done H; simpl.
  - rewrite app_nil_r in H. exact H.
  - apply IH. rewrite <- app_assoc. simpl.
    apply Forall_app in H. destruct H as [Hd Ht]. apply Forall_app. split; [exact Hd|].
    inversion Ht as [|? ? Hr Hrest]; subst. constructor; [|exact Hrest].
    destruct (_ && _); exact Hr.
Qed.

Lemma quotient_nonneg (d n : Z) : 0 <= d -> 0 < n -> (0 <= inject_Z d / inject_Z n)%Q.
Proof.
  intros Hd Hn. apply Qle_shift_div_l.
  - change 0%Q with (inject_Z 0). rewrite <- Zlt_Qlt. exact Hn.
  - rewrite Qmult_0_l. change 0%Q with (inject_Z 0). rewrite <- Zle_Qle. exact Hd.
Qed.

Lemma quotient_le_1 (d n : Z) : d <= n -> 0 < n -> (inject_Z d / inject_Z n <= 1)%Q.
Proof.
  intros Hd Hn. apply Qle_shift_div_r.
  - change 0%Q with (inject_Z 0). rewrite <- Zlt_Qlt. exact Hn.
  - rewrite Qmult_1_l. rewrite <- Zle_Qle. exact Hd.
Qed.

(** C7 (as stated): a region's decode rate can exceed 1.  The six bytes
    47 F0 00 00 07 FE decode to a 4-byte [BC] at 0 and a 2-byte [BCR] at 4;
    classified over the sections [0, 2] and [3, 5], the first region counts
    the whole 4-byte instruction against a size of 3. *)
Lemma decode_rate_above_one :
  exists r,
    In r (RegionClassifier.classify (fun _ => "") (fun _ => "")
            [(0, 2, [0x47; 0xF0; 0x00]); (3, 5, [0x00; 0x07; 0xFE])]
            (DisassemblyResult.instructions
               (snd (Disassembler.disassemble Disassembler.init
                       [0x47; 0xF0; 0x00; 0x00; 0x07; 0xFE] 0 None))))
    /\ ~ (0 <= Region.decode_rate r <= 1)%Q.
Proof.
  eexists. split; [left; reflexivity|].
  vm_compute. intros [_ H]. apply H. reflexivity.
Qed.

(** C7 (amended): for every region the classifier returns, the decode rate
    is at least 0; it is at most 1 when the instruction list is
    address-ordered without overlaps (as the disassembler's stream is) and
    no counted instruction that starts inside the region extends past the
    region's inclusive end address. *)
Theorem classify_decode_rate_bounds (f g : Q -> string)
    (sections : list (Z * Z * list Z)) (instructions : list Instruction.t)
    (r : Region.t) :
  In r (RegionClassifier.classify f g sections instructions) ->
  (0 <= Region.decode_rate r)%Q
  /\ (Layout.non_overlapping instructions = true ->
      Layout.contained instructions (Region.start_addr r) (Region.end_addr r) = true ->
      (Region.decode_rate r <= 1)%Q).
Proof.
  intros Hin.
  set (imap := Instruction.address_map instructions).
  set (P := fun (s e : Z) (q : Q) =>
              (0 <= q)%Q
              /\ (Layout.non_overlapping instructions = true ->
                  Layout.contained instructions s e = true -> (q <= 1)%Q)).
  assert (Hall : Forall (fun r => P (Region.start_addr r) (Region.end_addr r)
                                    (Region.decode_rate r))
                        (RegionClassifier.classify f g sections instructions)).
  { unfold RegionClassifier.classify, RegionClassifier._detect_constant_pools.
    apply detect_constant_pools_preserves. simpl.
    apply Forall_forall. intros x Hx. apply in_map_iff in Hx.
    destruct Hx as [[[s e] d] [<- _]].
    destruct (classify_section_fields f g s e d imap) as (Hs & He & Hr).
    fold imap. rewrite Hs, He, Hr. unfold P.
    destruct (Z.gtb_spec (e - s + 1) 0) as [Hpos|Hneg].
    - split.
      + apply quotient_nonneg; [apply count_decoded_nonneg|lia].
      + intros Hno Hc. apply quotient_le_1; [|lia].
        unfold Py.range. replace (e + 1 - s) with (e - s + 1) by lia.
        rewrite <- (Z2Nat.id (e - s + 1)) at 2 by lia.
        apply (count_decoded_bounded imap instructions).
        * intros a i Hg. apply instruction_map_sound. exact Hg.
        * exact Hno.
        * intros i Hi Ha Hk. unfold Layout.contained in Hc.
          rewrite forallb_forall in Hc. specialize (Hc i Hi).
          rewrite Z2Nat.id in * by lia.
          replace (Instruction.address i <=? e) with true in Hc
            by (symmetry; apply Z.leb_le; lia).
          replace (s <=? Instruction.address i) with true in Hc
            by (symmetry; apply Z.leb_le; lia).
          rewrite Hk in Hc. simpl in Hc. apply Z.leb_le in Hc. lia.
    - split; [apply Qle_refl|]. intros _ _. discriminate. }
  rewrite Forall_forall in Hall. exact (Hall r Hin).
Qed.

Lemma classify_decode_rate_bounds_witness :
  let insts :=
    DisassemblyResult.instructions
      (snd (Disassembler.disassemble Disassembler.init
              [0x47; 0xF0; 0x00; 0x00; 0x07; 0xFE] 0 None)) in
  let regions :=
    RegionClassifier.classify (fun _ => "") (fun _ => "")
      [(0, 3, [0x47; 0xF0; 0x00; 0x00]); (4, 5, [0x07; 0xFE])] insts in
  exists r, In r regions /\ (0 <= Region.decode_rate r)%Q /\ (Region.decode_rate r <= 1)%Q.
Proof.
  cbv zeta. eexists. split; [left; reflexivity|].
  match goal with
  | |- (0 <= Region.decode_rate ?r)%Q /\ _ =>
      pose proof (classify_decode_rate_bounds (fun _ => "") (fun _ => "")
                    [(0, 3, [0x47; 0xF0; 0x00; 0x00]); (4, 5, [0x07; 0xFE])]
                    (DisassemblyResult.instructions
                       (snd (Disassembler.disassemble Disassembler.init
                               [0x47; 0xF0; 0x00; 0x00; 0x07; 0xFE] 0 None)))
                    r (or_introl eq_refl)) as [H0 H1]
  end.
  split; [exact H0|]. apply H1; reflexivity.
Defined.

(** ** CFG construction *)

Lemma create_blocks_from_dict (insts : list Instruction.t) :
  forall (sorted_leaders : list Z) (blocks blocks' : list (string * BasicBlock.t)),
    CFGBuilder.create_blocks_from insts sorted_leaders blocks = Py.Ok blocks' ->
    blocks' = blocks.
Proof.
  induction sorted_leaders as [|leader rest IH]; intros blocks blocks' H; simpl in H.
  - injection H as <-. reflexivity.
  - destruct (filter _ insts) as [|first bi].
    + apply IH. exact H.
    + discriminate H.
Qed.

Lemma build_cfg_raises (self : CFGBuilder.t) (disasm_result : DisassemblyResult.t) :
  Py.raises (CFGBuilder.build_cfg self disasm_result).
Proof.
  unfold Py.raises, CFGBuilder.build_cfg.
  destruct (CFGBuilder._create_basic_blocks _) as [self1|e]; [|exists e; reflexivity].
  cbn [Py.bind]. unfold CFGBuilder._add_control_flow_edges.
  destruct (CFGBuilder.blocks self1) as [|[k b] bs]; cbn [Py.bind CFGBuilder.unbound_local];
    eexists; reflexivity.
Qed.

(** C1: [build_cfg] raises on every disassembly result, whatever the state
    of the builder: either a block is appended to the dict [self.blocks]
    ([AttributeError]), or the local name [cfg] is read before it is bound
    ([UnboundLocalError]).  The one-instruction stream 07 FE, which has a
    leader, and the empty stream show the two cases. *)
Theorem build_cfg_always_raises (self : CFGBuilder.t) (disasm_result : DisassemblyResult.t) :
  Py.raises (CFGBuilder.build_cfg self disasm_result)
  /\ CFGBuilder.build_cfg CFGBuilder.init
       (snd (Disassembler.disassemble Disassembler.init [0x07; 0xFE] 0 None))
     = Py.Raise (Py.AttributeError "dict" "append")
  /\ CFGBuilder.build_cfg CFGBuilder.init
       (snd (Disassembler.disassemble Disassembler.init [] 0 None))
     = Py.Raise (Py.UnboundLocalError "cfg").
Proof.
  split; [apply build_cfg_raises|split; reflexivity].
Qed.

(** No decoded instruction passes the prologue test: opcode 0x90 ([STM])
    lies in the range the decoder renders in SI format, so its first
    operand is the immediate [X'..'], never the register "14". *)
Lemma prologue_pattern_never_decoded (data : list Z) (offset : nat) (address : Z)
    (inst : Instruction.t) :
  NativeDecoder.decode_instruction data offset address = Some inst ->
  ProcedureDetector.prologue_pattern inst = false.
Proof.
  intros Hd.
  destruct (decode_instruction_inv _ _ _ _ Hd)
    as (Hfit & Hlen & _ & _ & Hm & Ho & _).
  unfold ProcedureDetector.prologue_pattern. rewrite Hm, Ho.
  set (L := NativeDecoder.get_instruction_length (Py.byte_at data offset)) in *.
  set (bs := Py.slice data offset (offset + Z.to_nat L)) in *.
  destruct (String.eqb_spec
              (fst (fst (NativeDecoder._decode_instruction_details bs))) "STM")
    as [Hstm|]; [|reflexivity].
  assert (Hop : Py.byte_at bs 0 = 0x90).
  { apply mnemonic_STM_opcode. revert Hstm.
    unfold NativeDecoder._decode_instruction_details.
    repeat match goal with
           | |- context [if ?c then _ else _] => destruct c
           end; cbn [fst snd]; auto. }
  assert (HL : L = 4).
  { pose proof (get_instruction_length_246 (Py.byte_at data offset)) as H246.
    fold L in H246.
    assert (H0 : Py.byte_at bs 0 = Py.byte_at data (offset + 0)).
    { unfold bs. apply slice_nth. lia. }
    rewrite Nat.add_0_r in H0. rewrite H0 in Hop. unfold L. rewrite Hop. reflexivity. }
  unfold NativeDecoder._decode_instruction_details. rewrite Hlen, HL, Hop.
  cbn. reflexivity.
Qed.

(** C3: on the 28-byte program the disassembler emits 8 instructions with
    decode rate 28/28, but [build_cfg] raises, so no basic block is
    stored, and the pipeline gives no result for the file in any
    environment: importing [pipeline.py] already raises [ImportError];
    and the [STM] at address 2 carries the operands ["X'EC'"; "12(13)"],
    so no instruction of the stream passes the prologue test. *)
Theorem scenario1_analysis :
  let r := snd (Disassembler.disassemble Disassembler.init scenario1 0 None) in
  Statistics.instruction_count (DisassemblyResult.statistics r) = 8
  /\ (Statistics.decode_rate (DisassemblyResult.statistics r) == 1)%Q
  /\ map Instruction.mnemonic (DisassemblyResult.instructions r)
     = ["BALR"; "STM"; "LA"; "L"; "A"; "ST"; "LM"; "BCR"]
  /\ map Instruction.operands (firstn 2 (DisassemblyResult.instructions r))
     = [["14"; "15"]; ["X'EC'"; "12(13)"]]
  /\ existsb ProcedureDetector.prologue_pattern (DisassemblyResult.instructions r) = false
  /\ CFGBuilder.build_cfg CFGBuilder.init r = Py.Raise (Py.AttributeError "dict" "append")
  /\ (forall (t0 t1 : Q) (detect : ControlFlowGraph.t -> Py.Result ControlFlowGraph.t)
             (fmt : Q -> string),
        ReverseEngineeringPipeline.process_file t0 t1 detect fmt
          "test_program.bin" "test_program" (Py.Ok scenario1)
        = Py.Raise (Py.ImportError "ExternalDecoder" "zos_reverse.disassembler")).
Proof.
  cbv zeta. repeat split; try reflexivity.
Qed.

(** C5: on the program of [test_cfg_builder] no CFG is constructed:
    [build_cfg] raises at the first block it tries to store, before any
    edge is recorded, so there is no block whose successors could be
    matched by predecessors. *)
Theorem branch_program_no_cfg :
  let r := snd (Disassembler.disassemble Disassembler.init branch_program 0 None) in
  map Instruction.address (DisassemblyResult.instructions r) = [0; 2; 6; 10; 14; 18; 22]
  /\ CFGBuilder.sorted
       (CFGBuilder.leaders
          (CFGBuilder._find_leaders
             (CFGBuilder.mk (DisassemblyResult.instructions r)
                (Instruction.address_map (DisassemblyResult.instructions r)) [] [])
             (ControlFlowGraph.entry_points (DisassemblyResult.cfg r))))
     = [0; 2; 10]
  /\ CFGBuilder.build_cfg CFGBuilder.init r = Py.Raise (Py.AttributeError "dict" "append").
Proof.
  cbv zeta. repeat split; reflexivity.
Qed.

(** ** Format detection *)

(** Format detection keeps the file contents and the module name, and
    files the artifact under one of the three format tags. *)
Lemma detect_format_fields (self : BinaryIngestor.t) :
  let self' := BinaryIngestor._detect_format self in
  BinaryIngestor.data self' = BinaryIngestor.data self
  /\ ModuleMetadata.name (BinaryIngestor.metadata self')
     = ModuleMetadata.name (BinaryIngestor.metadata self)
  /\ In (ModuleMetadata.format_type (BinaryIngestor.metadata self'))
        ["program_object"; "load_module"; "unknown"].
Proof.
  cbv zeta. unfold BinaryIngestor._detect_format.
  destruct (_ && _).
  - unfold BinaryIngestor._parse_program_object.
    destruct (Py.len _ <? 32).
    + cbn; repeat split; auto 10.
    + unfold BinaryIngestor._extract_sections.
      destruct (BinaryIngestor.extract_externals _ _ _ _) as [o e].
      destruct (BinaryIngestor.extract_csects _ _ _ _) as [o' c].
      cbn; repeat split; auto 10.
  - destruct (BinaryIngestor._looks_like_load_module self).
    + unfold BinaryIngestor._parse_load_module.
      destruct (BinaryIngestor._has_pds_header _);
        cbn [BinaryIngestor.with_code BinaryIngestor.code_start BinaryIngestor.data];
        destruct (_ <? _); cbn; repeat split; auto 10.
    + unfold BinaryIngestor._apply_heuristics.
      destruct (filter _ _); cbn; repeat split; auto 10.
Qed.

Lemma slice_is_infix {A : Type} (l : list A) (lo hi : nat) :
  exists prefix suffix, l = prefix ++ Py.slice l lo hi ++ suffix.
Proof.
  exists (firstn lo l), (skipn (hi - lo) (skipn lo l)).
  unfold Py.slice. rewrite (firstn_skipn (hi - lo) (skipn lo l)).
  symmetry. apply firstn_skipn.
Qed.

Lemma Forall_slice {A : Type} (P : A -> Prop) (l : list A) (lo hi : nat) :
  Forall P l -> Forall P (Py.slice l lo hi).
Proof.
  intros H. unfold Py.slice.
  assert (Hs : forall n (l' : list A), Forall P l' -> Forall P (skipn n l')).
  { induction n as [|n IH]; intros l' Hl'; [exact Hl'|].
    destruct l' as [|x l']; [exact Hl'|]. simpl. apply IH.
    inversion Hl'; assumption. }
  assert (Hf : forall n (l' : list A), Forall P l' -> Forall P (firstn n l')).
  { induction n as [|n IH]; intros l' Hl'; [constructor|].
    destruct l' as [|x l']; [constructor|]. simpl.
    inversion Hl'; subst. constructor; auto. }
  apply Hf, Hs, H.
Qed.

Lemma unpack_be_nonneg (bs : list Z) :
  Forall (fun b => 0 <= b) bs -> 0 <= Py.unpack_be bs.
Proof.
  unfold Py.unpack_be.
  assert (H : forall l a, 0 <= a -> Forall (fun b => 0 <= b) l ->
                          0 <= fold_left (fun acc b => acc * 256 + b) l a).
  { induction l as [|x l IH]; intros a Ha Hl; simpl; [exact Ha|].
    inversion Hl; subst. apply IH; [lia|assumption]. }
  intros Hl. apply H; [lia|exact Hl].
Qed.

Lemma is_bytes_nonneg (bs : list Z) :
  Py.is_bytes bs = true -> Forall (fun b => 0 <= b) bs.
Proof.
  unfold Py.is_bytes. rewrite forallb_forall, Forall_forall.
  intros H x Hx. specialize (H x Hx). apply andb_prop in H. destruct H as [H _].
  apply Z.leb_le. exact H.
Qed.

(** On a fresh ingestor, format detection leaves a code region that lies
    inside the file. *)
Lemma detect_format_code_range (self : BinaryIngestor.t) :
  Py.is_bytes (BinaryIngestor.data self) = true ->
  BinaryIngestor.code_start self = 0 ->
  BinaryIngestor.code_end self = 0 ->
  let self' := BinaryIngestor._detect_format self in
  0 <= BinaryIngestor.code_start self'
  <= BinaryIngestor.code_end self'
  /\ BinaryIngestor.code_end self' <= Py.len (BinaryIngestor.data self).
Proof.
  intros Hb Hs He. cbv zeta. unfold BinaryIngestor._detect_format.
  pose proof (len_nonneg (BinaryIngestor.data self)) as Hlen.
  destruct (_ && _).
  - unfold BinaryIngestor._parse_program_object.
    cbn [BinaryIngestor.set_format_type BinaryIngestor.with_metadata BinaryIngestor.data].
    destruct (Z.ltb_spec (Py.len (BinaryIngestor.data self)) 32) as [Hlt|Hge].
    + cbn. lia.
    + unfold BinaryIngestor._extract_sections.
      destruct (BinaryIngestor.extract_externals _ _ _ _) as [o e].
      destruct (BinaryIngestor.extract_csects _ _ _ _) as [o' c].
      cbn [BinaryIngestor.with_metadata BinaryIngestor.with_code
           BinaryIngestor.set_entry_point BinaryIngestor.code_start
           BinaryIngestor.code_end BinaryIngestor.data BinaryIngestor.metadata
           ProgramObjectHeader.text_size].
      pose proof (unpack_be_nonneg (Py.slice (BinaryIngestor.data self) 8 12)
                    (Forall_slice _ _ _ _ (is_bytes_nonneg _ Hb))).
      lia.
  - destruct (BinaryIngestor._looks_like_load_module self).
    + unfold BinaryIngestor._parse_load_module, BinaryIngestor._has_pds_header.
      cbn [BinaryIngestor.set_format_type BinaryIngestor.with_metadata BinaryIngestor.data].
      unfold BinaryIngestor.PDS_HEADER_SIZE.
      destruct (Z.ltb_spec (Py.len (BinaryIngestor.data self)) 20) as [Hlt|Hge].
      * cbn [BinaryIngestor.with_code BinaryIngestor.code_start BinaryIngestor.data].
        destruct (_ <? _); cbn; lia.
      * destruct (forallb _ _);
          cbn [BinaryIngestor.with_code BinaryIngestor.code_start BinaryIngestor.data
               BinaryIngestor._extract_pds_info BinaryIngestor.with_metadata];
          destruct (_ <? _); cbn; lia.
    + unfold BinaryIngestor._apply_heuristics.
      destruct (filter _ _); cbn; lia.
Qed.

(** ** Edges in the intermediate representation *)

Lemma blocks_get_modify (d : list (string * BasicBlock.t)) (k : string)
    (f : BasicBlock.t -> BasicBlock.t) (k' : string) :
  ControlFlowGraph.blocks_get (ControlFlowGraph.blocks_modify d k f) k'
  = if String.eqb k k'
    then option_map f (ControlFlowGraph.blocks_get d k')
    else ControlFlowGraph.blocks_get d k'.
Proof.
  induction d as [|[k0 b0] d IH]; simpl.
  - destruct (String.eqb k k'); reflexivity.
  - destruct (String.eqb_spec k0 k) as [->|Hne]; simpl.
    + destruct (String.eqb k k'); reflexivity.
    + destruct (String.eqb_spec k0 k') as [->|Hne'].
      * apply not_eq_sym in Hne. apply String.eqb_neq in Hne. rewrite Hne. reflexivity.
      * exact IH.
Qed.

Lemma ids_add_In (x y : string) (s : list string) :
  In y (ControlFlowGraph.ids_add x s) <-> y = x \/ In y s.
Proof.
  unfold ControlFlowGraph.ids_add, Py.in_strs.
  destruct (existsb (String.eqb x) s) eqn:E.
  - split; [auto|]. intros [->|H]; [|exact H].
    apply existsb_exists in E. destruct E as [z [Hz Hxz]].
    apply String.eqb_eq in Hxz. subst. exact Hz.
  - rewrite in_app_iff. simpl. intuition congruence.
Qed.

(** The edge primitive of [ir.py] keeps the block map symmetric: it records
    the predecessor under the same string id that it adds as successor. *)
Lemma add_edge_keeps_symmetry (cfg : ControlFlowGraph.t) (from_id to_id : string) :
  ControlFlowGraph.edges_symmetric (ControlFlowGraph.basic_blocks cfg) ->
  ControlFlowGraph.edges_symmetric
    (ControlFlowGraph.basic_blocks (ControlFlowGraph.add_edge cfg from_id to_id)).
Proof.
  intros Hsym. unfold ControlFlowGraph.add_edge.
  destruct (ControlFlowGraph.blocks_get (ControlFlowGraph.basic_blocks cfg) from_id)
    as [bf|] eqn:Hf; [|exact Hsym].
  destruct (ControlFlowGraph.blocks_get (ControlFlowGraph.basic_blocks cfg) to_id)
    as [bt|] eqn:Ht; [|exact Hsym].
  cbn [ControlFlowGraph.basic_blocks ControlFlowGraph.with_blocks].
  set (d := ControlFlowGraph.basic_blocks cfg) in *.
  assert (Hget : forall k,
    ControlFlowGraph.blocks_get
      (ControlFlowGraph.blocks_modify
         (ControlFlowGraph.blocks_modify d from_id (ControlFlowGraph.add_successor to_id))
         to_id (ControlFlowGraph.add_predecessor from_id)) k
    = option_map
        (fun b => (if String.eqb to_id k
                   then ControlFlowGraph.add_predecessor from_id else fun b => b)
                    ((if String.eqb from_id k
                      then ControlFlowGraph.add_successor to_id else fun b => b) b))
        (ControlFlowGraph.blocks_get d k)).
  { intros k. rewrite !blocks_get_modify.
    destruct (String.eqb to_id k), (String.eqb from_id k),
      (ControlFlowGraph.blocks_get d k); reflexivity. }
  intros k s b Hk Hs. rewrite Hget in Hk. rewrite Hget.
  destruct (ControlFlowGraph.blocks_get d k) as [b0|] eqn:Hk0; [|discriminate].
  injection Hk as <-.
  assert (Hsucc : In s (BasicBlock.successors b0) \/ (k = from_id /\ s = to_id)).
  { destruct (String.eqb_spec to_id k), (String.eqb_spec from_id k);
      cbn [BasicBlock.successors ControlFlowGraph.add_predecessor
           ControlFlowGraph.add_successor] in Hs;
      try apply ids_add_In in Hs; intuition. }
  destruct Hsucc as [Hold|[-> ->]].
  - destruct (Hsym k s b0 Hk0 Hold) as [b' [Hb' Hin]]. rewrite Hb'.
    eexists. split; [reflexivity|].
    destruct (String.eqb to_id s), (String.eqb from_id s);
      cbn [BasicBlock.predecessors ControlFlowGraph.add_predecessor
           ControlFlowGraph.add_successor];
      try apply ids_add_In; auto.
  - rewrite Ht. eexists. split; [reflexivity|].
    rewrite String.eqb_refl.
    destruct (String.eqb from_id to_id);
      cbn [BasicBlock.predecessors ControlFlowGraph.add_predecessor
           ControlFlowGraph.add_successor];
      apply ids_add_In; auto.
Qed.

(** * Further properties of the code *)


Lemma decode_instruction_record (data : list Z) (offset : nat) (address : Z)
    (inst : Instruction.t) :
  NativeDecoder.decode_instruction data offset address = Some inst ->
  let L := NativeDecoder.get_instruction_length (Py.byte_at data offset) in
  let bs := Py.slice data offset (offset + Z.to_nat L) in
  let d := NativeDecoder._decode_instruction_details bs in
  inst =
  Instruction.mk address bs (Py.hex_upper bs) (fst (fst d)) (snd (fst d)) (snd d) None
    (Py.in_strs (fst (fst d))
       ["BC"; "BCR"; "BAL"; "BALR"; "BASR"; "BAS"; "BXH"; "BXLE"; "BCT"; "BCTR"])
    (Py.in_strs (fst (fst d)) ["BALR"; "BASR"; "BAL"; "BAS"])
    ((String.eqb (fst (fst d)) "BCR"
      && NativeDecoder.first_operand_is (snd (fst d)) "15")
     || (String.eqb (fst (fst d)) "BR"
         && NativeDecoder.first_operand_is (snd (fst d)) "14"))
    (if Py.in_strs (fst (fst d))
          ["BC"; "BCR"; "BAL"; "BALR"; "BASR"; "BAS"; "BXH"; "BXLE"; "BCT"; "BCTR"]
        && (4 <=? L)
     then NativeDecoder._calculate_branch_target bs address (snd d)
     else None)
    None
    (if negb (String.eqb (fst (fst d)) "UNKNOWN") then Confidence.HIGH else Confidence.LOW).
Proof.
  unfold NativeDecoder.decode_instruction.
  destruct (Py.len data <=? Z.of_nat offset); [discriminate|].
  destruct (_ >? _); [discriminate|].
  destruct (NativeDecoder._decode_instruction_details _) as [[m o] f].
  intros H. injection H as <-. reflexivity.
Qed.

Lemma details_mnemonic (bs : list Z) :
  fst (fst (NativeDecoder._decode_instruction_details bs))
  = Py.dict_get_default NativeDecoder.MNEMONICS (Py.byte_at bs 0) "UNKNOWN".
Proof.
  unfold NativeDecoder._decode_instruction_details.
  repeat match goal with
         | |- context [if ?c then _ else _] => destruct c
         end; reflexivity.
Qed.

Lemma mnemonic_BCR_opcode (b : Z) :
  Py.dict_get_default NativeDecoder.MNEMONICS b "UNKNOWN" = "BCR" -> b = 0x07.
Proof.
  destruct b as [|p|p]; try (cbv; discriminate).
  do 8 (try (destruct p as [p|p|];
             try (cbv; discriminate);
             try (intros _; reflexivity))).
Qed.

Lemma mnemonic_not_BR (b : Z) :
  Py.dict_get_default NativeDecoder.MNEMONICS b "UNKNOWN" <> "BR".
Proof.
  destruct b as [|p|p]; try (cbv; discriminate).
  do 8 (try (destruct p as [p|p|]; try (cbv; discriminate))).
Qed.

Lemma hi_nibble_range (b : Z) : 0 <= NativeDecoder.hi_nibble b <= 15.
Proof.
  unfold NativeDecoder.hi_nibble. change 0xF with (Z.ones 4).
  rewrite Z.land_ones by lia. change (2 ^ 4) with 16. change (Z.ones 4) with 15.
  pose proof (Z.mod_pos_bound (Z.shiftr b 4) 16 ltac:(lia)). lia.
Qed.

Lemma lo_nibble_range (b : Z) : 0 <= NativeDecoder.lo_nibble b <= 15.
Proof.
  unfold NativeDecoder.lo_nibble. change 0xF with (Z.ones 4).
  rewrite Z.land_ones by lia. change (2 ^ 4) with 16. change (Z.ones 4) with 15.
  pose proof (Z.mod_pos_bound b 16 ltac:(lia)). lia.
Qed.

Lemma str_nibble_15 (r : Z) : 0 <= r <= 15 -> (String.eqb (Py.str r) "15" = true <-> r = 15).
Proof.
  intros H.
  assert (Hc : r = 0 \/ r = 1 \/ r = 2 \/ r = 3 \/ r = 4 \/ r = 5 \/ r = 6 \/ r = 7 \/
               r = 8 \/ r = 9 \/ r = 10 \/ r = 11 \/ r = 12 \/ r = 13 \/ r = 14 \/ r = 15)
    by lia.
  repeat (destruct Hc as [->|Hc]; [split; [cbv; discriminate|lia]|]).
  subst. split; reflexivity.
Qed.

Lemma decoded_opcode (data : list Z) (offset : nat) :
  let L := NativeDecoder.get_instruction_length (Py.byte_at data offset) in
  Py.byte_at (Py.slice data offset (offset + Z.to_nat L)) 0 = Py.byte_at data offset.
Proof.
  cbv zeta.
  pose proof (get_instruction_length_246 (Py.byte_at data offset)) as HL.
  rewrite slice_nth by lia. rewrite Nat.add_0_r. reflexivity.
Qed.

Lemma call_is_branch (m : string) :
  Py.in_strs m ["BALR"; "BASR"; "BAL"; "BAS"] = true ->
  Py.in_strs m ["BC"; "BCR"; "BAL"; "BALR"; "BASR"; "BAS"; "BXH"; "BXLE"; "BCT"; "BCTR"]
  = true.
Proof.
  unfold Py.in_strs. cbn [existsb].
  destruct (String.eqb m "BALR"), (String.eqb m "BASR"), (String.eqb m "BAL"),
    (String.eqb m "BAS"), (String.eqb m "BC"), (String.eqb m "BCR"); cbn;
    auto; discriminate.
Qed.

Lemma decode_outcome (data : list Z) (offset : nat) (address : Z) :
  let L := NativeDecoder.get_instruction_length (Py.byte_at data offset) in
  (NativeDecoder.decode_instruction data offset address = None
   <-> Py.len data < Z.of_nat offset + L)
  /\ (forall inst,
        NativeDecoder.decode_instruction data offset address = Some inst ->
        Instruction.address inst = address
        /\ Instruction.raw_bytes inst = Py.slice data offset (offset + Z.to_nat L)
        /\ Py.len (Instruction.raw_bytes inst) = L
        /\ (L = 2 \/ L = 4 \/ L = 6)
        /\ Z.of_nat offset + L <= Py.len data
        /\ Instruction.synthetic_label inst = None
        /\ Instruction.annotation inst = None).
Proof.
  cbv zeta.
  pose proof (get_instruction_length_246 (Py.byte_at data offset)) as HL.
  split.
  - unfold NativeDecoder.decode_instruction.
    destruct (Z.leb_spec (Py.len data) (Z.of_nat offset)) as [Hle|Hgt].
    + split; [intros _; lia|reflexivity].
    + rewrite Z.gtb_ltb.
      destruct (Z.ltb_spec (Py.len data)
                  (Z.of_nat offset
                   + NativeDecoder.get_instruction_length (Py.byte_at data offset)))
        as [Hlt|Hge].
      * split; [intros _; exact Hlt|reflexivity].
      * destruct (NativeDecoder._decode_instruction_details _) as [[m o] f].
        split; [discriminate|lia].
  - intros inst Hd.
    pose proof (decode_instruction_record _ _ _ _ Hd) as Hrec. cbv zeta in Hrec.
    destruct (decode_instruction_inv _ _ _ _ Hd) as (Hfit & Hlen & Ha & Hraw & _).
    rewrite Hraw. repeat split; auto.
    + unfold Py.len. lia.
    + rewrite Hrec. reflexivity.
    + rewrite Hrec. reflexivity.
Qed.

(** X1: [decode_instruction] returns [None] exactly when fewer than [L] bytes
    remain at the offset, [L] being the length that [get_instruction_length]
    gives for the byte at the offset (an offset at or past the end
    included); when it returns an instruction, the instruction carries the
    requested address and exactly the [L] bytes [data[offset:offset+L]],
    [L] is 2, 4 or 6, and no label or annotation is set. *)
Theorem decode_instruction_succeeds_iff (data : list Z) (offset : nat) (address : Z) :
  let L := NativeDecoder.get_instruction_length (Py.byte_at data offset) in
  (NativeDecoder.decode_instruction data offset address = None
   <-> Py.len data < Z.of_nat offset + L)
  /\ (forall inst,
        NativeDecoder.decode_instruction data offset address = Some inst ->
        Instruction.address inst = address
        /\ Instruction.raw_bytes inst = Py.slice data offset (offset + Z.to_nat L)
        /\ Py.len (Instruction.raw_bytes inst) = L
        /\ (L = 2 \/ L = 4 \/ L = 6)
        /\ Z.of_nat offset + L <= Py.len data
        /\ Instruction.synthetic_label inst = None
        /\ Instruction.annotation inst = None).
Proof. exact (decode_outcome data offset address). Qed.

Lemma decoded_flag_facts (data : list Z) (offset : nat) (address : Z) (inst : Instruction.t) :
  NativeDecoder.decode_instruction data offset address = Some inst ->
  (Instruction.is_call inst = true -> Instruction.is_branch inst = true)
  /\ (Instruction.is_return inst = true ->
      Instruction.mnemonic inst = "BCR"
      /\ Instruction.is_branch inst = true
      /\ Instruction.is_call inst = false
      /\ Py.len (Instruction.raw_bytes inst) = 2)
  /\ (Py.len (Instruction.raw_bytes inst) = 2 -> Instruction.branch_target inst = None)
  /\ (Instruction.confidence inst = Confidence.LOW <-> Instruction.mnemonic inst = "UNKNOWN").
Proof.
  intros Hd.
  pose proof (decode_instruction_record _ _ _ _ Hd) as Hrec. cbv zeta in Hrec.
  destruct (decode_instruction_inv _ _ _ _ Hd) as (Hfit & Hlen & _ & Hraw & _).
  pose proof (decoded_opcode data offset) as Hop. cbv zeta in Hop.
  set (L := NativeDecoder.get_instruction_length (Py.byte_at data offset)) in *.
  set (bs := Py.slice data offset (offset + Z.to_nat L)) in *.
  pose proof (details_mnemonic bs) as Hm.
  set (d := NativeDecoder._decode_instruction_details bs) in *.
  rewrite Hrec.
  cbn [Instruction.is_call Instruction.is_branch Instruction.is_return
       Instruction.mnemonic Instruction.raw_bytes Instruction.branch_target
       Instruction.confidence].
  split; [apply call_is_branch|]. split; [|split].
  - intros Hr. apply orb_prop in Hr. destruct Hr as [Hr|Hr].
    + apply andb_prop in Hr. destruct Hr as [Hr _]. apply String.eqb_eq in Hr.
      rewrite Hr. repeat split.
      rewrite Hr in Hm. symmetry in Hm. apply mnemonic_BCR_opcode in Hm.
      rewrite Hop in Hm. rewrite Hlen. unfold L. rewrite Hm. reflexivity.
    + apply andb_prop in Hr. destruct Hr as [Hr _]. apply String.eqb_eq in Hr.
      rewrite Hm in Hr. apply mnemonic_not_BR in Hr. contradiction.
  - intros H2. rewrite Hlen in H2. rewrite H2.
    rewrite andb_false_r. reflexivity.
  - destruct (String.eqb_spec (fst (fst d)) "UNKNOWN") as [He|Hne]; cbn [negb].
    + split; auto.
    + split; [discriminate|contradiction].
Qed.

(** X2: the flags of a decoded instruction are coherent: a call is a
    branch; a return has mnemonic BCR, is a branch, is not a call and is
    two bytes long; a two-byte instruction has no branch target; and the
    confidence is LOW exactly for the mnemonic UNKNOWN. *)
Theorem decoded_flags (data : list Z) (offset : nat) (address : Z) (inst : Instruction.t) :
  NativeDecoder.decode_instruction data offset address = Some inst ->
  (Instruction.is_call inst = true -> Instruction.is_branch inst = true)
  /\ (Instruction.is_return inst = true ->
      Instruction.mnemonic inst = "BCR"
      /\ Instruction.is_branch inst = true
      /\ Instruction.is_call inst = false
      /\ Py.len (Instruction.raw_bytes inst) = 2)
  /\ (Py.len (Instruction.raw_bytes inst) = 2 -> Instruction.branch_target inst = None)
  /\ (Instruction.confidence inst = Confidence.LOW <-> Instruction.mnemonic inst = "UNKNOWN").
Proof. exact (decoded_flag_facts data offset address inst). Qed.

Lemma decoded_flags_witness :
  exists inst,
    NativeDecoder.decode_instruction [0x05; 0xEF] 0 0x1000 = Some inst
    /\ Instruction.is_call inst = true
    /\ Instruction.is_branch inst = true.
Proof.
  eexists. split; [reflexivity|]. split; [reflexivity|].
  refine (proj1 (decoded_flags [0x05; 0xEF] 0 0x1000 _ _) _); reflexivity.
Defined.

Lemma details_len2 (bs : list Z) :
  Py.len bs = 2 ->
  NativeDecoder._decode_instruction_details bs
  = (Py.dict_get_default NativeDecoder.MNEMONICS (Py.byte_at bs 0) "UNKNOWN",
     [Py.str (NativeDecoder.hi_nibble (Py.byte_at bs 1));
      Py.str (NativeDecoder.lo_nibble (Py.byte_at bs 1))],
     InstructionFormat.RR).
Proof.
  intros H. unfold NativeDecoder._decode_instruction_details. rewrite H. reflexivity.
Qed.

(** X3: a decoded instruction is flagged as a return exactly when its
    opcode byte is 07 (BCR) and the mask, the high nibble of the second
    byte, is 15, whatever the register in the low nibble; the [BR] arm of
    the test never fires, because the decoder never produces that
    mnemonic. *)
Theorem is_return_iff_bcr_mask_15 (data : list Z) (offset : nat) (address : Z)
    (inst : Instruction.t) :
  NativeDecoder.decode_instruction data offset address = Some inst ->
  (Instruction.is_return inst = true
   <-> Py.byte_at data offset = 0x07
       /\ NativeDecoder.hi_nibble (Py.byte_at data (offset + 1)) = 15).
Proof.
  intros Hd.
  pose proof (decode_instruction_record _ _ _ _ Hd) as Hrec. cbv zeta in Hrec.
  destruct (decode_instruction_inv _ _ _ _ Hd) as (Hfit & Hlen & _ & _).
  pose proof (decoded_opcode data offset) as Hop. cbv zeta in Hop.
  set (L := NativeDecoder.get_instruction_length (Py.byte_at data offset)) in *.
  set (bs := Py.slice data offset (offset + Z.to_nat L)) in *.
  pose proof (details_mnemonic bs) as Hm.
  assert (H7 : Py.byte_at data offset = 0x07 ->
               NativeDecoder._decode_instruction_details bs
               = ("BCR",
                  [Py.str (NativeDecoder.hi_nibble (Py.byte_at data (offset + 1)));
                   Py.str (NativeDecoder.lo_nibble (Py.byte_at data (offset + 1)))],
                  InstructionFormat.RR)).
  { intros H7. assert (HL : L = 2) by (unfold L; rewrite H7; reflexivity).
    rewrite details_len2 by (rewrite Hlen; exact HL).
    rewrite Hop, H7. unfold bs. rewrite HL.
    change (Z.to_nat 2) with 2%nat. rewrite slice_nth by lia. reflexivity. }
  rewrite Hrec. cbn [Instruction.is_return]. split.
  - intros Hr. apply orb_prop in Hr. destruct Hr as [Hr|Hr].
    + apply andb_prop in Hr. destruct Hr as [Hb Hf]. apply String.eqb_eq in Hb.
      rewrite Hb in Hm. symmetry in Hm. apply mnemonic_BCR_opcode in Hm.
      rewrite Hop in Hm. split; [exact Hm|].
      rewrite (H7 Hm) in Hf. cbn [fst snd NativeDecoder.first_operand_is] in Hf.
      apply str_nibble_15; [apply hi_nibble_range|exact Hf].
    + apply andb_prop in Hr. destruct Hr as [Hr _]. apply String.eqb_eq in Hr.
      rewrite Hm in Hr. apply mnemonic_not_BR in Hr. contradiction.
  - intros [Hb Hn]. rewrite (H7 Hb). cbn [fst snd NativeDecoder.first_operand_is].
    rewrite Hn. reflexivity.
Qed.

Lemma is_return_iff_bcr_mask_15_witness :
  exists inst,
    NativeDecoder.decode_instruction [0x07; 0xF1] 0 0 = Some inst
    /\ Instruction.is_return inst = true.
Proof.
  eexists. split; [reflexivity|].
  refine (proj2 (is_return_iff_bcr_mask_15 [0x07; 0xF1] 0 0 _ _) _);
    [reflexivity|split; reflexivity].
Defined.

Lemma format_eqb_eq (a b : InstructionFormat.t) :
  InstructionFormat.eqb a b = true -> a = b.
Proof. destruct a, b; simpl; intros H; try discriminate; reflexivity. Qed.

Lemma details_RIL_not_branch (bs : list Z) :
  snd (NativeDecoder._decode_instruction_details bs) = InstructionFormat.RIL ->
  Py.in_strs (fst (fst (NativeDecoder._decode_instruction_details bs)))
    ["BC"; "BCR"; "BAL"; "BALR"; "BASR"; "BAS"; "BXH"; "BXLE"; "BCT"; "BCTR"] = false.
Proof.
  rewrite details_mnemonic. unfold NativeDecoder._decode_instruction_details.
  destruct (Py.len bs =? 2); [destruct (2 <=? Py.len bs); discriminate|].
  destruct (Py.len bs =? 4).
  { repeat match goal with
           | |- context [if ?c then _ else _] => destruct c
           end; discriminate. }
  destruct (Py.len bs =? 6); [|discriminate].
  destruct (_ && _); [discriminate|].
  destruct (Py.in_ints (Py.byte_at bs 0) [0xC0; 0xC2; 0xC4; 0xC6; 0xC8]) eqn:E;
    [|discriminate].
  intros _. unfold Py.in_ints in E. cbn [existsb] in E.
  repeat (apply orb_prop in E; destruct E as [E|E]); try discriminate;
    apply Z.eqb_eq in E; rewrite E; reflexivity.
Qed.

Lemma In_range_from (a : Z) (n : nat) (k : Z) :
  a <= k < a + Z.of_nat n -> In k (Py.range_from a n).
Proof.
  revert a. induction n as [|n IH]; intros a H; [lia|].
  simpl. destruct (Z.eq_dec a k) as [->|Hne]; [left; reflexivity|].
  right. apply IH. lia.
Qed.

Lemma disp12_range (x y : Z) :
  0 <= x <= 255 -> 0 <= y <= 255 -> 0 <= NativeDecoder.disp12 x y <= 4095.
Proof.
  intros Hx Hy.
  assert (Hall : forallb (fun x => forallb (fun y =>
                    (0 <=? NativeDecoder.disp12 x y) && (NativeDecoder.disp12 x y <=? 4095))
                    (Py.range 0 256)) (Py.range 0 256) = true) by (vm_compute; reflexivity).
  rewrite forallb_forall in Hall.
  specialize (Hall x (In_range_from 0 256 x ltac:(lia))).
  rewrite forallb_forall in Hall.
  specialize (Hall y (In_range_from 0 256 y ltac:(lia))).
  apply andb_prop in Hall. destruct Hall as [H1 H2].
  apply Z.leb_le in H1. apply Z.leb_le in H2. lia.
Qed.

Lemma is_bytes_byte_at (l : list Z) (i : nat) :
  Py.is_bytes l = true -> 0 <= Py.byte_at l i <= 255.
Proof.
  intros H. unfold Py.is_bytes in H. rewrite forallb_forall in H. unfold Py.byte_at.
  destruct (nth_in_or_default i l 0) as [Hin|Hd].
  - specialize (H _ Hin). apply andb_prop in H. destruct H as [H1 H2].
    apply Z.leb_le in H1. apply Z.leb_le in H2. lia.
  - rewrite Hd. lia.
Qed.

Lemma is_bytes_slice (l : list Z) (lo hi : nat) :
  Py.is_bytes l = true -> Py.is_bytes (Py.slice l lo hi) = true.
Proof.
  unfold Py.is_bytes. intros H. apply forallb_forall.
  rewrite forallb_forall in H. apply Forall_forall.
  apply Forall_slice. apply Forall_forall. exact H.
Qed.

(** X4: the only decoded instructions that carry a branch target are
    four-byte RX branches whose base-register nibble is 0, and the target
    is then the 12-bit displacement of the instruction (between 0 and
    4095), not an address relative to the instruction. *)
Theorem resolved_target_is_rx_displacement (data : list Z) (offset : nat) (address : Z)
    (inst : Instruction.t) (t : Z) :
  Py.is_bytes data = true ->
  NativeDecoder.decode_instruction data offset address = Some inst ->
  Instruction.branch_target inst = Some t ->
  Instruction.is_branch inst = true
  /\ Instruction.format inst = InstructionFormat.RX
  /\ Py.len (Instruction.raw_bytes inst) = 4
  /\ NativeDecoder.hi_nibble (Py.byte_at (Instruction.raw_bytes inst) 2) = 0
  /\ t = NativeDecoder.disp12 (Py.byte_at (Instruction.raw_bytes inst) 2)
                              (Py.byte_at (Instruction.raw_bytes inst) 3)
  /\ 0 <= t <= 4095.
Proof.
  intros Hbytes Hd Ht.
  pose proof (decode_instruction_record _ _ _ _ Hd) as Hrec. cbv zeta in Hrec.
  destruct (decode_instruction_inv _ _ _ _ Hd) as (Hfit & Hlen & _ & _).
  set (L := NativeDecoder.get_instruction_length (Py.byte_at data offset)) in *.
  set (bs := Py.slice data offset (offset + Z.to_nat L)) in *.
  pose proof (details_RIL_not_branch bs) as Hril.
  pose proof (details_RX_length bs) as Hrx.
  set (d := NativeDecoder._decode_instruction_details bs) in *.
  rewrite Hrec in Ht |- *.
  cbn [Instruction.is_branch Instruction.format Instruction.raw_bytes
       Instruction.branch_target] in *.
  destruct (Py.in_strs (fst (fst d)) _) eqn:Hb; [|discriminate Ht].
  destruct (4 <=? L); cbn [andb] in Ht; [|discriminate Ht].
  unfold NativeDecoder._calculate_branch_target in Ht.
  destruct (InstructionFormat.eqb (snd d) InstructionFormat.RX) eqn:Ef.
  - apply format_eqb_eq in Ef. specialize (Hrx Ef). rewrite Hrx in Ht.
    cbn [andb Z.leb Z.compare Pos.compare Pos.compare_cont] in Ht.
    destruct (Z.eqb_spec (NativeDecoder.hi_nibble (Py.byte_at bs 2)) 0) as [H0|];
      [|discriminate Ht].
    injection Ht as <-. repeat split; auto.
    + apply disp12_range; apply is_bytes_byte_at; apply is_bytes_slice; exact Hbytes.
    + apply disp12_range; apply is_bytes_byte_at; apply is_bytes_slice; exact Hbytes.
  - cbn [andb] in Ht.
    destruct (InstructionFormat.eqb (snd d) InstructionFormat.RIL) eqn:Er.
    + apply format_eqb_eq in Er. discriminate (Hril Er).
    + discriminate Ht.
Qed.

Lemma resolved_target_is_rx_displacement_witness :
  exists inst,
    NativeDecoder.decode_instruction [0x47; 0x80; 0x00; 0x14] 0 0x1000 = Some inst
    /\ Instruction.branch_target inst = Some 20
    /\ Instruction.format inst = InstructionFormat.RX.
Proof.
  eexists. split; [reflexivity|]. split; [reflexivity|].
  refine (proj1 (proj2 (resolved_target_is_rx_displacement
                          [0x47; 0x80; 0x00; 0x14] 0 0x1000 _ 20 _ _ _)));
    reflexivity.
Defined.

(** ** What the sweep emits *)

Lemma firstn_succ_skipn {A : Type} (k : nat) (l : list A) :
  firstn (S k) l = firstn k l ++ firstn 1 (skipn k l).
Proof.
  revert l. induction k as [|k IH]; intros l.
  - reflexivity.
  - destruct l as [|x l]; [reflexivity|].
    change (firstn (S (S k)) (x :: l)) with (x :: firstn (S k) l).
    rewrite IH. reflexivity.
Qed.

Lemma slice_snoc {A : Type} (l : list A) (a b : nat) :
  (a <= b)%nat ->
  Py.slice l a b ++ Py.slice l b (S b) = Py.slice l a (S b).
Proof.
  intros Hab. unfold Py.slice.
  replace (S b - a)%nat with (S (b - a)) by lia.
  replace (S b - b)%nat with 1%nat by lia.
  rewrite (firstn_succ_skipn (b - a) (skipn a l)), skipn_skipn.
  replace (b - a + a)%nat with b by lia. reflexivity.
Qed.

Lemma inst_ok_weaken (data : list Z) (base a b : Z) (insts : list Instruction.t) :
  a <= b ->
  Forall (SweepInvariant.inst_ok data base a) insts ->
  Forall (SweepInvariant.inst_ok data base b) insts.
Proof.
  intros Hab. apply Forall_impl. intros i (H1 & H2 & H3). repeat split; auto. lia.
Qed.

Lemma region_ok_weaken (data : list Z) (base a b : Z) (rs : list (Z * Z * list Z)) :
  a <= b ->
  Forall (SweepInvariant.region_ok data base a) rs ->
  Forall (SweepInvariant.region_ok data base b) rs.
Proof.
  intros Hab. apply Forall_impl. intros [[s e] bs] (H1 & H2 & H3 & H4).
  repeat split; auto; lia.
Qed.

Lemma sweep_body_keeps_invariant (data : list Z) (base : Z) (s : Disassembler.Sweep) :
  SweepInvariant.holds data base s ->
  (Disassembler.offset s < List.length data)%nat ->
  SweepInvariant.holds data base (Disassembler.sweep_body data s).
Proof.
  intros (Hcur & Hoff & Hi & Hr & Hp & Hu) Hlt.
  unfold Disassembler.sweep_body.
  destruct (NativeDecoder.decode_instruction data (Disassembler.offset s)
              (Disassembler.current_address s)) as [inst|] eqn:Hd.
  - destruct (decode_instruction_inv _ _ _ _ Hd) as (Hfit & Hlen & Haddr & Hraw & _).
    pose proof (get_instruction_length_246 (Py.byte_at data (Disassembler.offset s))) as HL.
    set (L := NativeDecoder.get_instruction_length (Py.byte_at data (Disassembler.offset s)))
      in *.
    assert (Hn : List.length (Instruction.raw_bytes inst) = Z.to_nat L).
    { rewrite Hraw. apply slice_length. exact Hfit. }
    assert (Hpl : Py.len (Instruction.raw_bytes inst) = L) by (rewrite Hraw; exact Hlen).
    assert (Hnew : SweepInvariant.inst_ok data base
                     (Disassembler.current_address s + Py.len (Instruction.raw_bytes inst))
                     inst).
    { unfold SweepInvariant.inst_ok. rewrite Haddr. repeat split; try lia.
      replace (Z.to_nat (Disassembler.current_address s - base))
        with (Disassembler.offset s) by lia.
      exact Hd. }
    unfold SweepInvariant.holds, SweepInvariant.pending_ok, Layout.pending in *.
    destruct (Disassembler.unknown_start s) as [us|];
      cbn [Disassembler.self Disassembler.instructions Disassembler.unknown_regions
           Disassembler.offset Disassembler.unknown_start Disassembler.current_address
           Disassembler.unknown_bytes].
    + destruct Hp as (Hp1 & Hp2 & Hp3).
      split; [lia|]. split; [lia|]. split; [|split; [|split; [reflexivity|]]].
      * apply Forall_app. split; [|constructor; [exact Hnew|constructor]].
        apply (inst_ok_weaken _ _ (Disassembler.current_address s)); [lia|exact Hi].
      * apply Forall_app. split.
        -- apply (region_ok_weaken _ _ (Disassembler.current_address s)); [lia|exact Hr].
        -- constructor; [|constructor]. unfold SweepInvariant.region_ok.
           repeat split; try lia.
           replace (Z.to_nat (Disassembler.current_address s - 1 - base + 1))
             with (Disassembler.offset s) by lia.
           exact Hp3.
      * rewrite unknown_total_snoc. lia.
    + split; [lia|]. split; [lia|]. split; [|split; [|split; [exact Hp|lia]]].
      * apply Forall_app. split; [|constructor; [exact Hnew|constructor]].
        apply (inst_ok_weaken _ _ (Disassembler.current_address s)); [lia|exact Hi].
      * apply (region_ok_weaken _ _ (Disassembler.current_address s)); [lia|exact Hr].
  - assert (Hshort : Py.len data
                     < Z.of_nat (Disassembler.offset s)
                       + NativeDecoder.get_instruction_length
                           (Py.byte_at data (Disassembler.offset s))).
    { apply (proj1 (decode_outcome data (Disassembler.offset s)
                      (Disassembler.current_address s))). exact Hd. }
    pose proof (get_instruction_length_246 (Py.byte_at data (Disassembler.offset s))) as HL.
    assert (Hlen : Py.len data = Z.of_nat (List.length data)) by reflexivity.
    unfold SweepInvariant.holds, SweepInvariant.pending_ok, Layout.pending in *.
    cbn [Disassembler.self Disassembler.instructions Disassembler.unknown_regions
         Disassembler.offset Disassembler.unknown_start Disassembler.current_address
         Disassembler.unknown_bytes].
    split; [lia|]. split; [lia|].
    split; [apply (inst_ok_weaken _ _ (Disassembler.current_address s)); [lia|exact Hi]|].
    split; [apply (region_ok_weaken _ _ (Disassembler.current_address s)); [lia|exact Hr]|].
    destruct (Disassembler.unknown_start s) as [us|].
    + destruct Hp as (Hp1 & Hp2 & Hp3). split; [|lia].
      split; [lia|]. split; [lia|].
      rewrite Hp3. replace (Disassembler.offset s + 1)%nat with (S (Disassembler.offset s))
        by lia.
      apply slice_snoc. lia.
    + split; [|lia]. split; [lia|]. split; [lia|].
      rewrite Hp. cbn [app].
      replace (Z.to_nat (Disassembler.current_address s - base))
        with (Disassembler.offset s) by lia.
      reflexivity.
Qed.

Lemma sweep_final_invariant (data : list Z) (base : Z) :
  let s := Disassembler.sweep (List.length data) data
             (Disassembler.mkSweep (Disassembler.mk [] []) 0 base None []) in
  SweepInvariant.holds data base s /\ Disassembler.offset s = List.length data.
Proof.
  cbv zeta. split.
  - apply sweep_invariant.
    + intros t Ht Hlt. apply sweep_body_keeps_invariant; assumption.
    + unfold SweepInvariant.holds, SweepInvariant.pending_ok, Layout.pending,
        Layout.unknown_total. cbn. repeat split; try constructor; lia.
  - assert (H1 : SweepInvariant.holds data base
                   (Disassembler.sweep (List.length data) data
                      (Disassembler.mkSweep (Disassembler.mk [] []) 0 base None []))).
    { apply sweep_invariant.
      + intros t Ht Hlt. apply sweep_body_keeps_invariant; assumption.
      + unfold SweepInvariant.holds, SweepInvariant.pending_ok, Layout.pending,
          Layout.unknown_total. cbn. repeat split; try constructor; lia. }
    destruct H1 as (_ & Hle & _).
    pose proof (sweep_exits data (List.length data)
                  (Disassembler.mkSweep (Disassembler.mk [] []) 0 base None [])
                  ltac:(cbn; lia)).
    lia.
Qed.

(** The result of [disassemble] in terms of the final state of the sweep. *)
Lemma disassemble_shape (self0 : Disassembler.t) (data : list Z) (base : Z)
    (metadata : option ModuleMetadata.t) :
  let s := Disassembler.sweep (List.length data) data
             (Disassembler.mkSweep (Disassembler.mk [] []) 0 base None []) in
  let r := snd (Disassembler.disassemble self0 data base metadata) in
  DisassemblyResult.instructions r = Disassembler.instructions (Disassembler.self s)
  /\ DisassemblyResult.unknown_regions r
     = match Disassembler.unknown_start s with
       | Some us =>
           Disassembler.unknown_regions (Disassembler.self s)
           ++ [(us, Disassembler.current_address s - 1, Disassembler.unknown_bytes s)]
       | None => Disassembler.unknown_regions (Disassembler.self s)
       end
  /\ DisassemblyResult.statistics r
     = Disassembler._generate_statistics
         (Disassembler.mk (DisassemblyResult.instructions r)
                          (DisassemblyResult.unknown_regions r)).
Proof.
  cbv zeta. unfold Disassembler.disassemble.
  destruct (Disassembler.unknown_start _); cbn; repeat split; reflexivity.
Qed.

Lemma disassemble_regions_ok (self0 : Disassembler.t) (data : list Z) (base : Z)
    (metadata : option ModuleMetadata.t) :
  let r := snd (Disassembler.disassemble self0 data base metadata) in
  Forall (SweepInvariant.region_ok data base (base + Py.len data))
         (DisassemblyResult.unknown_regions r)
  /\ Layout.unknown_total (DisassemblyResult.unknown_regions r) <= 5.
Proof.
  cbv zeta.
  destruct (disassemble_shape self0 data base metadata) as (_ & Hregs & _).
  destruct (sweep_final_invariant data base) as [(Hcur & Hoff & Hi & Hr & Hp & Hu) Hend].
  cbv zeta in *. rewrite Hregs.
  set (s := Disassembler.sweep (List.length data) data
              (Disassembler.mkSweep (Disassembler.mk [] []) 0 base None [])) in *.
  assert (Hlim : Disassembler.current_address s = base + Py.len data).
  { rewrite Hcur, Hend. reflexivity. }
  unfold SweepInvariant.pending_ok, Layout.pending in *.
  assert (Hlen : Py.len data = Z.of_nat (List.length data)) by reflexivity.
  destruct (Disassembler.unknown_start s) as [us|].
  - destruct Hp as (Hp1 & Hp2 & Hp3). split.
    + apply Forall_app. split; [rewrite <- Hlim; exact Hr|].
      constructor; [|constructor]. unfold SweepInvariant.region_ok.
      repeat split; try lia.
      replace (Z.to_nat (Disassembler.current_address s - 1 - base + 1))
        with (Disassembler.offset s) by lia.
      exact Hp3.
    + rewrite unknown_total_snoc. lia.
  - split; [rewrite <- Hlim; exact Hr|lia].
Qed.

Lemma disassemble_insts_ok (self0 : Disassembler.t) (data : list Z)
    (base : Z) (metadata : option ModuleMetadata.t) :
  let insts :=
    DisassemblyResult.instructions
      (snd (Disassembler.disassemble self0 data base metadata)) in
  Layout.non_overlapping insts = true
  /\ Forall (fun inst =>
               NativeDecoder.decode_instruction data
                 (Z.to_nat (Instruction.address inst - base)) (Instruction.address inst)
               = Some inst
               /\ base <= Instruction.address inst
               /\ Instruction.address inst + Py.len (Instruction.raw_bytes inst)
                  <= base + Py.len data)
            insts.
Proof.
  cbv zeta. split; [apply disassemble_non_overlapping|].
  destruct (disassemble_shape self0 data base metadata) as (Hinsts & _).
  destruct (sweep_final_invariant data base) as [(Hcur & _ & Hi & _) Hend].
  cbv zeta in *. rewrite Hinsts.
  rewrite Hcur, Hend in Hi. exact Hi.
Qed.

(** X5: every instruction in the result of [disassemble] is what
    [decode_instruction] returns at its own offset [address - base_address]
    of the buffer, it lies inside the buffer, and the instructions follow
    one another by ascending address without overlap. *)
Theorem disassembled_stream_mirrors_buffer (self0 : Disassembler.t) (data : list Z)
    (base : Z) (metadata : option ModuleMetadata.t) :
  let insts :=
    DisassemblyResult.instructions
      (snd (Disassembler.disassemble self0 data base metadata)) in
  Layout.non_overlapping insts = true
  /\ Forall (fun inst =>
               NativeDecoder.decode_instruction data
                 (Z.to_nat (Instruction.address inst - base)) (Instruction.address inst)
               = Some inst
               /\ base <= Instruction.address inst
               /\ Instruction.address inst + Py.len (Instruction.raw_bytes inst)
                  <= base + Py.len data)
            insts.
Proof. exact (disassemble_insts_ok self0 data base metadata). Qed.

(** X6: every unknown region [(start, end, bytes)] in the result of
    [disassemble] lies inside the buffer, with [start <= end], and [bytes]
    is exactly the buffer content of the inclusive address range, so it
    holds [end - start + 1] bytes. *)
Theorem unknown_regions_mirror_buffer (self0 : Disassembler.t) (data : list Z)
    (base : Z) (metadata : option ModuleMetadata.t) :
  Forall (fun r =>
            let '(start, end_, bytes) := r in
            base <= start <= end_
            /\ end_ < base + Py.len data
            /\ bytes = Py.slice data (Z.to_nat (start - base)) (Z.to_nat (end_ - base + 1))
            /\ Py.len bytes = end_ - start + 1)
         (DisassemblyResult.unknown_regions
            (snd (Disassembler.disassemble self0 data base metadata))).
Proof.
  destruct (disassemble_regions_ok self0 data base metadata) as [H _]. cbv zeta in H.
  revert H. apply Forall_impl. intros [[s e] bs] (H1 & H2 & H3 & H4).
  repeat split; try lia; [exact H4|].
  rewrite H4. unfold Py.len in *.
  replace (Z.to_nat (e - base + 1))
    with (Z.to_nat (s - base) + Z.to_nat (e - s + 1))%nat by lia.
  rewrite slice_length; lia.
Qed.

(** X7: the linear sweep leaves at most five bytes undecoded, and only at
    the end of the buffer: the [unknown_bytes] statistic is at most 5 and
    every unknown region starts within the last five bytes. *)
Theorem at_most_five_unknown_bytes (self0 : Disassembler.t) (data : list Z)
    (base : Z) (metadata : option ModuleMetadata.t) :
  let r := snd (Disassembler.disassemble self0 data base metadata) in
  Statistics.unknown_bytes (DisassemblyResult.statistics r) <= 5
  /\ Forall (fun reg => base + Py.len data - 5 <= fst (fst reg))
            (DisassemblyResult.unknown_regions r).
Proof.
  cbv zeta.
  destruct (disassemble_regions_ok self0 data base metadata) as [Hok Hsum].
  cbv zeta in *.
  destruct (disassemble_shape self0 data base metadata) as (_ & _ & Hst).
  cbv zeta in Hst. rewrite Hst. split.
  - exact Hsum.
  - revert Hok. apply Forall_impl. intros [[s e] bs] (H1 & _). exact H1.
Qed.

Lemma disassemble_accounting (self0 : Disassembler.t) (data : list Z) (base : Z)
    (metadata : option ModuleMetadata.t) :
  let r := snd (Disassembler.disassemble self0 data base metadata) in
  Layout.decoded_total (DisassemblyResult.instructions r)
  + Layout.unknown_total (DisassemblyResult.unknown_regions r) = Py.len data.
Proof.
  cbv zeta.
  destruct (disassemble_shape self0 data base metadata) as (Hinsts & Hregs & _).
  cbv zeta in *. rewrite Hinsts, Hregs.
  set (s0 := Disassembler.mkSweep (Disassembler.mk [] []) 0 base None []) in *.
  set (s := Disassembler.sweep (List.length data) data s0) in *.
  assert (Hacc :
    Layout.decoded_total (Disassembler.instructions (Disassembler.self s))
    + Layout.unknown_total (Disassembler.unknown_regions (Disassembler.self s))
    + Layout.pending s = Z.of_nat (Disassembler.offset s)).
  { unfold s. apply sweep_invariant.
    - intros t Ht Hlt. apply sweep_accounting; assumption.
    - reflexivity. }
  destruct (sweep_final_invariant data base) as [_ Hend]. cbv zeta in Hend.
  fold s0 in Hend. fold s in Hend.
  unfold Layout.pending in Hacc. unfold Py.len.
  destruct (Disassembler.unknown_start s) as [us|];
    try rewrite unknown_total_snoc; lia.
Qed.

Lemma unknown_total_nonneg (data : list Z) (base limit : Z) (rs : list (Z * Z * list Z)) :
  Forall (SweepInvariant.region_ok data base limit) rs -> 0 <= Layout.unknown_total rs.
Proof.
  unfold Layout.unknown_total, Disassembler.sum_Z.
  induction 1 as [|[[s e] bs] l Hx Hl IH]; simpl; [lia|].
  destruct Hx as (_ & Hx & _). lia.
Qed.

Lemma filter_length_le_all {A : Type} (p : A -> bool) (l : list A) :
  (List.length (filter p l) <= List.length l)%nat.
Proof.
  induction l as [|x l IH]; simpl; [lia|]. destruct (p x); simpl; lia.
Qed.

Lemma filter_length_mono {A : Type} (p q : A -> bool) (l : list A) :
  Forall (fun x => p x = true -> q x = true) l ->
  (List.length (filter p l) <= List.length (filter q l))%nat.
Proof.
  induction 1 as [|x l Hx Hl IH]; simpl; [lia|].
  destruct (p x) eqn:Hp.
  - rewrite (Hx eq_refl). simpl. lia.
  - destruct (q x); simpl; lia.
Qed.

Lemma decoded_total_bounds (insts : list Instruction.t) :
  Forall (fun i => 2 <= Py.len (Instruction.raw_bytes i) <= 6) insts ->
  2 * Py.len insts <= Layout.decoded_total insts <= 6 * Py.len insts.
Proof.
  unfold Layout.decoded_total, Disassembler.sum_Z, Py.len.
  induction 1 as [|x l Hx Hl IH]; simpl List.length; simpl map; simpl fold_right; [lia|].
  unfold Py.len in Hx. lia.
Qed.

(** X8: the statistics of [disassemble] are consistent for every buffer:
    the decode rate lies between 0 and 1, the decoded bytes are all but at
    most five bytes of the buffer, every instruction accounts for 2 to 6
    of them, and calls and returns are counted among the branches, which
    are counted among the instructions. *)
Theorem statistics_are_consistent (self0 : Disassembler.t) (data : list Z)
    (base : Z) (metadata : option ModuleMetadata.t) :
  let r := snd (Disassembler.disassemble self0 data base metadata) in
  let st := DisassemblyResult.statistics r in
  (0 <= Statistics.decode_rate st <= 1)%Q
  /\ Py.len data - 5 <= Statistics.decoded_bytes st <= Py.len data
  /\ 2 * Statistics.instruction_count st <= Statistics.decoded_bytes st
     <= 6 * Statistics.instruction_count st
  /\ Statistics.call_count st <= Statistics.branch_count st
     <= Statistics.instruction_count st
  /\ Statistics.return_count st <= Statistics.branch_count st.
Proof.
  cbv zeta.
  destruct (disassemble_shape self0 data base metadata) as (_ & _ & Hst).
  pose proof (disassemble_accounting self0 data base metadata) as Hacc.
  destruct (disassemble_regions_ok self0 data base metadata) as [Hu0 Hu].
  destruct (disassemble_insts_ok self0 data base metadata) as [_ Hall].
  cbv zeta in *. rewrite Hst.
  set (insts := DisassemblyResult.instructions
                  (snd (Disassembler.disassemble self0 data base metadata))) in *.
  set (regs := DisassemblyResult.unknown_regions
                 (snd (Disassembler.disassemble self0 data base metadata))) in *.
  unfold Disassembler._generate_statistics.
  cbn [Statistics.decode_rate Statistics.decoded_bytes Statistics.instruction_count
       Statistics.call_count Statistics.branch_count Statistics.return_count
       Disassembler.instructions Disassembler.unknown_regions].
  fold (Layout.decoded_total insts). fold (Layout.unknown_total regs).
  assert (Hlens : Forall (fun i => 2 <= Py.len (Instruction.raw_bytes i) <= 6) insts).
  { revert Hall. apply Forall_impl. intros i (Hd & _).
    destruct (proj2 (decode_outcome _ _ _) i Hd)
      as (_ & _ & Hl & H246 & _).
    lia. }
  pose proof (decoded_total_bounds insts Hlens) as Hb.
  assert (Hun : 0 <= Layout.unknown_total regs) by (eapply unknown_total_nonneg; exact Hu0).
  split; [|split; [lia|split; [exact Hb|split; [split|]]]].
  - destruct (Z.gtb_spec (Layout.decoded_total insts + Layout.unknown_total regs) 0).
    + split; [apply quotient_nonneg|apply quotient_le_1]; lia.
    + split; [apply Qle_refl|discriminate].
  - unfold Disassembler.count_if, Py.len. apply inj_le. apply filter_length_mono.
    revert Hall. apply Forall_impl. intros i (Hd & _).
    apply (decoded_flag_facts _ _ _ _ Hd).
  - unfold Disassembler.count_if, Py.len. apply inj_le. apply filter_length_le_all.
  - unfold Disassembler.count_if, Py.len. apply inj_le. apply filter_length_mono.
    revert Hall. apply Forall_impl. intros i (Hd & _) Hr.
    apply (decoded_flag_facts _ _ _ _ Hd). exact Hr.
Qed.

(** ** The mnemonic histogram *)


Lemma lookup_count_mnemonic (c : list (string * Z)) (m m' : string) :
  MnemonicCount.lookup (Disassembler.count_mnemonic c m) m'
  = MnemonicCount.lookup c m' + (if String.eqb m m' then 1 else 0).
Proof.
  induction c as [|[k v] c IH]; simpl.
  - destruct (String.eqb m m'); reflexivity.
  - destruct (String.eqb_spec k m) as [->|Hne]; simpl.
    + destruct (String.eqb m m'); lia.
    + destruct (String.eqb_spec k m') as [->|Hne'].
      * destruct (String.eqb_spec m m'); [congruence|lia].
      * exact IH.
Qed.

Lemma count_mnemonic_keys (c : list (string * Z)) (m : string) :
  map fst (Disassembler.count_mnemonic c m)
  = if Py.in_strs m (map fst c) then map fst c else map fst c ++ [m].
Proof.
  unfold Py.in_strs. induction c as [|[k v] c IH]; simpl; [reflexivity|].
  destruct (String.eqb_spec k m) as [->|Hne]; simpl.
  - rewrite String.eqb_refl. reflexivity.
  - apply not_eq_sym in Hne. apply String.eqb_neq in Hne. rewrite Hne. simpl.
    rewrite IH. destruct (existsb _ _); reflexivity.
Qed.

Lemma count_mnemonic_NoDup (c : list (string * Z)) (m : string) :
  NoDup (map fst c) -> NoDup (map fst (Disassembler.count_mnemonic c m)).
Proof.
  intros H. rewrite count_mnemonic_keys.
  destruct (Py.in_strs m (map fst c)) eqn:E; [exact H|].
  apply NoDup_app; [exact H|repeat constructor; intros []|].
  intros x Hx [Hm|[]]. subst x. unfold Py.in_strs in E.
  assert (Ht : existsb (String.eqb m) (map fst c) = true).
  { apply existsb_exists. exists m. split; [exact Hx|apply String.eqb_refl]. }
  congruence.
Qed.

Lemma count_mnemonic_positive (c : list (string * Z)) (m : string) :
  Forall (fun kv => 1 <= snd kv) c ->
  Forall (fun kv => 1 <= snd kv) (Disassembler.count_mnemonic c m).
Proof.
  induction 1 as [|[k v] c Hx Hc IH]; simpl.
  - constructor; [simpl; lia|constructor].
  - destruct (String.eqb k m); constructor; simpl in *; auto; lia.
Qed.

Lemma lookup_In (c : list (string * Z)) (m : string) (v : Z) :
  NoDup (map fst c) -> In (m, v) c -> MnemonicCount.lookup c m = v.
Proof.
  induction c as [|[k w] c IH]; simpl; intros Hnd Hin; [contradiction|].
  inversion Hnd as [|? ? Hk Hnd']; subst.
  destruct Hin as [Heq|Hin].
  - injection Heq as -> ->. rewrite String.eqb_refl. reflexivity.
  - destruct (String.eqb_spec k m) as [->|Hne].
    + exfalso. apply Hk. apply (in_map fst) in Hin. exact Hin.
    + apply IH; assumption.
Qed.

Lemma In_lookup (c : list (string * Z)) (m : string) :
  0 < MnemonicCount.lookup c m -> In (m, MnemonicCount.lookup c m) c.
Proof.
  induction c as [|[k w] c IH]; simpl; intros H; [lia|].
  destruct (String.eqb_spec k m) as [->|Hne]; [left; reflexivity|right; auto].
Qed.

Lemma occurrences_cons (m : string) (i : Instruction.t) (l : list Instruction.t) :
  MnemonicCount.occurrences m (i :: l)
  = (if String.eqb (Instruction.mnemonic i) m then 1 else 0)
    + MnemonicCount.occurrences m l.
Proof.
  unfold MnemonicCount.occurrences, Disassembler.count_if, Py.len. simpl.
  destruct (String.eqb _ _); simpl List.length; lia.
Qed.

(** The dictionary built by the counting loop. *)
Lemma mnemonic_counts_spec (insts : list Instruction.t) :
  forall c,
    NoDup (map fst c) -> Forall (fun kv => 1 <= snd kv) c ->
    let c' := fold_left (fun counts inst =>
                           Disassembler.count_mnemonic counts (Instruction.mnemonic inst))
                        insts c in
    NoDup (map fst c')
    /\ Forall (fun kv => 1 <= snd kv) c'
    /\ forall m, MnemonicCount.lookup c' m
                 = MnemonicCount.lookup c m + MnemonicCount.occurrences m insts.
Proof.
  induction insts as [|i l IH]; intros c Hnd Hpos; cbv zeta; simpl.
  - repeat split; auto. intros m. unfold MnemonicCount.occurrences, Disassembler.count_if.
    cbn. lia.
  - destruct (IH (Disassembler.count_mnemonic c (Instruction.mnemonic i))
                (count_mnemonic_NoDup _ _ Hnd) (count_mnemonic_positive _ _ Hpos))
      as (H1 & H2 & H3).
    repeat split; auto. intros m. rewrite H3, lookup_count_mnemonic, occurrences_cons. lia.
Qed.

Lemma insert_desc_perm (x : string * Z) (l : list (string * Z)) :
  Permutation (Disassembler.insert_desc x l) (x :: l).
Proof.
  induction l as [|y l IH]; simpl; [reflexivity|].
  destruct (snd y <=? snd x); [reflexivity|].
  rewrite IH. apply perm_swap.
Qed.

Lemma sorted_desc_perm (l : list (string * Z)) :
  Permutation (Disassembler.sorted_desc l) l.
Proof.
  unfold Disassembler.sorted_desc. induction l as [|x l IH]; simpl; [reflexivity|].
  rewrite insert_desc_perm. constructor. exact IH.
Qed.

Lemma insert_desc_sorted (x : string * Z) (l : list (string * Z)) :
  StronglySorted MnemonicCount.not_before l ->
  StronglySorted MnemonicCount.not_before (Disassembler.insert_desc x l).
Proof.
  induction 1 as [|y l Hs IH Hy]; simpl.
  - repeat constructor.
  - destruct (Z.leb_spec (snd y) (snd x)) as [Hle|Hgt].
    + constructor; [constructor; assumption|].
      constructor; [exact Hle|].
      revert Hy. apply Forall_impl. unfold MnemonicCount.not_before. intros z Hz. lia.
    + constructor; [exact IH|].
      apply (Permutation_Forall (Permutation_sym (insert_desc_perm x l))).
      constructor; [unfold MnemonicCount.not_before; lia|exact Hy].
Qed.

Lemma sorted_desc_sorted (l : list (string * Z)) :
  StronglySorted MnemonicCount.not_before (Disassembler.sorted_desc l).
Proof.
  unfold Disassembler.sorted_desc. induction l as [|x l IH]; simpl.
  - constructor.
  - apply insert_desc_sorted. exact IH.
Qed.

Lemma StronglySorted_app_inv {A : Type} (R : A -> A -> Prop) (l1 l2 : list A) :
  StronglySorted R (l1 ++ l2) ->
  StronglySorted R l1 /\ forall a b, In a l1 -> In b l2 -> R a b.
Proof.
  induction l1 as [|x l1 IH]; simpl; intros H.
  - split; [constructor|intros a b []].
  - inversion H as [|? ? Hs Hx]; subst. destruct (IH Hs) as [H1 H2].
    apply Forall_app in Hx. destruct Hx as [Hx1 Hx2]. split.
    + constructor; assumption.
    + intros a b [<-|Ha] Hb; [|auto]. rewrite Forall_forall in Hx2. auto.
Qed.

Lemma NoDup_firstn {A : Type} (n : nat) (l : list A) : NoDup l -> NoDup (firstn n l).
Proof.
  intros H. rewrite <- (firstn_skipn n l) in H. apply NoDup_app_remove_r in H. exact H.
Qed.

(** X9: [top_mnemonics] lists at most ten distinct mnemonics, by
    descending count; each listed count is the number of instructions of
    the stream with that mnemonic (at least 1); and a mnemonic of the
    stream that is not listed occurs no more often than any listed one. *)
Theorem top_mnemonics_are_the_most_frequent (self0 : Disassembler.t) (data : list Z)
    (base : Z) (metadata : option ModuleMetadata.t) :
  let r := snd (Disassembler.disassemble self0 data base metadata) in
  let insts := DisassemblyResult.instructions r in
  let top := Statistics.top_mnemonics (DisassemblyResult.statistics r) in
  (List.length top <= 10)%nat
  /\ StronglySorted MnemonicCount.not_before top
  /\ NoDup (map fst top)
  /\ (forall m c, In (m, c) top -> 1 <= c /\ c = MnemonicCount.occurrences m insts)
  /\ (forall m, 0 < MnemonicCount.occurrences m insts ->
                In (m, MnemonicCount.occurrences m insts) top
                \/ forall m' c', In (m', c') top ->
                                 MnemonicCount.occurrences m insts <= c').
Proof.
  cbv zeta.
  destruct (disassemble_shape self0 data base metadata) as (_ & _ & Hst).
  cbv zeta in Hst. rewrite Hst.
  set (insts := DisassemblyResult.instructions
                  (snd (Disassembler.disassemble self0 data base metadata))).
  unfold Disassembler._generate_statistics.
  cbn [Statistics.top_mnemonics Disassembler.instructions].
  set (counts := fold_left _ insts []).
  destruct (mnemonic_counts_spec insts [] (NoDup_nil _) (Forall_nil _))
    as (Hnd & Hpos & Hlk).
  fold counts in Hnd, Hpos, Hlk. cbn [MnemonicCount.lookup] in Hlk.
  pose proof (sorted_desc_perm counts) as Hperm.
  pose proof (sorted_desc_sorted counts) as Hsorted.
  set (sorted := Disassembler.sorted_desc counts) in *.
  assert (Hsplit : sorted = firstn 10 sorted ++ skipn 10 sorted)
    by (symmetry; apply firstn_skipn).
  rewrite Hsplit in Hsorted. apply StronglySorted_app_inv in Hsorted.
  destruct Hsorted as [Hs1 Hs2].
  assert (Hin : forall m c, In (m, c) (firstn 10 sorted) -> In (m, c) counts).
  { intros m c H. apply (Permutation_in _ Hperm). rewrite Hsplit.
    apply in_or_app. left. exact H. }
  split; [apply firstn_le_length|]. split; [exact Hs1|]. split; [|split].
  - rewrite <- firstn_map. apply NoDup_firstn.
    apply (Permutation_NoDup (Permutation_map fst (Permutation_sym Hperm))). exact Hnd.
  - intros m c H. specialize (Hin m c H). split.
    + rewrite Forall_forall in Hpos. apply (Hpos _ Hin).
    + rewrite <- (lookup_In counts m c Hnd Hin). rewrite Hlk. lia.
  - intros m Hocc.
    assert (Hm : In (m, MnemonicCount.occurrences m insts) sorted).
    { apply (Permutation_in _ (Permutation_sym Hperm)).
      replace (MnemonicCount.occurrences m insts) with (MnemonicCount.lookup counts m)
        by (rewrite Hlk; lia).
      apply In_lookup. rewrite Hlk. lia. }
    rewrite Hsplit in Hm. apply in_app_or in Hm. destruct Hm as [Hm|Hm].
    + left. exact Hm.
    + right. intros m' c' H'. apply (Hs2 _ _ H' Hm).
Qed.

(** ** Leaders *)

Lemma leaders_add_In (x a : Z) (s : list Z) :
  In a (CFGBuilder.leaders_add x s) <-> a = x \/ In a s.
Proof.
  unfold CFGBuilder.leaders_add, Py.in_ints.
  destruct (existsb (Z.eqb x) s) eqn:E.
  - split; [auto|]. intros [->|H]; [|exact H].
    apply existsb_exists in E. destruct E as [z [Hz Hxz]].
    apply Z.eqb_eq in Hxz. subst. exact Hz.
  - rewrite in_app_iff. simpl. intuition congruence.
Qed.

Lemma leaders_add_NoDup (x : Z) (s : list Z) :
  NoDup s -> NoDup (CFGBuilder.leaders_add x s).
Proof.
  intros H. unfold CFGBuilder.leaders_add, Py.in_ints.
  destruct (existsb (Z.eqb x) s) eqn:E; [exact H|].
  apply NoDup_app; [exact H|repeat constructor; intros []|].
  intros a Ha [Hx|[]]. subst a.
  assert (Ht : existsb (Z.eqb x) s = true).
  { apply existsb_exists. exists x. split; [exact Ha|apply Z.eqb_refl]. }
  congruence.
Qed.

Lemma address_map_complete (insts : list Instruction.t) (i : Instruction.t) :
  In i insts -> Py.dict_mem (Instruction.address_map insts) (Instruction.address i) = true.
Proof.
  unfold Instruction.address_map, Py.dict_mem.
  assert (H : forall l d,
             (In i l \/ Py.dict_get d (Instruction.address i) <> None) ->
             Py.dict_get
               (fold_left (fun d inst => Py.dict_set d (Instruction.address inst) inst) l d)
               (Instruction.address i) <> None).
  { induction l as [|x l IH]; intros d Hd; simpl.
    - destruct Hd as [[]|Hd]; exact Hd.
    - apply IH. destruct Hd as [[->|Hin]|Hd].
      + right. rewrite dict_get_set, Z.eqb_refl. discriminate.
      + left. exact Hin.
      + right. rewrite dict_get_set. destruct (_ =? _); [discriminate|exact Hd]. }
  intros Hin. specialize (H insts [] (or_introl Hin)).
  destruct (Py.dict_get _ _); [reflexivity|contradiction].
Qed.

Lemma address_map_mem_sound (insts : list Instruction.t) (a : Z) :
  Py.dict_mem (Instruction.address_map insts) a = true ->
  exists i, In i insts /\ Instruction.address i = a.
Proof.
  unfold Py.dict_mem.
  destruct (Py.dict_get (Instruction.address_map insts) a) as [i|] eqn:E; [|discriminate].
  intros _. exists i. apply instruction_map_sound. exact E.
Qed.

Lemma scan_leaders_cons (imap : list (Z * Instruction.t)) (inst : Instruction.t)
    (rest : list Instruction.t) (ls : list Z) :
  CFGBuilder.scan_leaders imap (inst :: rest) ls
  = CFGBuilder.scan_leaders imap rest (LeaderScan.step imap inst rest ls).
Proof. reflexivity. Qed.

Lemma add_next_In (rest : list Instruction.t) (ls : list Z) (a : Z) :
  In a (LeaderScan.add_next rest ls)
  <-> In a ls \/ exists n r, rest = n :: r /\ a = Instruction.address n.
Proof.
  unfold LeaderScan.add_next. destruct rest as [|n r].
  - split; [auto|]. intros [H|(n & r & H & _)]; [exact H|discriminate].
  - rewrite leaders_add_In. split.
    + intros [->|H]; [right; eauto|left; exact H].
    + intros [H|(n' & r' & Heq & ->)]; [right; exact H|].
      injection Heq as -> ->. left. reflexivity.
Qed.

Lemma add_target_In (imap : list (Z * Instruction.t)) (inst : Instruction.t)
    (ls : list Z) (a : Z) :
  In a (LeaderScan.add_target imap inst ls)
  <-> In a ls \/ (Instruction.branch_target inst = Some a
                  /\ a <> 0 /\ Py.dict_mem imap a = true).
Proof.
  unfold LeaderScan.add_target. destruct (Instruction.branch_target inst) as [t|].
  - destruct (Z.eqb_spec t 0) as [->|Hne]; cbn [negb andb].
    + split; [auto|]. intros [H|(H & Hn & _)]; [exact H|]. injection H as <-. lia.
    + destruct (Py.dict_mem imap t) eqn:Em.
      * rewrite leaders_add_In. split.
        -- intros [->|H]; [right; auto|left; exact H].
        -- intros [H|(H & _)]; [right; exact H|injection H as <-; left; reflexivity].
      * split; [auto|]. intros [H|(H & _ & Hm)]; [exact H|].
        injection H as <-. congruence.
  - split; [auto|]. intros [H|(H & _)]; [exact H|discriminate].
Qed.

Lemma step_NoDup (imap : list (Z * Instruction.t)) (inst : Instruction.t)
    (rest : list Instruction.t) (ls : list Z) :
  NoDup ls -> NoDup (LeaderScan.step imap inst rest ls).
Proof.
  intros Hl.
  assert (Hn : forall l, NoDup l -> NoDup (LeaderScan.add_next rest l)).
  { intros l H. unfold LeaderScan.add_next. destruct rest; [exact H|].
    apply leaders_add_NoDup. exact H. }
  assert (Ht : NoDup (LeaderScan.add_target imap inst ls)).
  { unfold LeaderScan.add_target.
    destruct (Instruction.branch_target inst) as [t|]; [|exact Hl].
    destruct (_ && _); [apply leaders_add_NoDup|]; exact Hl. }
  unfold LeaderScan.step. cbv zeta.
  destruct (Instruction.is_branch inst).
  - destruct (negb _); auto.
  - destruct (Instruction.is_call inst); auto.
    destruct (Instruction.is_return inst); auto.
Qed.

Lemma step_In (imap : list (Z * Instruction.t)) (inst : Instruction.t)
    (rest : list Instruction.t) (ls : list Z) (a : Z) :
  In a (LeaderScan.step imap inst rest ls) ->
  In a ls \/ Py.dict_mem imap a = true
  \/ exists n r, rest = n :: r /\ a = Instruction.address n.
Proof.
  unfold LeaderScan.step. cbv zeta.
  destruct (Instruction.is_branch inst).
  - destruct (negb _).
    + rewrite add_next_In, add_target_In. intuition.
    + rewrite add_target_In. intuition.
  - destruct (Instruction.is_call inst); [rewrite add_next_In; intuition|].
    destruct (Instruction.is_return inst); [rewrite add_next_In; intuition|auto].
Qed.

Lemma step_mono (imap : list (Z * Instruction.t)) (inst : Instruction.t)
    (rest : list Instruction.t) (ls : list Z) (a : Z) :
  In a ls -> In a (LeaderScan.step imap inst rest ls).
Proof.
  intros Ha. unfold LeaderScan.step. cbv zeta.
  destruct (Instruction.is_branch inst).
  - destruct (negb _); [apply add_next_In; left|]; apply add_target_In; left; exact Ha.
  - destruct (Instruction.is_call inst); [apply add_next_In; left; exact Ha|].
    destruct (Instruction.is_return inst); [apply add_next_In; left; exact Ha|exact Ha].
Qed.

(** One pass of the scan only adds addresses of instructions of the
    scanned suffix or addresses the map knows. *)
Lemma scan_leaders_facts (imap : list (Z * Instruction.t)) :
  forall (insts : list Instruction.t) (ls : list Z),
    let ls' := CFGBuilder.scan_leaders imap insts ls in
    (forall a, In a ls -> In a ls')
    /\ (NoDup ls -> NoDup ls')
    /\ (forall a, In a ls' ->
                  In a ls \/ Py.dict_mem imap a = true
                  \/ exists i, In i insts /\ Instruction.address i = a)
    /\ (forall pre i j post,
          insts = pre ++ i :: j :: post ->
          Instruction.is_branch i = true ->
          CFGBuilder._is_unconditional_branch i = false ->
          In (Instruction.address j) ls').
Proof.
  induction insts as [|inst rest IH]; intros ls; cbv zeta.
  - simpl. repeat split; auto. intros pre i j post H. destruct pre; discriminate.
  - rewrite scan_leaders_cons.
    destruct (IH (LeaderScan.step imap inst rest ls)) as (Hm & Hnd & Hsrc & Hft).
    cbv zeta in *.
    split; [intros a Ha; apply Hm, step_mono, Ha|].
    split; [intros Hl; apply Hnd, step_NoDup, Hl|].
    split.
    + intros a Ha. destruct (Hsrc a Ha) as [H|[H|(i & Hi & Hai)]].
      * destruct (step_In _ _ _ _ _ H) as [H'|[H'|(n & r & Hr & ->)]]; auto.
        right. right. exists n. split; [right; rewrite Hr; left; reflexivity|reflexivity].
      * auto.
      * right. right. exists i. split; [right; exact Hi|exact Hai].
    + intros pre i j post Heq Hb Hu. destruct pre as [|p pre].
      * cbn [app] in Heq. injection Heq as -> Hrest.
        apply Hm. unfold LeaderScan.step. rewrite Hb, Hu. cbn [negb]. cbv zeta.
        apply add_next_In. right. exists j, post.
        split; [first [exact Hrest|symmetry; exact Hrest]|reflexivity].
      * cbn [app] in Heq. injection Heq as -> Hrest.
        apply (Hft pre i j post); auto.
Qed.

Lemma entry_fold_facts (imap : list (Z * Instruction.t)) :
  forall (eps : list Z) (ls : list Z),
    let ls' := fold_left (fun ls ep => if Py.dict_mem imap ep
                                       then CFGBuilder.leaders_add ep ls else ls) eps ls in
    (forall a, In a ls' <-> In a ls \/ (In a eps /\ Py.dict_mem imap a = true))
    /\ (NoDup ls -> NoDup ls').
Proof.
  induction eps as [|ep eps IH]; intros ls; cbv zeta; simpl.
  - split; [intros a; intuition|auto].
  - destruct (IH (if Py.dict_mem imap ep then CFGBuilder.leaders_add ep ls else ls))
      as [Hin Hnd]. cbv zeta in *. split.
    + intros a. rewrite Hin. destruct (Py.dict_mem imap ep) eqn:E.
      * rewrite leaders_add_In. split.
        -- intros [[->|H]|[H1 H2]]; auto.
        -- intros [H|[[<-|H1] H2]]; auto.
      * split.
        -- intros [H|[H1 H2]]; auto.
        -- intros [H|[[<-|H1] H2]]; auto. congruence.
    + intros Hl. apply Hnd. destruct (Py.dict_mem imap ep); [apply leaders_add_NoDup|];
        exact Hl.
Qed.

Lemma find_leaders_facts (insts : list Instruction.t) (leaders0 : list Z)
    (blocks : list (string * BasicBlock.t)) (entry_points : list Z) :
  let self := CFGBuilder.mk insts (Instruction.address_map insts) leaders0 blocks in
  let ls := CFGBuilder.leaders (CFGBuilder._find_leaders self entry_points) in
  (forall a, In a ls -> In a leaders0 \/ exists i, In i insts /\ Instruction.address i = a)
  /\ (forall a, In a leaders0 -> In a ls)
  /\ (NoDup leaders0 -> NoDup ls)
  /\ (insts <> [] -> ls <> [])
  /\ (forall i, In i insts -> In (Instruction.address i) entry_points ->
                In (Instruction.address i) ls)
  /\ (forall pre i j post,
        insts = pre ++ i :: j :: post ->
        Instruction.is_branch i = true ->
        CFGBuilder._is_unconditional_branch i = false ->
        In (Instruction.address j) ls).
Proof.
  cbv zeta. unfold CFGBuilder._find_leaders.
  cbn [CFGBuilder.leaders CFGBuilder.instructions CFGBuilder.instruction_map].
  set (imap := Instruction.address_map insts).
  destruct (entry_fold_facts imap entry_points leaders0) as [He_in He_nd].
  cbv zeta in *.
  set (l1 := fold_left _ entry_points leaders0) in *.
  set (l2 := match l1, insts with
             | [], first :: _ => CFGBuilder.leaders_add (Instruction.address first) l1
             | _, _ => l1
             end).
  assert (H2_in : forall a, In a l2 ->
                            In a l1 \/ exists i, In i insts /\ Instruction.address i = a).
  { intros a. unfold l2. destruct l1 as [|x l1']; [|auto].
    destruct insts as [|f r]; [auto|]. rewrite leaders_add_In.
    intros [->|H]; [right; exists f; split; [left|]; reflexivity|auto]. }
  assert (H2_mono : forall a, In a l1 -> In a l2).
  { intros a Ha. unfold l2. destruct l1 as [|x l1']; [destruct Ha|exact Ha]. }
  assert (H2_nd : NoDup l1 -> NoDup l2).
  { intros H. unfold l2. destruct l1 as [|x l1']; [|exact H].
    destruct insts; [exact H|]. apply leaders_add_NoDup. exact H. }
  assert (H2_ne : insts <> [] -> l2 <> []).
  { intros Hne. unfold l2. destruct l1 as [|x l1']; [|discriminate].
    destruct insts as [|f r]; [contradiction|].
    unfold CFGBuilder.leaders_add. cbn. discriminate. }
  destruct (scan_leaders_facts imap insts l2) as (Hm & Hnd & Hsrc & Hft). cbv zeta in *.
  split; [|split; [|split; [|split; [|split]]]].
  - intros a Ha. destruct (Hsrc a Ha) as [H|[H|H]].
    + destruct (H2_in a H) as [H'|H']; [|auto].
      apply He_in in H'. destruct H' as [H'|[_ H']]; [auto|].
      right. apply address_map_mem_sound. exact H'.
    + right. apply address_map_mem_sound. exact H.
    + auto.
  - intros a Ha. apply Hm, H2_mono, He_in. left. exact Ha.
  - intros H. apply Hnd, H2_nd, He_nd, H.
  - intros Hne Hnil. specialize (H2_ne Hne).
    destruct l2 as [|x l2']; [contradiction|].
    specialize (Hm x (or_introl eq_refl)). rewrite Hnil in Hm. destruct Hm.
  - intros i Hi Hep. apply Hm, H2_mono, He_in. right. split; [exact Hep|].
    apply address_map_complete. exact Hi.
  - exact Hft.
Qed.

(** X10: [_find_leaders] only adds to the leader set, and only addresses
    of instructions of the stream (the list models a set and stays free of
    duplicates); for a non-empty stream the set is non-empty; an entry
    point that is the address of an instruction becomes a leader; and the
    instruction that follows a branch which is not unconditional becomes a
    leader. *)
Theorem find_leaders_properties (insts : list Instruction.t) (leaders0 : list Z)
    (blocks : list (string * BasicBlock.t)) (entry_points : list Z) :
  let self := CFGBuilder.mk insts (Instruction.address_map insts) leaders0 blocks in
  let ls := CFGBuilder.leaders (CFGBuilder._find_leaders self entry_points) in
  (forall a, In a ls -> In a leaders0 \/ exists i, In i insts /\ Instruction.address i = a)
  /\ (forall a, In a leaders0 -> In a ls)
  /\ (NoDup leaders0 -> NoDup ls)
  /\ (insts <> [] -> ls <> [])
  /\ (forall i, In i insts -> In (Instruction.address i) entry_points ->
                In (Instruction.address i) ls)
  /\ (forall pre i j post,
        insts = pre ++ i :: j :: post ->
        Instruction.is_branch i = true ->
        CFGBuilder._is_unconditional_branch i = false ->
        In (Instruction.address j) ls).
Proof. exact (find_leaders_facts insts leaders0 blocks entry_points). Qed.

(** X11: a decoded return is an unconditional branch for the leader scan,
    so scanning it adds no leader at all: the instruction after a return
    does not become a leader on account of the return (the [elif
    inst.is_return] arm of [_find_leaders] is never reached for it). *)
Theorem return_starts_no_leader (data : list Z) (offset : nat) (address : Z)
    (inst : Instruction.t) (imap : list (Z * Instruction.t))
    (rest : list Instruction.t) (ls : list Z) :
  NativeDecoder.decode_instruction data offset address = Some inst ->
  Instruction.is_return inst = true ->
  CFGBuilder._is_unconditional_branch inst = true
  /\ CFGBuilder.scan_leaders imap (inst :: rest) ls = CFGBuilder.scan_leaders imap rest ls.
Proof.
  intros Hd Hr.
  pose proof (decode_instruction_record _ _ _ _ Hd) as Hrec. cbv zeta in Hrec.
  destruct (decoded_flag_facts _ _ _ _ Hd) as (_ & Hret & Hlen2 & _).
  destruct (Hret Hr) as (Hm & Hb & _ & H2). specialize (Hlen2 H2).
  assert (Hu : CFGBuilder._is_unconditional_branch inst = true).
  { unfold CFGBuilder._is_unconditional_branch. rewrite Hm. cbn [String.eqb Ascii.eqb
      Bool.eqb andb].
    rewrite Hrec in Hr, Hm |- *.
    cbn [Instruction.is_return Instruction.mnemonic Instruction.operands] in *.
    rewrite Hm in Hr. cbn [String.eqb Ascii.eqb Bool.eqb andb orb] in Hr.
    rewrite orb_false_r in Hr. rewrite Hr. reflexivity. }
  split; [exact Hu|].
  rewrite scan_leaders_cons. unfold LeaderScan.step, LeaderScan.add_target.
  rewrite Hb, Hu, Hlen2. reflexivity.
Qed.

Lemma return_starts_no_leader_witness :
  exists inst,
    NativeDecoder.decode_instruction [0x07; 0xFE] 0 0 = Some inst
    /\ CFGBuilder._is_unconditional_branch inst = true.
Proof.
  eexists. split; [reflexivity|].
  refine (proj1 (return_starts_no_leader [0x07; 0xFE] 0 0 _ [] [] [] _ _));
    reflexivity.
Defined.

(** ** Which exception [build_cfg] raises *)

Lemma insert_asc_perm (x : Z) (l : list Z) : Permutation (CFGBuilder.insert_asc x l) (x :: l).
Proof.
  induction l as [|y l IH]; simpl; [reflexivity|].
  destruct (x <=? y); [reflexivity|].
  rewrite IH. apply perm_swap.
Qed.

Lemma sorted_perm (l : list Z) : Permutation (CFGBuilder.sorted l) l.
Proof.
  induction l as [|x l IH]; simpl; [reflexivity|].
  rewrite insert_asc_perm. constructor. exact IH.
Qed.

Lemma insert_asc_sorted (x : Z) (l : list Z) :
  StronglySorted Z.le l -> StronglySorted Z.le (CFGBuilder.insert_asc x l).
Proof.
  induction l as [|y l IH]; intros Hl; simpl.
  - constructor; constructor.
  - inversion Hl as [|? ? Hl' Hy]; subst.
    destruct (Z.leb_spec x y) as [Hxy|Hxy].
    + constructor; [exact Hl|]. constructor; [exact Hxy|].
      eapply Forall_impl; [|exact Hy]. cbv beta. intros. lia.
    + constructor; [apply IH; exact Hl'|].
      eapply Permutation_Forall; [symmetry; apply insert_asc_perm|].
      constructor; [lia|exact Hy].
Qed.

Lemma sorted_sorted (l : list Z) : StronglySorted Z.le (CFGBuilder.sorted l).
Proof.
  induction l as [|x l IH]; simpl; [constructor|].
  apply insert_asc_sorted. exact IH.
Qed.

Lemma non_overlapping_last (insts : list Instruction.t) (d i : Instruction.t) :
  Layout.non_overlapping insts = true ->
  In i insts ->
  Instruction.address i
  <= Instruction.address (last insts d) + Py.len (Instruction.raw_bytes (last insts d)) - 1.
Proof.
  revert i. induction insts as [|x insts IH]; intros i Hno Hi; [destruct Hi|].
  cbn [Layout.non_overlapping] in Hno.
  apply andb_prop in Hno. destruct Hno as [Hno Hrest].
  apply andb_prop in Hno. destruct Hno as [Hlen Hfa].
  apply Z.leb_le in Hlen. unfold Layout.inst_len in *.
  rewrite forallb_forall in Hfa.
  destruct insts as [|y insts'].
  - destruct Hi as [<-|[]]. simpl. lia.
  - change (last (x :: y :: insts') d) with (last (y :: insts') d).
    destruct Hi as [<-|Hi].
    + assert (Hy : In (last (y :: insts') d) (y :: insts')).
      { clear. generalize y. induction insts' as [|z l IHl]; intros y0.
        - left. reflexivity.
        - right. apply (IHl z). }
      specialize (Hfa _ Hy). apply Z.leb_le in Hfa.
      pose proof (IH _ Hrest Hy). lia.
    + apply IH; assumption.
Qed.

Lemma create_blocks_first_raises (insts : list Instruction.t) (leader : Z) (rest : list Z)
    (blocks : list (string * BasicBlock.t)) (i : Instruction.t) :
  In i insts ->
  Instruction.address i = leader ->
  match rest with next :: _ => leader < next | [] => True end ->
  Layout.non_overlapping insts = true ->
  CFGBuilder.create_blocks_from insts (leader :: rest) blocks
  = Py.Raise (Py.AttributeError "dict" "append").
Proof.
  intros Hi Ha Hnext Hno. cbn [CFGBuilder.create_blocks_from].
  match goal with
  | |- context [filter ?p insts] =>
      assert (Hin : In i (filter p insts)); [|destruct (filter p insts) as [|f bi]]
  end.
  - apply filter_In. split; [exact Hi|]. rewrite Ha.
    apply andb_true_intro. split; [apply Z.leb_le; lia|]. apply Z.leb_le.
    destruct rest as [|next rest']; [|lia].
    destruct insts as [|first insts']; [destruct Hi|].
    rewrite <- Ha. apply non_overlapping_last; assumption.
  - destruct Hin.
  - reflexivity.
Qed.

Lemma build_cfg_exception_kind (self : CFGBuilder.t) (disasm_result : DisassemblyResult.t) :
  CFGBuilder.leaders self = [] ->
  CFGBuilder.blocks self = [] ->
  Layout.non_overlapping (DisassemblyResult.instructions disasm_result) = true ->
  CFGBuilder.build_cfg self disasm_result
  = Py.Raise (match DisassemblyResult.instructions disasm_result with
              | [] => Py.UnboundLocalError "cfg"
              | _ :: _ => Py.AttributeError "dict" "append"
              end).
Proof.
  intros Hl Hb Hno. unfold CFGBuilder.build_cfg. rewrite Hl, Hb.
  set (insts := DisassemblyResult.instructions disasm_result) in *.
  set (eps := ControlFlowGraph.entry_points (DisassemblyResult.cfg disasm_result)).
  destruct (find_leaders_facts insts [] [] eps) as (Hsrc & _ & Hnd & Hne & _).
  cbv zeta in *.
  unfold CFGBuilder._create_basic_blocks.
  set (self1 := CFGBuilder._find_leaders _ eps) in *.
  assert (Hi1 : CFGBuilder.instructions self1 = insts) by reflexivity.
  assert (Hb1 : CFGBuilder.blocks self1 = []) by reflexivity.
  rewrite Hi1, Hb1.
  pose proof (sorted_perm (CFGBuilder.leaders self1)) as Hperm.
  pose proof (sorted_sorted (CFGBuilder.leaders self1)) as Hsorted.
  destruct (CFGBuilder.sorted (CFGBuilder.leaders self1)) as [|leader rest] eqn:Es.
  - apply Permutation_nil in Hperm.
    destruct insts as [|f r]; [|exfalso; apply Hne; [discriminate|exact Hperm]].
    cbn [CFGBuilder.create_blocks_from Py.bind]. reflexivity.
  - assert (Hin : In leader (CFGBuilder.leaders self1)).
    { eapply Permutation_in; [exact Hperm|left; reflexivity]. }
    destruct (Hsrc leader Hin) as [[]|[i [Hi Hai]]].
    assert (Hnd' : NoDup (leader :: rest)).
    { eapply Permutation_NoDup; [symmetry; exact Hperm|]. apply Hnd. constructor. }
    rewrite (create_blocks_first_raises insts leader rest [] i Hi Hai); [| |exact Hno].
    + cbn [Py.bind]. destruct insts; [destruct Hi|reflexivity].
    + destruct rest as [|next rest']; [exact I|].
      apply StronglySorted_inv in Hsorted. destruct Hsorted as [_ Hle].
      apply Forall_inv in Hle.
      apply NoDup_cons_iff in Hnd'. destruct Hnd' as [Hnot _].
      assert (Hneq : leader <> next).
      { intros Heq. apply Hnot. left. symmetry. exact Heq. }
      lia.
Qed.

(** X12: on the result of [disassemble], a fresh [CFGBuilder] fails in
    [build_cfg] with [AttributeError] (the [append] on the dict
    [self.blocks]) whenever at least one instruction was decoded, and with
    [UnboundLocalError] for the name [cfg] when none was. *)
Theorem build_cfg_exception_after_disassemble (self0 : Disassembler.t) (data : list Z)
    (base : Z) (metadata : option ModuleMetadata.t) :
  let r := snd (Disassembler.disassemble self0 data base metadata) in
  CFGBuilder.build_cfg CFGBuilder.init r
  = Py.Raise (match DisassemblyResult.instructions r with
              | [] => Py.UnboundLocalError "cfg"
              | _ :: _ => Py.AttributeError "dict" "append"
              end).
Proof.
  cbv zeta. apply build_cfg_exception_kind; try reflexivity.
  apply disassemble_non_overlapping.
Qed.

(** ** Blocks and edges of the graph *)

Lemma blocks_get_set (d : list (string * BasicBlock.t)) (k : string) (b : BasicBlock.t)
    (k' : string) :
  ControlFlowGraph.blocks_get (ControlFlowGraph.blocks_set d k b) k'
  = if String.eqb k k' then Some b else ControlFlowGraph.blocks_get d k'.
Proof.
  induction d as [|[k0 b0] d IH]; simpl.
  - reflexivity.
  - destruct (String.eqb_spec k0 k) as [->|Hne]; simpl.
    + destruct (String.eqb k k'); reflexivity.
    + destruct (String.eqb_spec k0 k') as [->|Hne'].
      * apply not_eq_sym in Hne. apply String.eqb_neq in Hne. rewrite Hne. reflexivity.
      * exact IH.
Qed.

Lemma blocks_set_keys (d : list (string * BasicBlock.t)) (k : string) (b : BasicBlock.t) :
  map fst (ControlFlowGraph.blocks_set d k b)
  = if Py.in_strs k (map fst d) then map fst d else map fst d ++ [k].
Proof.
  unfold Py.in_strs. induction d as [|[k0 b0] d IH]; simpl; [reflexivity|].
  rewrite (String.eqb_sym k k0).
  destruct (String.eqb k0 k); simpl; [reflexivity|].
  rewrite IH. destruct (existsb _ _); reflexivity.
Qed.

Lemma blocks_modify_keys (d : list (string * BasicBlock.t)) (k : string)
    (f : BasicBlock.t -> BasicBlock.t) :
  map fst (ControlFlowGraph.blocks_modify d k f) = map fst d.
Proof.
  induction d as [|[k0 b0] d IH]; simpl; [reflexivity|].
  destruct (String.eqb k0 k); simpl; [reflexivity|]. rewrite IH. reflexivity.
Qed.

(** X13: after [add_block], the graph maps the block's id to the block and
    every other id to what it held before; a new id is appended to the key
    order and an existing id keeps its place; adding the same block again
    changes nothing. *)
Theorem add_block_then_lookup (cfg : ControlFlowGraph.t) (block : BasicBlock.t) :
  let cfg' := ControlFlowGraph.add_block cfg block in
  ControlFlowGraph.blocks_get (ControlFlowGraph.basic_blocks cfg') (BasicBlock.id block)
  = Some block
  /\ (forall k, k <> BasicBlock.id block ->
        ControlFlowGraph.blocks_get (ControlFlowGraph.basic_blocks cfg') k
        = ControlFlowGraph.blocks_get (ControlFlowGraph.basic_blocks cfg) k)
  /\ map fst (ControlFlowGraph.basic_blocks cfg')
     = (if Py.in_strs (BasicBlock.id block) (map fst (ControlFlowGraph.basic_blocks cfg))
        then map fst (ControlFlowGraph.basic_blocks cfg)
        else map fst (ControlFlowGraph.basic_blocks cfg) ++ [BasicBlock.id block])
  /\ ControlFlowGraph.add_block cfg' block = cfg'.
Proof.
  cbv zeta. unfold ControlFlowGraph.add_block.
  cbn [ControlFlowGraph.basic_blocks ControlFlowGraph.with_blocks].
  split; [|split; [|split]].
  - rewrite blocks_get_set, String.eqb_refl. reflexivity.
  - intros k Hk. rewrite blocks_get_set.
    apply not_eq_sym in Hk. apply String.eqb_neq in Hk. rewrite Hk. reflexivity.
  - apply blocks_set_keys.
  - unfold ControlFlowGraph.with_blocks.
    cbn [ControlFlowGraph.module_name ControlFlowGraph.entry_points
         ControlFlowGraph.procedures ControlFlowGraph.call_graph
         ControlFlowGraph.unresolved_branches ControlFlowGraph.data_regions].
    f_equal.
    induction (ControlFlowGraph.basic_blocks cfg) as [|[k0 b0] d IH]; simpl.
    + rewrite String.eqb_refl. reflexivity.
    + destruct (String.eqb k0 (BasicBlock.id block)) eqn:E; simpl; rewrite E.
      * reflexivity.
      * rewrite IH. reflexivity.
Qed.

Lemma add_edge_get (d : list (string * BasicBlock.t)) (from_id to_id k : string) :
  ControlFlowGraph.blocks_get
    (ControlFlowGraph.blocks_modify
       (ControlFlowGraph.blocks_modify d from_id (ControlFlowGraph.add_successor to_id))
       to_id (ControlFlowGraph.add_predecessor from_id)) k
  = option_map
      (fun b => (if String.eqb to_id k
                 then ControlFlowGraph.add_predecessor from_id else fun b => b)
                  ((if String.eqb from_id k
                    then ControlFlowGraph.add_successor to_id else fun b => b) b))
      (ControlFlowGraph.blocks_get d k).
Proof.
  rewrite !blocks_get_modify.
  destruct (String.eqb to_id k), (String.eqb from_id k),
    (ControlFlowGraph.blocks_get d k); reflexivity.
Qed.

(** X14: [add_edge] leaves the graph unchanged when either id is missing;
    otherwise it adds [to_id] to the successors of the block [from_id] and
    [from_id] to the predecessors of the block [to_id] and changes nothing
    else (keys, ids, instructions, all other successor and predecessor
    sets); in both cases a graph whose edges are symmetric stays so. *)
Theorem add_edge_effect (cfg : ControlFlowGraph.t) (from_id to_id : string) :
  let bb := ControlFlowGraph.basic_blocks cfg in
  let cfg' := ControlFlowGraph.add_edge cfg from_id to_id in
  let bb' := ControlFlowGraph.basic_blocks cfg' in
  (ControlFlowGraph.blocks_get bb from_id = None
   \/ ControlFlowGraph.blocks_get bb to_id = None -> cfg' = cfg)
  /\ (ControlFlowGraph.blocks_get bb from_id <> None ->
      ControlFlowGraph.blocks_get bb to_id <> None ->
      forall k b, ControlFlowGraph.blocks_get bb k = Some b ->
        exists b', ControlFlowGraph.blocks_get bb' k = Some b'
          /\ BasicBlock.id b' = BasicBlock.id b
          /\ BasicBlock.instructions b' = BasicBlock.instructions b
          /\ (forall s, In s (BasicBlock.successors b')
                        <-> In s (BasicBlock.successors b) \/ (k = from_id /\ s = to_id))
          /\ (forall p, In p (BasicBlock.predecessors b')
                        <-> In p (BasicBlock.predecessors b) \/ (k = to_id /\ p = from_id)))
  /\ map fst bb' = map fst bb
  /\ (ControlFlowGraph.edges_symmetric bb -> ControlFlowGraph.edges_symmetric bb').
Proof.
  cbv zeta. split; [|split; [|split]].
  - unfold ControlFlowGraph.add_edge. intros [H|H]; rewrite H; [reflexivity|].
    destruct (ControlFlowGraph.blocks_get _ from_id); reflexivity.
  - unfold ControlFlowGraph.add_edge. intros Hf Ht k b Hk.
    destruct (ControlFlowGraph.blocks_get (ControlFlowGraph.basic_blocks cfg) from_id)
      as [bf|] eqn:Ef; [|contradiction].
    destruct (ControlFlowGraph.blocks_get (ControlFlowGraph.basic_blocks cfg) to_id)
      as [bt|] eqn:Et; [|contradiction].
    cbn [ControlFlowGraph.basic_blocks ControlFlowGraph.with_blocks].
    rewrite add_edge_get, Hk. cbn [option_map].
    eexists. split; [reflexivity|].
    destruct (String.eqb_spec to_id k) as [Htk|Htk], (String.eqb_spec from_id k) as [Hfk|Hfk];
      cbn [BasicBlock.id BasicBlock.instructions BasicBlock.successors
           BasicBlock.predecessors ControlFlowGraph.add_predecessor
           ControlFlowGraph.add_successor];
      (split; [reflexivity|split; [reflexivity|split]]);
      intros x; rewrite ?ids_add_In; split; intros H;
      repeat match goal with
             | H : _ \/ _ |- _ => destruct H
             | H : _ /\ _ |- _ => destruct H
             end; subst; auto; try congruence.
  - unfold ControlFlowGraph.add_edge.
    destruct (ControlFlowGraph.blocks_get _ from_id); [|reflexivity].
    destruct (ControlFlowGraph.blocks_get _ to_id); [|reflexivity].
    cbn [ControlFlowGraph.basic_blocks ControlFlowGraph.with_blocks].
    rewrite !blocks_modify_keys. reflexivity.
  - apply add_edge_keeps_symmetry.
Qed.

(** ** Ingestion *)

Lemma load_file_ok (stem : string) (bytes : list Z) :
  8 <= Py.len bytes ->
  BinaryIngestor.load_file BinaryIngestor.init stem (Py.Ok bytes)
  = (BinaryIngestor._detect_format
       (BinaryIngestor.set_name
          (BinaryIngestor.mk bytes ModuleMetadata.default 0 0) stem), true).
Proof.
  intros H. unfold BinaryIngestor.load_file. cbn [BinaryIngestor.data].
  destruct (Z.ltb_spec (Py.len bytes) 8) as [Hlt|_]; [lia|]. reflexivity.
Qed.

Lemma firstn_2_inv (bytes : list Z) (a b : Z) :
  firstn 2 bytes = [a; b] -> exists rest, bytes = a :: b :: rest.
Proof.
  destruct bytes as [|x [|y rest]]; cbn; intros H; try discriminate.
  injection H as -> ->. exists rest. reflexivity.
Qed.

Lemma slice_full {A : Type} (l : list A) :
  Py.slice l (Z.to_nat 0) (Z.to_nat (Py.len l)) = l.
Proof.
  unfold Py.slice, Py.len. rewrite Nat2Z.id. cbn [Z.to_nat skipn].
  rewrite Nat.sub_0_r. apply firstn_all.
Qed.

Lemma load_module_layout_facts (stem : string) (bytes : list Z) :
  8 <= Py.len bytes ->
  In (firstn 2 bytes) EntryHeuristic.entry_patterns ->
  let r := BinaryIngestor.load_file BinaryIngestor.init stem (Py.Ok bytes) in
  let ing := fst r in
  let md := BinaryIngestor.get_metadata ing in
  snd r = true
  /\ ModuleMetadata.format_type md = "load_module"
  /\ BinaryIngestor.code_start ing = 0
  /\ BinaryIngestor.code_end ing = Py.len bytes
  /\ BinaryIngestor.get_code_bytes ing = bytes
  /\ ModuleMetadata.entry_point md = Some 0
  /\ ModuleMetadata.amode md = Some 31
  /\ ModuleMetadata.rmode md = Some "ANY"
  /\ ModuleMetadata.attributes md = []
  /\ ModuleMetadata.external_symbols md = []
  /\ ModuleMetadata.csect_info md = [].
Proof.
  intros Hlen Hpat. cbv zeta. rewrite load_file_ok by exact Hlen. cbn [fst snd].
  assert (Hshape : exists a b rest,
             bytes = a :: b :: rest
             /\ In [a; b] EntryHeuristic.entry_patterns).
  { unfold EntryHeuristic.entry_patterns in *. cbn [In] in Hpat.
    destruct Hpat as [H|[H|[H|[H|[]]]]]; symmetry in H;
      destruct (firstn_2_inv _ _ _ H) as [rest ->]; do 3 eexists;
      (split; [reflexivity|]); cbn [In]; auto. }
  destruct Hshape as (a & b & rest & -> & Hab).
  assert (H20 : (Py.len (a :: b :: rest) <? 20) = false
                \/ (Py.len (a :: b :: rest) <? 20) = true).
  { destruct (Py.len (a :: b :: rest) <? 20); auto. }
  assert (Hpos : (0 <? Py.len (a :: b :: rest)) = true) by (apply Z.ltb_lt; lia).
  assert (H4 : (4 <=? Py.len (a :: b :: rest)) = true) by (apply Z.leb_le; lia).
  assert (H2 : (Py.len (a :: b :: rest) <? 2) = false) by (apply Z.ltb_ge; lia).
  pose proof (slice_full (a :: b :: rest)) as Hfull.
  unfold EntryHeuristic.entry_patterns in Hab. cbn [In] in Hab.
  unfold BinaryIngestor.get_code_bytes, BinaryIngestor.get_metadata,
    BinaryIngestor._detect_format, BinaryIngestor._looks_like_load_module,
    BinaryIngestor._parse_load_module, BinaryIngestor._has_pds_header,
    BinaryIngestor.PDS_HEADER_SIZE.
  cbn [BinaryIngestor.set_name BinaryIngestor.set_format_type BinaryIngestor.with_metadata
       BinaryIngestor.data BinaryIngestor.metadata].
  rewrite H4, H2.
  destruct Hab as [H|[H|[H|[H|[]]]]]; injection H as <- <-;
    (destruct H20 as [H20|H20]; rewrite H20);
    cbn -[Py.len Z.ltb Z.to_nat Py.slice];
    try (change (Py.slice (?x :: ?y :: rest) 0 8) with (x :: y :: firstn 6 rest));
    cbn -[Py.len Z.ltb Z.to_nat Py.slice];
    rewrite ?Hpos; cbn -[Py.len Z.ltb Z.to_nat Py.slice];
    repeat split; try reflexivity; exact Hfull.
Qed.

(** X15: a file of at least 8 bytes that starts with one of the four entry
    patterns (47F0, 90EC, 180F, 05C0) is loaded by a fresh ingestor as a
    "load_module": the
    code region is the whole file, the entry point is 0, AMODE is 31 and
    RMODE is "ANY".  The PDS-header branch is never taken for such a file
    (its first byte is no EBCDIC letter or space), so no [pds_member]
    attribute, external symbol or section is recorded. *)
Theorem load_module_layout (stem : string) (bytes : list Z) :
  8 <= Py.len bytes ->
  In (firstn 2 bytes) EntryHeuristic.entry_patterns ->
  let r := BinaryIngestor.load_file BinaryIngestor.init stem (Py.Ok bytes) in
  let ing := fst r in
  let md := BinaryIngestor.get_metadata ing in
  snd r = true
  /\ ModuleMetadata.format_type md = "load_module"
  /\ BinaryIngestor.code_start ing = 0
  /\ BinaryIngestor.code_end ing = Py.len bytes
  /\ BinaryIngestor.get_code_bytes ing = bytes
  /\ ModuleMetadata.entry_point md = Some 0
  /\ ModuleMetadata.amode md = Some 31
  /\ ModuleMetadata.rmode md = Some "ANY"
  /\ ModuleMetadata.attributes md = []
  /\ ModuleMetadata.external_symbols md = []
  /\ ModuleMetadata.csect_info md = [].
Proof. exact (load_module_layout_facts stem bytes). Qed.

Lemma load_module_layout_witness :
  let bytes := [0x47; 0xF0; 0x10; 0x00; 0x10; 0x00; 0x10; 0x00] in
  let ing := fst (BinaryIngestor.load_file BinaryIngestor.init "load_module"
                    (Py.Ok bytes)) in
  ModuleMetadata.format_type (BinaryIngestor.get_metadata ing) = "load_module"
  /\ BinaryIngestor.get_code_bytes ing = bytes.
Proof.
  cbv zeta.
  destruct (load_module_layout "load_module"
              [0x47; 0xF0; 0x10; 0x00; 0x10; 0x00; 0x10; 0x00])
    as (_ & Hf & _ & _ & Hc & _).
  - vm_compute. discriminate.
  - left. reflexivity.
  - split; [exact Hf|exact Hc].
Defined.

Lemma bytes_eqb_eq (a b : list Z) : BinaryIngestor.bytes_eqb a b = true <-> a = b.
Proof.
  unfold BinaryIngestor.bytes_eqb. revert b.
  induction a as [|x a IH]; intros [|y b]; cbn; split; intros H;
    try reflexivity; try discriminate.
  - apply andb_prop in H. destruct H as [Hl H].
    apply andb_prop in H. destruct H as [Hxy H].
    apply Z.eqb_eq in Hxy. subst y. f_equal. apply IH.
    cbn in Hl. rewrite Hl, H. reflexivity.
  - injection H as -> ->. specialize (IH b). destruct IH as [_ IH].
    specialize (IH eq_refl). apply andb_prop in IH. destruct IH as [Hl Hf].
    cbn. rewrite Hl, Hf, Z.eqb_refl. reflexivity.
Qed.

Lemma In_range_from_iff (a : Z) (n : nat) (k : Z) :
  In k (Py.range_from a n) <-> a <= k < a + Z.of_nat n.
Proof.
  split; [|apply In_range_from].
  revert a. induction n as [|n IH]; intros a; simpl; [intros []|].
  intros [->|H]; [lia|]. apply IH in H. lia.
Qed.

Lemma In_range_even (hi i : Z) :
  In i (BinaryIngestor.range_even hi) <-> 0 <= i < hi /\ Z.even i = true.
Proof.
  unfold BinaryIngestor.range_even, Py.range. rewrite in_map_iff. split.
  - intros [k [<- Hk]]. apply In_range_from_iff in Hk.
    rewrite Z.even_mul. cbn [Z.even orb]. split; [|reflexivity].
    assert (2 * ((hi + 1) / 2) <= hi + 1) by (apply Z.mul_div_le; lia). lia.
  - intros [Hr He]. rewrite Z.even_spec in He. destruct He as [k ->].
    exists k. split; [reflexivity|]. apply In_range_from_iff.
    assert (k + 1 <= (hi + 1) / 2) by (apply Z.div_le_lower_bound; lia). lia.
Qed.

Lemma range_from_sorted (a : Z) (n : nat) : StronglySorted Z.le (Py.range_from a n).
Proof.
  revert a. induction n as [|n IH]; intros a; simpl; constructor; [apply IH|].
  apply Forall_forall. intros x Hx. apply In_range_from_iff in Hx. lia.
Qed.

Lemma range_even_sorted (hi : Z) : StronglySorted Z.le (BinaryIngestor.range_even hi).
Proof.
  unfold BinaryIngestor.range_even, Py.range.
  generalize (Py.range_from 0 (Z.to_nat ((hi + 1) / 2 - 0))) (range_from_sorted 0
    (Z.to_nat ((hi + 1) / 2 - 0))).
  induction l as [|x l IH]; intros Hs; cbn [map]; constructor.
  - apply IH. apply StronglySorted_inv in Hs. apply Hs.
  - apply StronglySorted_inv in Hs. destruct Hs as [_ Hf].
    apply Forall_forall. intros y Hy. apply in_map_iff in Hy. destruct Hy as [z [<- Hz]].
    rewrite Forall_forall in Hf. specialize (Hf z Hz). lia.
Qed.

Lemma filter_head_least (P : Z -> bool) (l : list Z) :
  StronglySorted Z.le l ->
  match filter P l with
  | x :: _ => In x l /\ P x = true /\ forall y, In y l -> P y = true -> x <= y
  | [] => forall y, In y l -> P y = false
  end.
Proof.
  induction l as [|a l IH]; intros Hs; simpl; [intros y []|].
  apply StronglySorted_inv in Hs. destruct Hs as [Hs Hf]. specialize (IH Hs).
  rewrite Forall_forall in Hf.
  destruct (P a) eqn:Ea.
  - split; [left; reflexivity|]. split; [exact Ea|].
    intros y [<-|Hy] _; [lia|apply Hf; exact Hy].
  - destruct (filter P l) as [|x r].
    + intros y [<-|Hy]; [exact Ea|apply IH; exact Hy].
    + destruct IH as (Hin & Hp & Hmin). split; [right; exact Hin|]. split; [exact Hp|].
      intros y [<-|Hy] Hpy; [congruence|apply Hmin; assumption].
Qed.

Lemma slice_two (data : list Z) (i : nat) :
  (i + 2 <= List.length data)%nat ->
  Py.slice data i (i + 2) = [Py.byte_at data i; Py.byte_at data (i + 1)].
Proof.
  intros H. pose proof (slice_length data i 2 H) as Hl.
  pose proof (slice_nth data i 2 0 ltac:(lia)) as H0.
  pose proof (slice_nth data i 2 1 ltac:(lia)) as H1.
  rewrite Nat.add_0_r in H0.
  destruct (Py.slice data i (i + 2)) as [|x [|y [|z r]]]; try discriminate.
  cbn in H0, H1. rewrite H0, H1. reflexivity.
Qed.

Lemma candidate_test (data : list Z) (i : Z) :
  0 <= i -> i + 2 <= Py.len data ->
  (let opcode := Py.slice data (Z.to_nat i) (Z.to_nat (i + 2)) in
   if BinaryIngestor.bytes_eqb opcode [0x90; 0xEC] then true
   else Py.in_ints (Py.byte_at opcode 0) [0x05; 0x0D]) = true
  <-> EntryHeuristic.is_candidate data i.
Proof.
  intros H0 H2. cbv zeta. unfold EntryHeuristic.is_candidate.
  replace (Z.to_nat (i + 2)) with (Z.to_nat i + 2)%nat by lia.
  rewrite slice_two by (unfold Py.len in H2; lia).
  set (a := Py.byte_at data (Z.to_nat i)). set (b := Py.byte_at data (Z.to_nat i + 1)).
  destruct (BinaryIngestor.bytes_eqb [a; b] [144; 236]) eqn:E.
  - apply bytes_eqb_eq in E. injection E as Ha Hb. tauto.
  - unfold Py.in_ints. cbn [existsb Py.byte_at nth]. rewrite orb_false_r.
    rewrite orb_true_iff, !Z.eqb_eq. split.
    + intros [H|H]; auto.
    + intros [[Ha Hb]|[H|H]]; auto.
      exfalso. rewrite Ha, Hb in E. cbn in E. discriminate.
Qed.

Lemma looks_like_load_module_In (self : BinaryIngestor.t) :
  BinaryIngestor._looks_like_load_module self = true ->
  In (firstn 2 (BinaryIngestor.data self)) EntryHeuristic.entry_patterns.
Proof.
  unfold BinaryIngestor._looks_like_load_module.
  destruct (Py.len (BinaryIngestor.data self) <? 2); [discriminate|].
  intros H. apply existsb_exists in H. destruct H as [p [Hp Hsw]].
  unfold BinaryIngestor.startswith in Hsw. apply bytes_eqb_eq in Hsw.
  unfold EntryHeuristic.entry_patterns. cbn [In] in Hp |- *.
  destruct Hp as [<-|[<-|[<-|[<-|[]]]]]; cbn [List.length] in Hsw; rewrite Hsw; auto.
Qed.

Lemma unknown_format_layout_facts (stem : string) (bytes : list Z) :
  8 <= Py.len bytes ->
  firstn 2 bytes <> [0x00; 0x03] ->
  ~ In (firstn 2 bytes) EntryHeuristic.entry_patterns ->
  let r := BinaryIngestor.load_file BinaryIngestor.init stem (Py.Ok bytes) in
  let ing := fst r in
  let md := BinaryIngestor.get_metadata ing in
  snd r = true
  /\ ModuleMetadata.format_type md = "unknown"
  /\ BinaryIngestor.code_start ing = 0
  /\ BinaryIngestor.code_end ing = Py.len bytes
  /\ BinaryIngestor.get_code_bytes ing = bytes
  /\ ModuleMetadata.amode md = None
  /\ ModuleMetadata.rmode md = None
  /\ exists e,
       ModuleMetadata.entry_point md = Some e
       /\ 0 <= e < 256 /\ Z.even e = true /\ e + 2 < Py.len bytes
       /\ (e = 0 \/ EntryHeuristic.is_candidate bytes e)
       /\ (forall i, 0 <= i < Z.min 256 (Py.len bytes - 2) -> Z.even i = true ->
                     EntryHeuristic.is_candidate bytes i ->
                     e <= i /\ EntryHeuristic.is_candidate bytes e).
Proof.
  intros Hlen Hpo Hlm. cbv zeta. rewrite load_file_ok by exact Hlen. cbn [fst snd].
  change (BinaryIngestor.set_name (BinaryIngestor.mk bytes ModuleMetadata.default 0 0) stem)
    with (BinaryIngestor.mk bytes
            (ModuleMetadata.mk (Some stem) "unknown" None [] [] None None []) 0 0).
  unfold BinaryIngestor.get_code_bytes, BinaryIngestor.get_metadata,
    BinaryIngestor._detect_format.
  cbn [BinaryIngestor.set_name BinaryIngestor.with_metadata BinaryIngestor.data
       BinaryIngestor.metadata].
  assert (Hs2 : Py.slice bytes 0 2 = firstn 2 bytes) by reflexivity.
  rewrite Hs2.
  destruct (BinaryIngestor.bytes_eqb (firstn 2 bytes) [0; 3]) eqn:Epo.
  { apply bytes_eqb_eq in Epo. contradiction. }
  rewrite andb_false_r.
  destruct (BinaryIngestor._looks_like_load_module _) eqn:Ell.
  { exfalso. apply looks_like_load_module_In in Ell. exact (Hlm Ell). }
  unfold BinaryIngestor._apply_heuristics.
  cbn [BinaryIngestor.set_format_type BinaryIngestor.with_metadata BinaryIngestor.with_code
       BinaryIngestor.data BinaryIngestor.metadata].
  match goal with
  | |- context [filter ?P (BinaryIngestor.range_even ?hi)] =>
      pose proof (filter_head_least P _ (range_even_sorted hi)) as Hhead;
      assert (Hcand : forall i, In i (BinaryIngestor.range_even hi) ->
                                (P i = true <-> EntryHeuristic.is_candidate bytes i));
      [|destruct (filter P (BinaryIngestor.range_even hi)) as [|first cands]]
  end.
  - intros i Hi. apply In_range_even in Hi. apply candidate_test; lia.
  - cbn. repeat split; try reflexivity; try apply slice_full.
    exists 0. split; [reflexivity|]. split; [lia|]. split; [reflexivity|].
    split; [lia|]. split; [left; reflexivity|].
    intros i Hi Hev Hci. exfalso.
    assert (Hin : In i (BinaryIngestor.range_even (Z.min 256 (Py.len bytes - 2)))).
    { apply In_range_even. split; assumption. }
    specialize (Hhead i Hin). apply Hcand in Hci; [|exact Hin]. congruence.
  - destruct Hhead as (Hin & Hp & Hmin).
    pose proof Hin as Hr. apply In_range_even in Hr. destruct Hr as [Hr He].
    cbn. repeat split; try reflexivity; try apply slice_full.
    exists first. split; [reflexivity|].
    assert (Hc : EntryHeuristic.is_candidate bytes first) by (apply Hcand; assumption).
    split; [lia|]. split; [exact He|]. split; [lia|]. split; [right; exact Hc|].
    intros i Hi Hev Hci.
    assert (Hini : In i (BinaryIngestor.range_even (Z.min 256 (Py.len bytes - 2)))).
    { apply In_range_even. split; assumption. }
    split; [|exact Hc]. apply Hmin; [exact Hini|]. apply Hcand; assumption.
Qed.

(** X16: a file of at least 8 bytes that starts neither with 0003 nor with
    an entry pattern is loaded by a fresh ingestor as "unknown": the code region is the whole
    file, AMODE and RMODE stay unset, and the entry point is the first
    even offset below [min(256, len - 2)] whose two bytes are 90 EC or
    whose first byte is 05 or 0D, or 0 when there is none (the window at
    offset [len - 2] is never examined). *)
Theorem unknown_format_layout (stem : string) (bytes : list Z) :
  8 <= Py.len bytes ->
  firstn 2 bytes <> [0x00; 0x03] ->
  ~ In (firstn 2 bytes) EntryHeuristic.entry_patterns ->
  let r := BinaryIngestor.load_file BinaryIngestor.init stem (Py.Ok bytes) in
  let ing := fst r in
  let md := BinaryIngestor.get_metadata ing in
  snd r = true
  /\ ModuleMetadata.format_type md = "unknown"
  /\ BinaryIngestor.code_start ing = 0
  /\ BinaryIngestor.code_end ing = Py.len bytes
  /\ BinaryIngestor.get_code_bytes ing = bytes
  /\ ModuleMetadata.amode md = None
  /\ ModuleMetadata.rmode md = None
  /\ exists e,
       ModuleMetadata.entry_point md = Some e
       /\ 0 <= e < 256 /\ Z.even e = true /\ e + 2 < Py.len bytes
       /\ (e = 0 \/ EntryHeuristic.is_candidate bytes e)
       /\ (forall i, 0 <= i < Z.min 256 (Py.len bytes - 2) -> Z.even i = true ->
                     EntryHeuristic.is_candidate bytes i ->
                     e <= i /\ EntryHeuristic.is_candidate bytes e).
Proof. exact (unknown_format_layout_facts stem bytes). Qed.

Lemma unknown_format_layout_witness :
  let ing := fst (BinaryIngestor.load_file BinaryIngestor.init "test_program"
                    (Py.Ok scenario1)) in
  ModuleMetadata.format_type (BinaryIngestor.get_metadata ing) = "unknown"
  /\ BinaryIngestor.get_code_bytes ing = scenario1.
Proof.
  cbv zeta.
  destruct (unknown_format_layout "test_program" scenario1)
    as (_ & Hf & _ & _ & Hc & _).
  - vm_compute. discriminate.
  - vm_compute. discriminate.
  - vm_compute. intuition discriminate.
  - split; [exact Hf|exact Hc].
Defined.

Lemma extract_externals_count (data : list Z) :
  forall (count : nat) (offset : Z) (acc : list string),
    exists n : nat,
      (n <= count)%nat
      /\ fst (BinaryIngestor.extract_externals data count offset acc)
         = offset + 16 * Z.of_nat n
      /\ List.length (snd (BinaryIngestor.extract_externals data count offset acc))
         = (List.length acc + n)%nat
      /\ (offset <= Py.len data -> offset + 16 * Z.of_nat n <= Py.len data)
      /\ ((n < count)%nat -> Py.len data < offset + 16 * Z.of_nat n + 16).
Proof.
  induction count as [|count IH]; intros offset acc; cbn [BinaryIngestor.extract_externals].
  - exists 0%nat. cbn [fst snd]. repeat split; try lia.
  - destruct (Z.gtb_spec (offset + 16) (Py.len data)) as [Hgt|Hle].
    + exists 0%nat. cbn [fst snd]. repeat split; try lia.
    + destruct (IH (offset + 16)
                  (acc ++ [BinaryIngestor.strip
                             (BinaryIngestor._ebcdic_to_ascii
                                (Py.slice data (Z.to_nat offset) (Z.to_nat (offset + 8))))]))
        as (n & Hn & Hoff & Hl & Hfit & Hstop).
      exists (S n). rewrite Hoff, Hl, length_app. cbn [List.length].
      repeat split; try lia.
Qed.

Lemma extract_csects_count (data : list Z) :
  forall (count : nat) (offset : Z) (acc : list CsectInfo.t),
    exists n : nat,
      (n <= count)%nat
      /\ List.length (snd (BinaryIngestor.extract_csects data count offset acc))
         = (List.length acc + n)%nat
      /\ (offset <= Py.len data -> offset + 20 * Z.of_nat n <= Py.len data)
      /\ ((n < count)%nat -> Py.len data < offset + 20 * Z.of_nat n + 20)
      /\ (Forall (fun c => CsectInfo.type c = "text") acc ->
          Forall (fun c => CsectInfo.type c = "text")
                 (snd (BinaryIngestor.extract_csects data count offset acc))).
Proof.
  induction count as [|count IH]; intros offset acc; cbn [BinaryIngestor.extract_csects].
  - exists 0%nat. cbn [fst snd]. repeat split; try lia. auto.
  - destruct (Z.gtb_spec (offset + 20) (Py.len data)) as [Hgt|Hle].
    + exists 0%nat. cbn [fst snd]. repeat split; try lia. auto.
    + match goal with
      | |- context [BinaryIngestor.extract_csects data count (offset + 20) ?acc'] =>
          destruct (IH (offset + 20) acc') as (n & Hn & Hl & Hfit & Hstop & Hty)
      end.
      exists (S n). rewrite Hl, length_app. cbn [List.length].
      repeat split; try lia.
      intros Hacc. apply Hty. apply Forall_app. split; [exact Hacc|].
      constructor; [reflexivity|constructor].
Qed.

Lemma program_object_layout_facts (stem : string) (bytes : list Z) :
  8 <= Py.len bytes ->
  firstn 2 bytes = [0x00; 0x03] ->
  let r := BinaryIngestor.load_file BinaryIngestor.init stem (Py.Ok bytes) in
  let ing := fst r in
  let md := BinaryIngestor.get_metadata ing in
  snd r = true
  /\ ModuleMetadata.format_type md = "program_object"
  /\ ModuleMetadata.amode md = None
  /\ ModuleMetadata.rmode md = None
  /\ (Py.len bytes < 32 ->
      BinaryIngestor.code_start ing = 0
      /\ BinaryIngestor.code_end ing = 0
      /\ BinaryIngestor.get_code_bytes ing = []
      /\ ModuleMetadata.entry_point md = None
      /\ ModuleMetadata.external_symbols md = []
      /\ ModuleMetadata.csect_info md = [])
  /\ (32 <= Py.len bytes ->
      let text_size := Py.unpack_be (Py.slice bytes 8 12) in
      let external_count := Py.unpack_be (Py.slice bytes 16 18) in
      let section_count := Py.unpack_be (Py.slice bytes 18 20) in
      let n := Py.len (ModuleMetadata.external_symbols md) in
      let m := Py.len (ModuleMetadata.csect_info md) in
      BinaryIngestor.code_start ing = 32
      /\ BinaryIngestor.code_end ing = Z.min (32 + text_size) (Py.len bytes)
      /\ ModuleMetadata.entry_point md = Some (Py.unpack_be (Py.slice bytes 12 16))
      /\ n <= Z.max 0 external_count
      /\ 32 + 16 * n <= Py.len bytes
      /\ (n < external_count -> Py.len bytes < 32 + 16 * n + 16)
      /\ m <= Z.max 0 section_count
      /\ 32 + 16 * n + 20 * m <= Py.len bytes
      /\ (m < section_count -> Py.len bytes < 32 + 16 * n + 20 * m + 20)
      /\ Forall (fun c => CsectInfo.type c = "text") (ModuleMetadata.csect_info md)).
Proof.
  intros Hlen Hpo. cbv zeta. rewrite load_file_ok by exact Hlen. cbn [fst snd].
  change (BinaryIngestor.set_name (BinaryIngestor.mk bytes ModuleMetadata.default 0 0) stem)
    with (BinaryIngestor.mk bytes
            (ModuleMetadata.mk (Some stem) "unknown" None [] [] None None []) 0 0).
  unfold BinaryIngestor.get_code_bytes, BinaryIngestor.get_metadata,
    BinaryIngestor._detect_format.
  cbn [BinaryIngestor.data].
  assert (Hs2 : Py.slice bytes 0 2 = firstn 2 bytes) by reflexivity.
  rewrite Hs2, Hpo.
  assert (H4 : (4 <=? Py.len bytes) = true) by (apply Z.leb_le; lia).
  rewrite H4. cbn [BinaryIngestor.bytes_eqb List.length Nat.eqb combine forallb fst snd
                   Z.eqb Pos.eqb andb].
  match goal with
  | |- context [BinaryIngestor.set_format_type ?s ?f] =>
      change (BinaryIngestor.set_format_type s f)
        with (BinaryIngestor.mk bytes
                (ModuleMetadata.mk (Some stem) "program_object" None [] [] None None []) 0 0)
  end.
  unfold BinaryIngestor._parse_program_object.
  cbn [BinaryIngestor.data].
  destruct (Z.ltb_spec (Py.len bytes) 32) as [Hlt|Hge].
  - cbn. repeat split; try reflexivity; intros; lia.
  - unfold BinaryIngestor._extract_sections.
    cbn [BinaryIngestor.set_entry_point BinaryIngestor.with_metadata BinaryIngestor.with_code
         BinaryIngestor.data BinaryIngestor.metadata BinaryIngestor.code_start
         BinaryIngestor.code_end ProgramObjectHeader.text_size
         ProgramObjectHeader.entry_offset ProgramObjectHeader.external_count
         ProgramObjectHeader.section_count ModuleMetadata.external_symbols
         ModuleMetadata.csect_info ModuleMetadata.name ModuleMetadata.format_type
         ModuleMetadata.entry_point ModuleMetadata.amode ModuleMetadata.rmode
         ModuleMetadata.attributes].
    set (ec := Py.unpack_be (Py.slice bytes 16 18)).
    set (sc := Py.unpack_be (Py.slice bytes 18 20)).
    destruct (extract_externals_count bytes (Z.to_nat ec) 32 [])
      as (n & Hn & Hoff & Hnl & Hnfit & Hnstop).
    destruct (BinaryIngestor.extract_externals bytes (Z.to_nat ec) 32 []) as [off exts].
    cbn [fst snd List.length Nat.add] in Hoff, Hnl.
    destruct (extract_csects_count bytes (Z.to_nat sc) off [])
      as (m & Hm & Hml & Hmfit & Hmstop & Hty).
    destruct (BinaryIngestor.extract_csects bytes (Z.to_nat sc) off []) as [off' cs].
    cbn [fst snd List.length Nat.add] in Hml, Hty.
    cbn [BinaryIngestor.with_metadata BinaryIngestor.metadata BinaryIngestor.code_start
         BinaryIngestor.code_end BinaryIngestor.data ModuleMetadata.external_symbols
         ModuleMetadata.csect_info ModuleMetadata.format_type ModuleMetadata.entry_point
         ModuleMetadata.amode ModuleMetadata.rmode].
    unfold Py.len in *.
    repeat split; try reflexivity; try lia.
    apply Hty. constructor.
Qed.

(** X17: a file of at least 8 bytes that starts with 0003 is loaded by a
    fresh ingestor as a "program_object" with AMODE and RMODE unset.  Shorter than 32 bytes,
    it loads with an empty code region, no entry point, no externals and
    no sections.  Otherwise the code region starts at 32 and ends at
    [min(32 + text_size, len)], the entry point is the header's entry
    offset, the externals read are as many 16-byte entries as the header
    counts and the file holds, the sections as many 20-byte entries after
    them, and every section has type "text". *)
Theorem program_object_layout (stem : string) (bytes : list Z) :
  8 <= Py.len bytes ->
  firstn 2 bytes = [0x00; 0x03] ->
  let r := BinaryIngestor.load_file BinaryIngestor.init stem (Py.Ok bytes) in
  let ing := fst r in
  let md := BinaryIngestor.get_metadata ing in
  snd r = true
  /\ ModuleMetadata.format_type md = "program_object"
  /\ ModuleMetadata.amode md = None
  /\ ModuleMetadata.rmode md = None
  /\ (Py.len bytes < 32 ->
      BinaryIngestor.code_start ing = 0
      /\ BinaryIngestor.code_end ing = 0
      /\ BinaryIngestor.get_code_bytes ing = []
      /\ ModuleMetadata.entry_point md = None
      /\ ModuleMetadata.external_symbols md = []
      /\ ModuleMetadata.csect_info md = [])
  /\ (32 <= Py.len bytes ->
      let text_size := Py.unpack_be (Py.slice bytes 8 12) in
      let external_count := Py.unpack_be (Py.slice bytes 16 18) in
      let section_count := Py.unpack_be (Py.slice bytes 18 20) in
      let n := Py.len (ModuleMetadata.external_symbols md) in
      let m := Py.len (ModuleMetadata.csect_info md) in
      BinaryIngestor.code_start ing = 32
      /\ BinaryIngestor.code_end ing = Z.min (32 + text_size) (Py.len bytes)
      /\ ModuleMetadata.entry_point md = Some (Py.unpack_be (Py.slice bytes 12 16))
      /\ n <= Z.max 0 external_count
      /\ 32 + 16 * n <= Py.len bytes
      /\ (n < external_count -> Py.len bytes < 32 + 16 * n + 16)
      /\ m <= Z.max 0 section_count
      /\ 32 + 16 * n + 20 * m <= Py.len bytes
      /\ (m < section_count -> Py.len bytes < 32 + 16 * n + 20 * m + 20)
      /\ Forall (fun c => CsectInfo.type c = "text") (ModuleMetadata.csect_info md)).
Proof. exact (program_object_layout_facts stem bytes). Qed.

Lemma program_object_layout_witness :
  let bytes := [0x00; 0x03; 0x00; 0x01; 0x00; 0x00; 0x00; 0x00] in
  let ing := fst (BinaryIngestor.load_file BinaryIngestor.init "object" (Py.Ok bytes)) in
  ModuleMetadata.format_type (BinaryIngestor.get_metadata ing) = "program_object"
  /\ BinaryIngestor.get_code_bytes ing = [].
Proof.
  cbv zeta.
  destruct (program_object_layout "object"
              [0x00; 0x03; 0x00; 0x01; 0x00; 0x00; 0x00; 0x00])
    as (_ & Hf & _ & _ & Hsmall & _).
  - vm_compute. discriminate.
  - reflexivity.
  - split; [exact Hf|]. destruct Hsmall as (_ & _ & Hc & _); [reflexivity|exact Hc].
Defined.

(** X18: after a successful load by a fresh ingestor, [get_statistics]
    reports the file size
    as [total_size] and the length of [get_code_bytes()] as [code_size],
    with [0 <= code_size <= total_size], and the metadata's format tag, one
    of the three tags, as [format]. *)
Theorem ingestion_statistics_consistent (stem : string) (bytes : list Z) :
  Py.is_bytes bytes = true ->
  8 <= Py.len bytes ->
  let ing := fst (BinaryIngestor.load_file BinaryIngestor.init stem (Py.Ok bytes)) in
  let st := BinaryIngestor.get_statistics ing in
  BinaryIngestor.total_size st = Py.len bytes
  /\ BinaryIngestor.code_size st = Py.len (BinaryIngestor.get_code_bytes ing)
  /\ 0 <= BinaryIngestor.code_size st <= BinaryIngestor.total_size st
  /\ BinaryIngestor.format st
     = ModuleMetadata.format_type (BinaryIngestor.get_metadata ing)
  /\ In (BinaryIngestor.format st) ["program_object"; "load_module"; "unknown"].
Proof.
  intros Hb Hlen. cbv zeta. rewrite load_file_ok by exact Hlen. cbn [fst].
  set (s0 := BinaryIngestor.set_name _ stem).
  destruct (detect_format_fields s0) as (Hd & _ & Hf).
  destruct (detect_format_code_range s0 Hb eq_refl eq_refl) as (Hr1 & Hr2).
  cbv zeta in *.
  unfold BinaryIngestor.get_statistics, BinaryIngestor.get_code_bytes,
    BinaryIngestor.get_metadata.
  cbn [BinaryIngestor.total_size BinaryIngestor.code_size BinaryIngestor.format].
  rewrite Hd. change (BinaryIngestor.data s0) with bytes in *.
  set (cs := BinaryIngestor.code_start (BinaryIngestor._detect_format s0)) in *.
  set (ce := BinaryIngestor.code_end (BinaryIngestor._detect_format s0)) in *.
  assert (Hsl : Py.len (Py.slice bytes (Z.to_nat cs) (Z.to_nat ce)) = ce - cs).
  { unfold Py.len in *.
    replace (Z.to_nat ce) with (Z.to_nat cs + Z.to_nat (ce - cs))%nat by lia.
    rewrite slice_length by lia. lia. }
  rewrite Hsl. repeat split; try lia; auto.
Qed.

Lemma ingestion_statistics_consistent_witness :
  let ing := fst (BinaryIngestor.load_file BinaryIngestor.init "test_program"
                    (Py.Ok scenario1)) in
  BinaryIngestor.total_size (BinaryIngestor.get_statistics ing) = 28
  /\ BinaryIngestor.code_size (BinaryIngestor.get_statistics ing)
     = Py.len (BinaryIngestor.get_code_bytes ing).
Proof.
  cbv zeta.
  destruct (ingestion_statistics_consistent "test_program" scenario1)
    as (Ht & Hc & _).
  - reflexivity.
  - vm_compute. discriminate.
  - split; [exact Ht|exact Hc].
Defined.

(** ** The contract of [load_file] *)

Lemma load_file_call_returns (self : BinaryIngestor.t) (stem : string)
    (contents : Py.Result (list Z)) :
  BinaryIngestor.load_file_call self stem contents
  = Py.Ok (BinaryIngestor.load_file self stem contents).
Proof.
  unfold BinaryIngestor.load_file_call, BinaryIngestor.load_file_try,
    BinaryIngestor.load_file.
  destruct contents as [bytes|e]; cbn [Py.bind]; [|reflexivity].
  cbn [BinaryIngestor.data]. destruct (Py.len bytes <? 8); reflexivity.
Qed.

(** C8 (as the claim states it): loading the two-byte source 07 FE does
    not fail with an error.  The call returns normally, with the value
    [False] and an ingestor that holds the two bytes, the default
    metadata and an empty code region. *)
Lemma load_file_short_is_no_error :
  BinaryIngestor.load_file_call BinaryIngestor.init "short" (Py.Ok [0x07; 0xFE])
  = Py.Ok (BinaryIngestor.mk [0x07; 0xFE] ModuleMetadata.default 0 0, false)
  /\ ~ Py.raises
         (BinaryIngestor.load_file_call BinaryIngestor.init "short" (Py.Ok [0x07; 0xFE])).
Proof.
  split; [reflexivity|]. intros [e H]. discriminate H.
Qed.

(** C8 (amended): [load_file] on a fresh ingestor never raises; it reports
    failure by the return value [False], for an unreadable file and
    for a source shorter than 8 bytes, which leaves the default metadata
    and an empty code region; it returns [True] exactly for a source of at
    least 8 bytes.  A successful load keeps the file contents, names the
    metadata after the file, tags it with the format that the first two
    bytes select, and yields as code region the slice
    [data[code_start:code_end]] that the format prescribes: the whole file
    for "load_module" and "unknown"; for a "program_object" the bytes from
    32 to [min(32 + text_size, len)], or nothing when the file is shorter
    than the 32-byte header. *)
Theorem load_file_contract (stem : string) (bytes : list Z) :
  let r := BinaryIngestor.load_file BinaryIngestor.init stem (Py.Ok bytes) in
  let ing := fst r in
  let md := BinaryIngestor.get_metadata ing in
  BinaryIngestor.load_file_call BinaryIngestor.init stem (Py.Ok bytes) = Py.Ok r
  /\ (forall e, BinaryIngestor.load_file_call BinaryIngestor.init stem (Py.Raise e)
                = Py.Ok (BinaryIngestor.init, false))
  /\ (snd r = true <-> 8 <= Py.len bytes)
  /\ (Py.len bytes < 8 ->
      r = (BinaryIngestor.mk bytes ModuleMetadata.default 0 0, false)
      /\ BinaryIngestor.get_code_bytes ing = [])
  /\ (8 <= Py.len bytes ->
      BinaryIngestor.data ing = bytes
      /\ ModuleMetadata.name md = Some stem
      /\ BinaryIngestor.get_code_bytes ing
         = Py.slice bytes (Z.to_nat (BinaryIngestor.code_start ing))
                    (Z.to_nat (BinaryIngestor.code_end ing))
      /\ (firstn 2 bytes = [0x00; 0x03] ->
          ModuleMetadata.format_type md = "program_object"
          /\ (Py.len bytes < 32 ->
              BinaryIngestor.code_start ing = 0
              /\ BinaryIngestor.code_end ing = 0
              /\ BinaryIngestor.get_code_bytes ing = [])
          /\ (32 <= Py.len bytes ->
              BinaryIngestor.code_start ing = 32
              /\ BinaryIngestor.code_end ing
                 = Z.min (32 + Py.unpack_be (Py.slice bytes 8 12)) (Py.len bytes)))
      /\ (In (firstn 2 bytes) EntryHeuristic.entry_patterns ->
          ModuleMetadata.format_type md = "load_module"
          /\ BinaryIngestor.code_start ing = 0
          /\ BinaryIngestor.code_end ing = Py.len bytes
          /\ BinaryIngestor.get_code_bytes ing = bytes)
      /\ (firstn 2 bytes <> [0x00; 0x03] ->
          ~ In (firstn 2 bytes) EntryHeuristic.entry_patterns ->
          ModuleMetadata.format_type md = "unknown"
          /\ BinaryIngestor.code_start ing = 0
          /\ BinaryIngestor.code_end ing = Py.len bytes
          /\ BinaryIngestor.get_code_bytes ing = bytes)).
Proof.
  cbv zeta. split; [apply load_file_call_returns|]. split; [intros e; reflexivity|].
  split; [|split].
  - unfold BinaryIngestor.load_file. cbn [BinaryIngestor.data].
    destruct (Z.ltb_spec (Py.len bytes) 8) as [Hlt|Hge]; cbn [snd]; split; intros H;
      try reflexivity; try discriminate; lia.
  - intros Hlt. unfold BinaryIngestor.load_file. cbn [BinaryIngestor.data].
    apply Z.ltb_lt in Hlt. rewrite Hlt. split; reflexivity.
  - intros Hlen.
    pose proof (load_file_ok stem bytes Hlen) as Hok.
    set (s0 := BinaryIngestor.set_name
                 (BinaryIngestor.mk bytes ModuleMetadata.default 0 0) stem) in Hok.
    destruct (detect_format_fields s0) as (Hd & Hn & _). cbv zeta in Hd, Hn.
    change (BinaryIngestor.data s0) with bytes in Hd.
    change (ModuleMetadata.name (BinaryIngestor.metadata s0)) with (Some stem) in Hn.
    split; [rewrite Hok; exact Hd|]. split; [rewrite Hok; exact Hn|].
    split; [unfold BinaryIngestor.get_code_bytes; rewrite Hok; cbn [fst]; rewrite Hd;
            reflexivity|].
    split; [|split].
    + intros Hpo.
      destruct (program_object_layout_facts stem bytes Hlen Hpo)
        as (_ & Hf & _ & _ & Hsmall & Hbig). cbv zeta in Hbig.
      split; [exact Hf|]. split.
      * intros H32. destruct (Hsmall H32) as (H1 & H2 & H3 & _). auto.
      * intros H32. destruct (Hbig H32) as (H1 & H2 & _). auto.
    + intros Hlm.
      destruct (load_module_layout_facts stem bytes Hlen Hlm)
        as (_ & Hf & H1 & H2 & H3 & _). auto.
    + intros Hpo Hlm.
      destruct (unknown_format_layout_facts stem bytes Hlen Hpo Hlm)
        as (_ & Hf & H1 & H2 & H3 & _). auto.
Qed.

Lemma load_file_contract_witness :
  BinaryIngestor.load_file_call BinaryIngestor.init "short" (Py.Ok [0x07; 0xFE])
  = Py.Ok (BinaryIngestor.mk [0x07; 0xFE] ModuleMetadata.default 0 0, false)
  /\ BinaryIngestor.get_code_bytes
       (fst (BinaryIngestor.load_file BinaryIngestor.init "test_program" (Py.Ok scenario1)))
     = scenario1.
Proof.
  split.
  - exact (proj1 (load_file_contract "short" [0x07; 0xFE])).
  - destruct (load_file_contract "test_program" scenario1) as (_ & _ & _ & _ & H).
    destruct H as (_ & _ & _ & _ & _ & Hu); [vm_compute; discriminate|].
    destruct Hu as (_ & _ & _ & Hc);
      [vm_compute; discriminate|vm_compute; intuition discriminate|exact Hc].
Defined.

Lemma ebcdic_char_printable (byte : Z) :
  EbcdicAlphabet.printable
    (if byte =? 0x40 then " "%char
     else if (0xC1 <=? byte) && (byte <=? 0xC9)
          then BinaryIngestor.chr_from "A" (byte - 0xC1)
     else if (0xD1 <=? byte) && (byte <=? 0xD9)
          then BinaryIngestor.chr_from "J" (byte - 0xD1)
     else if (0xE2 <=? byte) && (byte <=? 0xE9)
          then BinaryIngestor.chr_from "S" (byte - 0xE2)
     else if (0xF0 <=? byte) && (byte <=? 0xF9)
          then BinaryIngestor.chr_from "0" (byte - 0xF0)
     else "."%char) = true.
Proof.
  destruct (byte =? 64); [reflexivity|].
  assert (Hr : forall lo hi, (lo <=? byte) && (byte <=? hi) = true ->
                             In byte (Py.range_from lo (Z.to_nat (hi - lo + 1)))).
  { intros lo hi H. apply andb_prop in H. destruct H as [H1 H2].
    apply Z.leb_le in H1. apply Z.leb_le in H2. apply In_range_from. lia. }
  destruct ((193 <=? byte) && (byte <=? 201)) eqn:E1.
  { apply Hr in E1. cbn in E1.
    repeat (destruct E1 as [<-|E1]; [reflexivity|]). destruct E1. }
  destruct ((209 <=? byte) && (byte <=? 217)) eqn:E2.
  { apply Hr in E2. cbn in E2.
    repeat (destruct E2 as [<-|E2]; [reflexivity|]). destruct E2. }
  destruct ((226 <=? byte) && (byte <=? 233)) eqn:E3.
  { apply Hr in E3. cbn in E3.
    repeat (destruct E3 as [<-|E3]; [reflexivity|]). destruct E3. }
  destruct ((240 <=? byte) && (byte <=? 249)) eqn:E4.
  { apply Hr in E4. cbn in E4.
    repeat (destruct E4 as [<-|E4]; [reflexivity|]). destruct E4. }
  reflexivity.
Qed.

(** X19: [_ebcdic_to_ascii] returns one character per input byte, each a
    space, a full stop, an upper-case letter or a digit, and the character
    at a position is a space exactly when the byte there is 0x40. *)
Theorem ebcdic_to_ascii_shape (ebcdic_bytes : list Z) :
  String.length (BinaryIngestor._ebcdic_to_ascii ebcdic_bytes) = List.length ebcdic_bytes
  /\ Forall (fun c => EbcdicAlphabet.printable c = true)
            (list_ascii_of_string (BinaryIngestor._ebcdic_to_ascii ebcdic_bytes))
  /\ (forall i, (i < List.length ebcdic_bytes)%nat ->
        (String.get i (BinaryIngestor._ebcdic_to_ascii ebcdic_bytes) = Some " "%char
         <-> nth i ebcdic_bytes 0 = 0x40)).
Proof.
  induction ebcdic_bytes as [|byte rest IH]; cbn [BinaryIngestor._ebcdic_to_ascii].
  - cbn. repeat split; try constructor; intros; lia.
  - destruct IH as (Hl & Hf & Hsp). cbn [String.length List.length list_ascii_of_string].
    split; [rewrite Hl; reflexivity|]. split.
    + constructor; [apply ebcdic_char_printable|exact Hf].
    + intros [|i] Hi.
      * cbn [String.get nth].
        destruct (Z.eqb_spec byte 64) as [->|Hne]; [tauto|].
        split; [|intros; contradiction].
        intros H. exfalso. injection H as H.
        assert (Hr : forall lo hi, (lo <=? byte) && (byte <=? hi) = true ->
                             In byte (Py.range_from lo (Z.to_nat (hi - lo + 1)))).
        { intros lo hi H0. apply andb_prop in H0. destruct H0 as [H1 H2].
          apply Z.leb_le in H1. apply Z.leb_le in H2. apply In_range_from. lia. }
        destruct ((193 <=? byte) && (byte <=? 201)) eqn:E1.
        { apply Hr in E1. cbn in E1.
          repeat (destruct E1 as [<-|E1]; [discriminate H|]). destruct E1. }
        destruct ((209 <=? byte) && (byte <=? 217)) eqn:E2.
        { apply Hr in E2. cbn in E2.
          repeat (destruct E2 as [<-|E2]; [discriminate H|]). destruct E2. }
        destruct ((226 <=? byte) && (byte <=? 233)) eqn:E3.
        { apply Hr in E3. cbn in E3.
          repeat (destruct E3 as [<-|E3]; [discriminate H|]). destruct E3. }
        destruct ((240 <=? byte) && (byte <=? 249)) eqn:E4.
        { apply Hr in E4. cbn in E4.
          repeat (destruct E4 as [<-|E4]; [discriminate H|]). destruct E4. }
        discriminate H.
      * cbn [String.get nth]. apply Hsp. cbn in Hi. lia.
Qed.

(** ** Classification *)

Lemma existsb_view (p : bool * Z * Z -> bool) (l1 l2 : list Region.t) :
  map ConstantPool.view l1 = map ConstantPool.view l2 ->
  existsb (fun r => p (ConstantPool.view r)) l1
  = existsb (fun r => p (ConstantPool.view r)) l2.
Proof.
  revert l2. induction l1 as [|a l1 IH]; intros [|b l2] H; try discriminate; [reflexivity|].
  cbn [map] in H.
  assert (Hab : ConstantPool.view a = ConstantPool.view b) by congruence.
  assert (Hl : map ConstantPool.view l1 = map ConstantPool.view l2) by congruence.
  cbn [existsb]. rewrite Hab, (IH l2 Hl). reflexivity.
Qed.

Lemma is_pool_view (l1 l2 : list Region.t) (region : Region.t) :
  map ConstantPool.view l1 = map ConstantPool.view l2 ->
  ConstantPool.is_pool l1 region = ConstantPool.is_pool l2 region.
Proof.
  intros H. unfold ConstantPool.is_pool, ConstantPool.has_code_before,
    ConstantPool.has_code_after.
  pose proof (existsb_view
                (fun v => fst (fst v) && (snd v <? Region.start_addr region)) l1 l2 H) as H1.
  pose proof (existsb_view
                (fun v => fst (fst v) && (snd (fst v) >? Region.end_addr region)) l1 l2 H)
    as H2.
  unfold ConstantPool.view in H1, H2. cbn [fst snd] in H1, H2.
  rewrite H1, H2. reflexivity.
Qed.

Lemma reclassify_view (regions : list Region.t) (region : Region.t) :
  ConstantPool.view (ConstantPool.reclassify regions region) = ConstantPool.view region.
Proof.
  unfold ConstantPool.reclassify, ConstantPool.is_pool.
  destruct (Region.region_type region) eqn:E; cbn [RegionType.eqb andb]; try reflexivity.
  destruct (_ && _ && _); unfold ConstantPool.view; cbn; rewrite ?E; reflexivity.
Qed.

Lemma detect_constant_pools_from_map :
  forall (todo done orig : list Region.t),
    map ConstantPool.view done = map ConstantPool.view orig ->
    RegionClassifier.detect_constant_pools_from done todo
    = done ++ map (ConstantPool.reclassify (orig ++ todo)) todo.
Proof.
  induction todo as [|region rest IH]; intros done orig Hv;
    cbn [RegionClassifier.detect_constant_pools_from map].
  - rewrite app_nil_r. reflexivity.
  - assert (Hv' : map ConstantPool.view (done ++ region :: rest)
                  = map ConstantPool.view (orig ++ region :: rest)).
    { rewrite !map_app, Hv. reflexivity. }
    assert (Hstep :
      (if RegionType.eqb (Region.region_type region) RegionType.UNKNOWN
          && (Region.end_addr region - Region.start_addr region + 1 <? 256)
          && existsb (fun r => RegionType.eqb (Region.region_type r) RegionType.CODE
                               && (Region.end_addr r <? Region.start_addr region))
                     (done ++ region :: rest)
          && existsb (fun r => RegionType.eqb (Region.region_type r) RegionType.CODE
                               && (Region.start_addr r >? Region.end_addr region))
                     (done ++ region :: rest)
       then Region.mk (Region.start_addr region) (Region.end_addr region)
              RegionType.DATA Confidence.MEDIUM
              "constant_pool_pattern (between code regions)"
              (Region.decode_rate region)
       else region)
      = ConstantPool.reclassify (orig ++ region :: rest) region).
    { unfold ConstantPool.reclassify.
      rewrite <- (is_pool_view (done ++ region :: rest) (orig ++ region :: rest) region Hv').
      reflexivity. }
    rewrite Hstep.
    rewrite (IH (done ++ [ConstantPool.reclassify (orig ++ region :: rest) region])
                (orig ++ [region])).
    + rewrite <- !app_assoc. reflexivity.
    + rewrite !map_app, Hv. cbn [map]. rewrite reclassify_view. reflexivity.
Qed.

Lemma detect_constant_pools_map (regions : list Region.t) :
  RegionClassifier._detect_constant_pools regions
  = map (ConstantPool.reclassify regions) regions.
Proof.
  unfold RegionClassifier._detect_constant_pools.
  rewrite (detect_constant_pools_from_map regions [] []); reflexivity.
Qed.

Lemma code_regions_reclassify (ctx l : list Region.t) :
  RegionClassifier.get_code_regions (map (ConstantPool.reclassify ctx) l)
  = RegionClassifier.get_code_regions l.
Proof.
  unfold RegionClassifier.get_code_regions.
  induction l as [|a l IH]; [reflexivity|]. cbn [map filter].
  assert (Hc : RegionType.eqb (Region.region_type (ConstantPool.reclassify ctx a))
                 RegionType.CODE
               = RegionType.eqb (Region.region_type a) RegionType.CODE).
  { pose proof (reclassify_view ctx a) as Hv. unfold ConstantPool.view in Hv. congruence. }
  rewrite Hc, IH.
  destruct (RegionType.eqb (Region.region_type a) RegionType.CODE) eqn:E; [|reflexivity].
  f_equal. unfold ConstantPool.reclassify, ConstantPool.is_pool.
  destruct (Region.region_type a); try discriminate. reflexivity.
Qed.

(** X20: although [_detect_constant_pools] updates the regions in place
    while it iterates, its result is the one obtained by testing every
    region against the list as it was before the pass; running the pass a
    second time changes nothing, and the pass neither adds nor removes a
    CODE region. *)
Theorem constant_pool_pass_is_simultaneous (regions : list Region.t) :
  RegionClassifier._detect_constant_pools regions
  = map (ConstantPool.reclassify regions) regions
  /\ RegionClassifier._detect_constant_pools (RegionClassifier._detect_constant_pools regions)
     = RegionClassifier._detect_constant_pools regions
  /\ RegionClassifier.get_code_regions (RegionClassifier._detect_constant_pools regions)
     = RegionClassifier.get_code_regions regions.
Proof.
  split; [apply detect_constant_pools_map|]. split.
  - rewrite !detect_constant_pools_map. rewrite map_map.
    apply map_ext_in. intros r Hr.
    assert (Hv : map ConstantPool.view (map (ConstantPool.reclassify regions) regions)
                 = map ConstantPool.view regions).
    { rewrite map_map. apply map_ext. intros a. apply reclassify_view. }
    unfold ConstantPool.reclassify at 1.
    rewrite (is_pool_view _ _ _ Hv).
    unfold ConstantPool.reclassify.
    destruct (ConstantPool.is_pool regions r) eqn:E; [|rewrite E; reflexivity].
    unfold ConstantPool.is_pool. cbn. reflexivity.
  - rewrite detect_constant_pools_map. apply code_regions_reclassify.
Qed.


Lemma classify_section_consistent (f g : Q -> string) (start_addr end_addr : Z)
    (data : list Z) (imap : list (Z * Instruction.t)) :
  Classified.consistent (RegionClassifier._classify_section f g start_addr end_addr data imap).
Proof.
  unfold Classified.consistent, RegionClassifier._classify_section.
  unfold RegionClassifier.CODE_THRESHOLD, RegionClassifier.DATA_THRESHOLD.
  destruct (Qlt_le_dec _ _) as [Hc|Hc]; [|destruct (Qlt_le_dec _ _) as [Hd|Hd]];
    cbn [Region.region_type Region.decode_rate Region.confidence Region.evidence
         Region.start_addr Region.end_addr Classified.confidence_of];
    repeat split; try discriminate; try tauto; auto; intros; exfalso; lra.
Qed.

Lemma reclassify_consistent (ctx : list Region.t) (r : Region.t) :
  Classified.consistent r -> Classified.consistent (ConstantPool.reclassify ctx r).
Proof.
  intros Hr. unfold ConstantPool.reclassify.
  destruct (ConstantPool.is_pool ctx r) eqn:E; [|exact Hr].
  unfold ConstantPool.is_pool in E.
  apply andb_prop in E. destruct E as [E _].
  apply andb_prop in E. destruct E as [E _].
  apply andb_prop in E. destruct E as [Eu Es].
  apply Z.ltb_lt in Es.
  assert (Hu : Region.region_type r = RegionType.UNKNOWN).
  { destruct (Region.region_type r); try discriminate. reflexivity. }
  destruct Hr as (Hcode & Hunk & _ & _). specialize (Hunk Hu). destruct Hunk as [H1 H2].
  unfold Classified.consistent.
  cbn [Region.region_type Region.decode_rate Region.confidence Region.evidence
       Region.start_addr Region.end_addr Classified.confidence_of].
  repeat split; try discriminate; auto;
    try (intros H; apply Hcode in H; congruence);
    try (intros _; right; repeat split; auto).
Qed.

(** X21: [classify] returns one region per section, in order and with the
    section's bounds, and the type of every region agrees with its decode
    rate (an exact rational): CODE exactly above 0.70 with confidence
    HIGH, UNKNOWN only from 0.30 to 0.70 with confidence LOW, DATA with
    confidence MEDIUM either below 0.30 or, from 0.30 to 0.70, as a
    constant pool shorter than 256 bytes. *)
Theorem classify_follows_thresholds (f g : Q -> string)
    (sections : list (Z * Z * list Z)) (instructions : list Instruction.t) :
  let regions := RegionClassifier.classify f g sections instructions in
  map (fun r => (Region.start_addr r, Region.end_addr r)) regions = map fst sections
  /\ Forall Classified.consistent regions.
Proof.
  cbv zeta. unfold RegionClassifier.classify. rewrite detect_constant_pools_map.
  set (imap := Instruction.address_map instructions).
  set (rs0 := map _ sections).
  split.
  - rewrite map_map.
    transitivity (map (fun r => (Region.start_addr r, Region.end_addr r)) rs0).
    + apply map_ext. intros r. pose proof (reclassify_view rs0 r) as Hv.
      unfold ConstantPool.view in Hv. congruence.
    + unfold rs0. rewrite map_map. apply map_ext. intros [[s e] d].
      destruct (classify_section_fields f g s e d imap) as (Hs & He & _). cbv zeta in *.
      rewrite Hs, He. reflexivity.
  - apply Forall_forall. intros r Hr. apply in_map_iff in Hr.
    destruct Hr as [r0 [<- Hr0]]. apply reclassify_consistent.
    unfold rs0 in Hr0. apply in_map_iff in Hr0. destruct Hr0 as [[[s e] d] [<- _]].
    apply classify_section_consistent.
Qed.

Lemma region_bytes_partition (regions : list Region.t) :
  RegionClassifier.region_bytes regions
  = RegionClassifier.region_bytes (RegionClassifier.get_code_regions regions)
    + RegionClassifier.region_bytes (RegionClassifier.get_data_regions regions)
    + RegionClassifier.region_bytes (RegionClassifier.get_unknown_regions regions)
  /\ Py.len regions
     = Py.len (RegionClassifier.get_code_regions regions)
       + Py.len (RegionClassifier.get_data_regions regions)
       + Py.len (RegionClassifier.get_unknown_regions regions).
Proof.
  unfold RegionClassifier.region_bytes, RegionClassifier.get_code_regions,
    RegionClassifier.get_data_regions, RegionClassifier.get_unknown_regions, Py.len.
  induction regions as [|r l [IHb IHl]]; [split; reflexivity|].
  cbn [filter map fold_right List.length].
  destruct (Region.region_type r); cbn [RegionType.eqb map fold_right List.length];
    split; lia.
Qed.

(** X22: the three selectors partition the region list, so in
    [get_statistics] the region counts and the byte counts of CODE, DATA
    and UNKNOWN add up to the totals; with a total of zero bytes or less
    the three percentages are 0. *)
Theorem classification_statistics_add_up (regions : list Region.t) :
  let st := RegionClassifier.get_statistics regions in
  RegionClassifier.total_regions st
  = RegionClassifier.code_regions st + RegionClassifier.data_regions st
    + RegionClassifier.unknown_regions st
  /\ RegionClassifier.total_bytes st
     = RegionClassifier.code_bytes st + RegionClassifier.data_bytes st
       + RegionClassifier.unknown_bytes st
  /\ (forall r, In r regions <->
                In r (RegionClassifier.get_code_regions regions)
                \/ In r (RegionClassifier.get_data_regions regions)
                \/ In r (RegionClassifier.get_unknown_regions regions))
  /\ (RegionClassifier.total_bytes st <= 0 ->
      RegionClassifier.code_percentage st = 0%Q
      /\ RegionClassifier.data_percentage st = 0%Q
      /\ RegionClassifier.unknown_percentage st = 0%Q).
Proof.
  cbv zeta. destruct (region_bytes_partition regions) as [Hb Hl].
  unfold RegionClassifier.get_statistics.
  cbn [RegionClassifier.total_regions RegionClassifier.code_regions
       RegionClassifier.data_regions RegionClassifier.unknown_regions
       RegionClassifier.total_bytes RegionClassifier.code_bytes
       RegionClassifier.data_bytes RegionClassifier.unknown_bytes
       RegionClassifier.code_percentage RegionClassifier.data_percentage
       RegionClassifier.unknown_percentage].
  split; [exact Hl|]. split; [exact Hb|]. split.
  - intros r. unfold RegionClassifier.get_code_regions, RegionClassifier.get_data_regions,
      RegionClassifier.get_unknown_regions. rewrite !filter_In.
    destruct (Region.region_type r); cbn [RegionType.eqb]; intuition discriminate.
  - intros H. destruct (Z.gtb_spec (RegionClassifier.region_bytes regions) 0); [lia|].
    repeat split.
Qed.

(** ** Prologue detection *)

(** X24: whatever the buffer, no instruction of the disassembled stream
    passes the prologue test of [_detect_prologues] (mnemonic STM with
    first operand "14"): the decoder renders STM in SI format, with an
    immediate as first operand. *)
Theorem no_prologue_in_disassembled_stream (self0 : Disassembler.t) (data : list Z)
    (base : Z) (metadata : option ModuleMetadata.t) :
  existsb ProcedureDetector.prologue_pattern
    (DisassemblyResult.instructions
       (snd (Disassembler.disassemble self0 data base metadata))) = false.
Proof.
  destruct (disassemble_insts_ok self0 data base metadata) as [_ Hall]. cbv zeta in Hall.
  apply not_true_is_false. intros H. apply existsb_exists in H.
  destruct H as [inst [Hin Hp]]. rewrite Forall_forall in Hall.
  destruct (Hall inst Hin) as (Hd & _).
  rewrite (prologue_pattern_never_decoded _ _ _ _ Hd) in Hp. discriminate.
Qed.
